(** * epic-creator: the batch issue-creation pipeline of [main.go]

    A shallow embedding of [main.go] (package [main]) and the properties
    of its pipeline: [getEpic], [createIssues] and [main].

    The tracker client ([jira.Client]), the template engine
    ([text/template]) and the JSON decoder ([encoding/json]) are libraries
    outside the program; they are the variables of Section [Pipeline].
    Every call the program makes to them is recorded, in program order, in
    the [trace] component of the state. *)

From Stdlib Require Import ZArith Ascii String.
From stdpp Require Import base strings gmap list.

Open Scope string_scope.
Open Scope Z_scope.
Open Scope list_scope.

(** ** Go data *)

(** Go's [error] interface, as the message it carries; a nil [error] is
    [None] at type [option error]. *)
Definition error : Type := string.

(** What [json.Unmarshal] stores in an [interface{}]: nil, bool, float64
    (as its 64 bits), string, [[]interface{}] and
    [map[string]interface{}]. *)
#[warnings="-register-all"]
Inductive Value : Type :=
| VNil
| VBool (b : bool)
| VFloat64 (bits : Z)
| VString (s : string)
| VSlice (l : list Value)
| VMap (m : list (string * Value)).

(** A Go map is a reference: a [Ticket] holds the address of its [Params]
    map ([None] is the nil map), the maps themselves live in the heap. The
    loop variable of [createIssues] is a copy of the slice element, and the
    copy holds the same address. *)
Definition loc : Type := positive.

Abbreviation Heap := (gmap loc (gmap string Value)).

Record Ticket : Type := {
  Project : string;
  Params : option loc;
  CustomEpicField : string
}.

Record Creds : Type := {
  User : string;
  Password : string
}.

(** The part of package [jira] (gopkg.in/andygrunwald/go-jira.v1) that
    [main.go] reads and writes. Pointers are options. *)
Module jira.

Module IssueType.
Record t : Type := { ID : string; Name : string }.
End IssueType.

Module Project.
Record t : Type := {
  Key : string;
  Name : string;
  IssueTypes : list IssueType.t
}.
End Project.

Module Epic.
Record t : Type := { ID : Z; Key : string; Self : string }.
End Epic.

Module IssueFields.
Record t : Type := {
  Summary : string;
  Description : string;
  Type_ : IssueType.t;
  Project : Project.t;
  Epic : option Epic.t;
  Unknowns : option (gmap string Value)
}.

(** [fields.Unknowns = m] and [fields.Epic = e]. *)
Definition setUnknowns (m : gmap string Value) (f : t) : t :=
  {| Summary := Summary f; Description := Description f;
     Type_ := Type_ f; Project := Project f; Epic := Epic f;
     Unknowns := Some m |}.
Definition setEpic (e : option Epic.t) (f : t) : t :=
  {| Summary := Summary f; Description := Description f;
     Type_ := Type_ f; Project := Project f; Epic := e;
     Unknowns := Unknowns f |}.
End IssueFields.

Module Issue.
Record t : Type := {
  ID : string;
  Key : string;
  Self : string;
  Fields : option IssueFields.t
}.
End Issue.

(** [*jira.Response]: the request it answers and the body it carries,
    as [jiraAPIRequestErrorHandler] prints them. *)
Module Response.
Record t : Type := { Request : string; Body : string }.
End Response.

End jira.

(** The value a template or a [%v] verb sees when it is handed a
    [Ticket]: the fields, and the contents of the map behind [Params] at
    that moment. *)
Record TicketData : Type := {
  dataProject : string;
  dataParams : option (gmap string Value);
  dataCustomEpicField : string
}.

(** A parsed [*template.Template]: what [Execute] writes to its buffer for
    a given data value, and the error it returns. [loadTemplate] registers
    no function map, so the output is determined by the data. *)
Definition Template : Type := TicketData → string * option error.

(** ** Observable calls *)

Inductive Stream : Type := Stdout | Stderr.

Inductive TemplateName : Type := SummaryTemplate | DescriptionTemplate.

(** Operands of the [fmt] calls. *)
Inductive Operand : Type :=
| OString (s : string)
| OTicket (d : TicketData)
| ORequest (r : string)
| OBody (b : string)
| OIssue (i : jira.Issue.t)
| OFields (f : option jira.IssueFields.t).

(** [EvPrint w None ops] is [fmt.Fprint(w, ops...)];
    [EvPrint w (Some f) ops] is [fmt.Fprintf(w, f, ops...)] (and
    [fmt.Printf] on [Stdout]). The remote calls carry the error they
    returned. *)
Inductive Event : Type :=
| EvPrint (w : Stream) (format : option string) (ops : list Operand)
| EvSetBasicAuth (user password : string)
| EvIssueGet (name : string) (fields : string) (err : option error)
| EvProjectGet (key : string) (err : option error)
| EvIssueCreate (issue : jira.Issue.t) (err : option error)
| EvExecute (which : TemplateName) (data : TicketData).

(** What a Go [panic] carries: the argument of an explicit [panic(err)],
    or a runtime error. *)
Inductive PanicValue : Type :=
| PanicError (err : option error)
| RuntimeError (msg : string).

Definition nilDereference : PanicValue :=
  RuntimeError "invalid memory address or nil pointer dereference".
Definition indexOutOfRange : PanicValue :=
  RuntimeError "index out of range [0] with length 0".
Definition nilMapAssignment : PanicValue :=
  RuntimeError "assignment to entry in nil map".

(** How a piece of a function body ends: it falls through with a value,
    the enclosing function returns a (non-nil) error, or it panics. *)
Inductive Result (A : Type) : Type :=
| Next (a : A)
| Return (e : error)
| Panic (v : PanicValue).
Arguments Next {A} a.
Arguments Return {A} e.
Arguments Panic {A} v.

(** The line feed that ends the program's messages. *)
Definition LF : string := String (ascii_of_nat 10) EmptyString.

(** ** strconv.Atoi *)

Definition digitValue (a : ascii) : option Z :=
  let n := Z.of_nat (nat_of_ascii a) in
  if (48 <=? n) && (n <=? 57) then Some (n - 48) else None.

Fixpoint parseDigits (s : string) (acc : Z) : option Z :=
  match s with
  | EmptyString => Some acc
  | String a s' =>
      match digitValue a with
      | Some d => parseDigits s' (10 * acc + d)
      | None => None
      end
  end.

(** The double quote and the backslash. *)
Definition DQ : string := String (ascii_of_nat 34) EmptyString.
Definition BS : string := String (ascii_of_nat 92) EmptyString.

Definition lowerhex (n : Z) : string :=
  String (ascii_of_nat (Z.to_nat (if n <? 10 then 48 + n else 87 + n))) EmptyString.

(** [strconv.Quote] on one byte: the quote and the backslash are escaped,
    printable ASCII is kept, control characters are written as Go escapes.
    Bytes from 128 on are kept: they are taken as parts of printable
    UTF-8 text. *)
Definition quoteByte (a : ascii) : string :=
  let n := Z.of_nat (nat_of_ascii a) in
  if (n =? 34) || (n =? 92) then BS +:+ String a EmptyString
  else if ((32 <=? n) && (n <=? 126)) || (128 <=? n) then String a EmptyString
  else if n =? 7 then BS +:+ "a"
  else if n =? 8 then BS +:+ "b"
  else if n =? 12 then BS +:+ "f"
  else if n =? 10 then BS +:+ "n"
  else if n =? 13 then BS +:+ "r"
  else if n =? 9 then BS +:+ "t"
  else if n =? 11 then BS +:+ "v"
  else BS +:+ "x" +:+ lowerhex (n / 16) +:+ lowerhex (n mod 16).

Fixpoint quoteBytes (s : string) : string :=
  match s with
  | EmptyString => ""
  | String a s' => quoteByte a +:+ quoteBytes s'
  end.

Definition Quote (s : string) : string := DQ +:+ quoteBytes s +:+ DQ.

(** Base 10, an optional sign, at least one digit, and the value must fit
    Go's 64-bit [int]; the error names the input, quoted. *)
Definition Atoi (s : string) : Z + error :=
  let '(sign, digits) :=
    match s with
    | String "+" r => (1, r)
    | String "-" r => (-1, r)
    | _ => (1, s)
    end in
  match digits with
  | EmptyString => inr ("strconv.Atoi: parsing " +:+ Quote s +:+ ": invalid syntax")
  | _ =>
      match parseDigits digits 0 with
      | None => inr ("strconv.Atoi: parsing " +:+ Quote s +:+ ": invalid syntax")
      | Some n =>
          let v := sign * n in
          if (- 2 ^ 63 <=? v) && (v <? 2 ^ 63) then inl v
          else inr ("strconv.Atoi: parsing " +:+ Quote s +:+ ": value out of range")
      end
  end.

(** ** The tracker client *)

(** The three [jira.Client] services the program calls. [W] is the state
    of the remote tracker; each call returns Go's triple
    (value, response, error). *)
Record Client (W : Type) : Type := {
  Issue_Get : W → string → string →
              W * (option jira.Issue.t * option jira.Response.t * option error);
  Project_Get : W → string →
              W * (option jira.Project.t * option jira.Response.t * option error);
  Issue_Create : W → jira.Issue.t →
              W * (option jira.Issue.t * option jira.Response.t * option error)
}.
Arguments Issue_Get {W} _ _ _ _.
Arguments Project_Get {W} _ _ _.
Arguments Issue_Create {W} _ _ _.

(** The command line after [kingpin.Parse]. *)
Record Flags : Type := {
  url : string;
  authFilePath : string;
  ticketsFilePath : string;
  summaryTemplatePath : string;
  descriptionTemplatePath : string;
  epicName : string
}.

(** The locals of [createIssues] that live across loop iterations. *)
Record Locals : Type := {
  summaryBuf : string;
  descriptionBuf : string;
  projectCache : gmap string (option jira.Project.t)
}.

(** [bytes.NewBufferString("")] twice and [make(map[string]*jira.Project, 0)]. *)
Definition initialLocals : Locals :=
  {| summaryBuf := ""; descriptionBuf := ""; projectCache := ∅ |}.

(** The map behind an address; Go never holds the address of a map that
    does not exist, an address outside the heap reads as an empty map. *)
Definition mapAt (h : Heap) (p : loc) : gmap string Value :=
  default ∅ (h !! p).

Definition dataOf (h : Heap) (t : Ticket) : TicketData :=
  {| dataProject := Project t;
     dataParams := mapAt h <$> Params t;
     dataCustomEpicField := CustomEpicField t |}.

Section Pipeline.

Variable W : Type.
Variable client : Client W.

(** [ioutil.ReadFile]. *)
Variable ReadFile : string → string + error.
(** [json.Unmarshal(data, &tickets)] on an empty [[]Ticket]: the maps it
    allocates, the slice, the error. *)
Variable UnmarshalTickets : string → Heap → Heap * list Ticket * option error.
(** [json.Unmarshal(data, &creds)] on a zero [Creds]. *)
Variable UnmarshalCreds : string → Creds * option error.
(** [template.ParseFiles]. *)
Variable ParseFiles : string → Template + error.
(** [jira.NewClient(nil, url)]: the error it returns; the client it
    builds is [client]. *)
Variable NewClient : string → option error.

Record State : Type := {
  world : W;
  heap : Heap;
  trace : list Event
}.

Definition M (A : Type) : Type := State → State * Result A.

#[local] Instance M_ret : MRet M := λ A a s, (s, Next a).
#[local] Instance M_bind : MBind M := λ A B f m s,
  match m s with
  | (s', Next a) => f a s'
  | (s', Return e) => (s', Return e)
  | (s', Panic v) => (s', Panic v)
  end.

Definition return_ {A} (e : error) : M A := λ s, (s, Return e).
Definition panic {A} (v : PanicValue) : M A := λ s, (s, Panic v).

Definition emit (ev : Event) : M unit := λ s,
  ({| world := world s; heap := heap s; trace := trace s ++ [ev] |}, Next tt).

Definition readTicket (t : Ticket) : M TicketData := λ s,
  (s, Next (dataOf (heap s) t)).

(** [m[k] = v] on the map at address [p]. *)
Definition mapAssign (p : loc) (k : string) (v : Value) : M unit := λ s,
  ({| world := world s;
      heap := <[p := <[k := v]> (mapAt (heap s) p)]> (heap s);
      trace := trace s |}, Next tt).

Definition callIssueGet (name fields : string) :
    M (option jira.Issue.t * option jira.Response.t * option error) := λ s,
  let '(w, r) := Issue_Get client (world s) name fields in
  ({| world := w; heap := heap s;
      trace := trace s ++ [EvIssueGet name fields r.2] |}, Next r).

Definition callProjectGet (key : string) :
    M (option jira.Project.t * option jira.Response.t * option error) := λ s,
  let '(w, r) := Project_Get client (world s) key in
  ({| world := w; heap := heap s;
      trace := trace s ++ [EvProjectGet key r.2] |}, Next r).

Definition callIssueCreate (issue : jira.Issue.t) :
    M (option jira.Issue.t * option jira.Response.t * option error) := λ s,
  let '(w, r) := Issue_Create client (world s) issue in
  ({| world := w; heap := heap s;
      trace := trace s ++ [EvIssueCreate issue r.2] |}, Next r).

(** [tmpl.Execute(buf, ticket)]: the output is appended to the buffer,
    also when the template fails half way. *)
Definition Execute (which : TemplateName) (tmpl : Template)
    (buf : string) (data : TicketData) : M (string * option error) :=
  emit (EvExecute which data);;
  mret (buf +:+ (tmpl data).1, (tmpl data).2).

(** ** main.go *)

(** [err] is non-nil at both call sites. *)
Definition jiraAPIRequestErrorHandler
    (resp : option jira.Response.t) (err : error) : M error :=
  match resp with
  | None => panic nilDereference
  | Some r =>
      emit (EvPrint Stderr (Some ("Request: %v" +:+ LF))
              [ORequest (jira.Response.Request r)]);;
      emit (EvPrint Stderr (Some ("Response body: %s" +:+ LF))
              [OBody (jira.Response.Body r)]);;
      mret err
  end.

Definition loadTickets (ticketsFilePath : string) :
    M (list Ticket * option error) :=
  match ReadFile ticketsFilePath with
  | inr err => mret ([], Some err)
  | inl data => λ s,
      let '(h, tickets, err) := UnmarshalTickets data (heap s) in
      ({| world := world s; heap := h; trace := trace s |},
       Next (tickets, err))
  end.

Definition loadTemplate (issueTemplate : string) : Template + error :=
  ParseFiles issueTemplate.

Definition getCreds (authFilePath : string) : option Creds * option error :=
  match ReadFile authFilePath with
  | inr err => (None, Some err)
  | inl data =>
      let '(creds, err) := UnmarshalCreds data in (Some creds, err)
  end.

Section createIssues.

Variable summaryTemplate descriptionTemplate : Template.
Variable epic : option jira.Epic.t.

(** One iteration of the [for _, ticket := range tickets] loop; [ticket] is
    a copy of the slice element. *)
Definition iteration (ticket : Ticket) (l : Locals) : M Locals :=
  (* summaryBuf.Reset(); descriptionBuf.Reset() *)
  let summaryBuf0 := "" in
  let descriptionBuf0 := "" in
  (* _, ok := projectCache[ticket.Project]; if !ok { ... } *)
  cache ←
    match projectCache l !! Project ticket with
    | Some _ => mret (projectCache l)
    | None =>
        '(project, resp, err) ← callProjectGet (Project ticket);
        match err with
        | Some e => e' ← jiraAPIRequestErrorHandler resp e; return_ e'
        | None => mret (<[Project ticket := project]> (projectCache l))
        end
    end;
  (* project, _ := projectCache[ticket.Project] *)
  match cache !! Project ticket with
  | None | Some None => panic nilDereference
  | Some (Some project) =>
      (* if len(project.IssueTypes) == 0 { fmt.Fprint(os.Stderr, ...) } *)
      (if decide (length (jira.Project.IssueTypes project) = 0%nat) then
         data ← readTicket ticket;
         emit (EvPrint Stderr None
                 [OString ("No issue types found for project %s - Skipping creating %v"
                           +:+ LF);
                  OString (Project ticket);
                  OTicket data])
       else mret tt);;
      (* issueType := project.IssueTypes[0] *)
      match jira.Project.IssueTypes project with
      | [] => panic indexOutOfRange
      | issueType :: _ =>
          (* ticket.Params["epic"] = epic.Key *)
          match epic with
          | None => panic nilDereference
          | Some epic =>
              match Params ticket with
              | None => panic nilMapAssignment
              | Some p =>
                  mapAssign p "epic" (VString (jira.Epic.Key epic));;
                  (* err := summaryTemplate.Execute(summaryBuf, ticket) *)
                  data ← readTicket ticket;
                  '(summaryBuf1, err) ←
                    Execute SummaryTemplate summaryTemplate summaryBuf0 data;
                  match err with
                  | Some e => return_ e
                  | None =>
                      (* err = descriptionTemplate.Execute(descriptionBuf, ticket) *)
                      '(descriptionBuf1, err) ←
                        Execute DescriptionTemplate descriptionTemplate
                                descriptionBuf0 data;
                      match err with
                      | Some e => return_ e
                      | None =>
                          (* fields := jira.IssueFields{...} *)
                          let fields0 :=
                            {| jira.IssueFields.Summary := summaryBuf1;
                               jira.IssueFields.Description := descriptionBuf1;
                               jira.IssueFields.Type_ := issueType;
                               jira.IssueFields.Project := project;
                               jira.IssueFields.Epic := None;
                               jira.IssueFields.Unknowns := None |} in
                          (* if ticket.CustomEpicField != "" { fields.Unknowns = ... }
                             else { fields.Epic = epic } *)
                          let fields :=
                            if decide (CustomEpicField ticket ≠ "") then
                              jira.IssueFields.setUnknowns
                                {[ CustomEpicField ticket :=
                                     VString (jira.Epic.Key epic) ]} fields0
                            else jira.IssueFields.setEpic (Some epic) fields0 in
                          (* issue := jira.Issue{Fields: &fields} *)
                          let issue :=
                            {| jira.Issue.ID := ""; jira.Issue.Key := "";
                               jira.Issue.Self := "";
                               jira.Issue.Fields := Some fields |} in
                          (* createdIssue, resp, err := client.Issue.Create(&issue) *)
                          '(createdIssue, resp, err) ← callIssueCreate issue;
                          match err with
                          | Some e =>
                              e' ← jiraAPIRequestErrorHandler resp e; return_ e'
                          | None =>
                              (* fmt.Printf(..., *createdIssue, createdIssue.Fields) *)
                              match createdIssue with
                              | None => panic nilDereference
                              | Some created =>
                                  emit (EvPrint Stdout
                                          (Some ("Created: %v" +:+ LF +:+
                                                 "Issue Fields: %v" +:+ LF))
                                          [OIssue created;
                                           OFields (jira.Issue.Fields created)]);;
                                  mret {| summaryBuf := summaryBuf1;
                                          descriptionBuf := descriptionBuf1;
                                          projectCache := cache |}
                              end
                          end
                      end
                  end
              end
          end
      end
  end.

Fixpoint loop (tickets : list Ticket) (l : Locals) : M Locals :=
  match tickets with
  | [] => mret l
  | ticket :: rest => l' ← iteration ticket l; loop rest l'
  end.

(** [Next tt] is [return nil]. *)
Definition createIssues (tickets : list Ticket) : M unit :=
  loop tickets initialLocals;;
  mret tt.

End createIssues.

Definition getEpic (epicName : string) :
    M (option jira.Epic.t * option error) :=
  '(issue, resp, err) ← callIssueGet epicName "issuetype";
  match err with
  | Some e => e' ← jiraAPIRequestErrorHandler resp e; mret (None, Some e')
  | None =>
      match issue with
      | None => panic nilDereference
      | Some issue =>
          match jira.Issue.Fields issue with
          | None => panic nilDereference
          | Some fields =>
              if decide (jira.IssueType.Name (jira.IssueFields.Type_ fields) ≠ "Epic")
              then mret (None, err)
              else
                match Atoi (jira.Issue.ID issue) with
                | inr e => mret (None, Some e)
                | inl id =>
                    mret (Some {| jira.Epic.ID := id;
                                  jira.Epic.Self := jira.Issue.Self issue;
                                  jira.Epic.Key := jira.Issue.Key issue |}, None)
                end
          end
      end
  end.

(** [main], from the line after [kingpin.Parse()]. *)
Definition main (flags : Flags) : M unit :=
  match getCreds (authFilePath flags) with
  | (_, Some err) => panic (A:=unit) (PanicError (Some err))
  | (None, None) => panic (A:=unit) nilDereference
  | (Some creds, None) =>
      match NewClient (url flags) with
      | Some err => panic (A:=unit) (PanicError (Some err))
      | None =>
          emit (EvSetBasicAuth (User creds) (Password creds));;
          match loadTemplate (summaryTemplatePath flags) with
          | inr err => panic (A:=unit) (PanicError (Some err))
          | inl summaryTemplate =>
              match loadTemplate (descriptionTemplatePath flags) with
              | inr err => panic (A:=unit) (PanicError (Some err))
              | inl descriptionTemplate =>
                  '(tickets, err) ← loadTickets (ticketsFilePath flags);
                  match err with
                  | Some err => panic (A:=unit) (PanicError (Some err))
                  | None =>
                      '(epic, err) ← getEpic (epicName flags);
                      match err with
                      | Some err => panic (A:=unit) (PanicError (Some err))
                      | None =>
                          match epic with
                          | None =>
                              emit (EvPrint Stderr
                                      (Some ("Found %s but it was not an epic." +:+ LF))
                                      [OString (epicName flags)]);;
                              panic (A:=unit) (PanicError err)
                          | Some _ =>
                              (* err = createIssues(...); if err != nil { panic(err) } *)
                              λ s : State,
                                match createIssues summaryTemplate
                                        descriptionTemplate epic tickets s with
                                | (s', Return err) =>
                                    (s', Panic (PanicError (Some err)))
                                | r => r
                                end
                          end
                      end
                  end
              end
          end
      end
  end.

End Pipeline.

Arguments State W : clear implicits.
Arguments world {W} _.
Arguments heap {W} _.
Arguments trace {W} _.
Arguments iteration {W} client summaryTemplate descriptionTemplate epic ticket l _.
Arguments loop {W} client summaryTemplate descriptionTemplate epic tickets l _.
Arguments createIssues {W} client summaryTemplate descriptionTemplate epic tickets _.
Arguments getEpic {W} client epicName _.
Arguments jiraAPIRequestErrorHandler {W} resp err _.
Arguments loadTickets {W} ReadFile UnmarshalTickets ticketsFilePath _.
Arguments main {W} client ReadFile UnmarshalTickets UnmarshalCreds ParseFiles
  NewClient flags _.
Arguments mapAssign {W} p k v _.
Arguments emit {W} ev _.

(** ** What a run did, read off its trace *)

(** The payloads handed to [client.Issue.Create], in call order. *)
Definition creates (evs : list Event) : list jira.Issue.t :=
  omap (λ ev, match ev with EvIssueCreate i _ => Some i | _ => None end) evs.

(** The payloads of the creations that the tracker accepted. *)
Definition created (evs : list Event) : list jira.Issue.t :=
  omap (λ ev, match ev with EvIssueCreate i None => Some i | _ => None end) evs.

(** The keys handed to [client.Project.Get], in call order. *)
Definition lookups (evs : list Event) : list string :=
  omap (λ ev, match ev with EvProjectGet k _ => Some k | _ => None end) evs.

(** The data values handed to [Template.Execute], in call order. *)
Definition executes (evs : list Event) : list TicketData :=
  omap (λ ev, match ev with EvExecute _ d => Some d | _ => None end) evs.

(** A remote call of the loop that returned an error. *)
Definition failedRemoteCall (ev : Event) : Prop :=
  match ev with
  | EvProjectGet _ (Some _) | EvIssueCreate _ (Some _) => True
  | _ => False
  end.

(** The data a ticket is rendered with in a run that started in heap [h0]
    for the epic [e]: the ticket's fields, and its parameters as they were
    in [h0] with the epic's key written under ["epic"]. *)
Definition contextOf (h0 : Heap) (e : jira.Epic.t) (t : Ticket) : TicketData :=
  {| dataProject := Project t;
     dataParams :=
       (λ p, <["epic" := VString (jira.Epic.Key e)]> (mapAt h0 p)) <$> Params t;
     dataCustomEpicField := CustomEpicField t |}.

(** [h] after [ticket.Params["epic"] = key] for the map at [p]. *)
Definition injectEpic (key : string) (p : loc) (h : Heap) : Heap :=
  <[p := <["epic" := VString key]> (mapAt h p)]> h.

(** The heap [h] differs from [h0] only by writes of the epic's key under
    ["epic"], and only in maps whose address is in [ps]. *)
Definition epicWritten (epic : option jira.Epic.t) (ps : list loc)
    (h0 h : Heap) : Prop :=
  ∀ p, h !! p = h0 !! p ∨
       ∃ e, epic = Some e ∧ p ∈ ps ∧
            h !! p = Some (<["epic" := VString (jira.Epic.Key e)]> (mapAt h0 p)).

(** The payload [issue] is the one [createIssues] assembles for the epic
    [e] from a ticket rendered with data [d]. *)
Definition payloadFor (summaryTemplate descriptionTemplate : Template)
    (e : jira.Epic.t) (d : TicketData) (issue : jira.Issue.t) : Prop :=
  ∃ f, jira.Issue.Fields issue = Some f ∧
    jira.IssueFields.Summary f = (summaryTemplate d).1 ∧
    jira.IssueFields.Description f = (descriptionTemplate d).1 ∧
    head (jira.Project.IssueTypes (jira.IssueFields.Project f))
      = Some (jira.IssueFields.Type_ f) ∧
    (dataCustomEpicField d ≠ "" →
       jira.IssueFields.Unknowns f
         = Some {[ dataCustomEpicField d := VString (jira.Epic.Key e) ]} ∧
       jira.IssueFields.Epic f = None) ∧
    (dataCustomEpicField d = "" →
       jira.IssueFields.Epic f = Some e ∧ jira.IssueFields.Unknowns f = None).

(** What one iteration on [t] from locals [l] and state [s] does, in
    terms of the events [evs] it adds to the trace. *)
Record IterationSpec {W : Type} (summaryTemplate descriptionTemplate : Template)
    (epic : option jira.Epic.t) (t : Ticket) (l : Locals)
    (s s' : State W) (r : Result Locals) (evs : list Event) : Prop := {
  spec_trace : trace s' = trace s ++ evs;
  spec_lookups :
    lookups evs = match projectCache l !! Project t with
                  | Some _ => []
                  | None => [Project t]
                  end;
  spec_heap :
    heap s' = heap s ∨
    ∃ e p, epic = Some e ∧ Params t = Some p ∧
           heap s' = injectEpic (jira.Epic.Key e) p (heap s);
  spec_executes :
    Forall (λ d, ∃ e p, epic = Some e ∧ Params t = Some p ∧
                   heap s' = injectEpic (jira.Epic.Key e) p (heap s) ∧
                   d = dataOf (heap s') t) (executes evs);
  spec_creates :
    creates evs = [] ∨
    ∃ e p issue, epic = Some e ∧ Params t = Some p ∧
           heap s' = injectEpic (jira.Epic.Key e) p (heap s) ∧
           creates evs = [issue] ∧
           payloadFor summaryTemplate descriptionTemplate e (dataOf (heap s') t) issue;
  spec_cached : ∀ cached, projectCache l !! Project t = Some cached →
    Forall (λ i, ∃ f, jira.Issue.Fields i = Some f ∧
                      cached = Some (jira.IssueFields.Project f)) (creates evs);
  spec_next : ∀ l', r = Next l' →
    created evs = creates evs ∧ length (creates evs) = 1%nat ∧
    ¬ Exists failedRemoteCall evs ∧
    dom (projectCache l') = {[Project t]} ∪ dom (projectCache l) ∧
    (∀ k, k ≠ Project t → projectCache l' !! k = projectCache l !! k) ∧
    (is_Some (projectCache l !! Project t) → projectCache l' = projectCache l) ∧
    ∃ d, executes evs = [d; d] ∧
         summaryBuf l' = (summaryTemplate d).1 ∧
         descriptionBuf l' = (descriptionTemplate d).1;
  spec_failed : Exists failedRemoteCall evs →
    (∀ l', r ≠ Next l') ∧ created evs = []
}.
Arguments spec_trace {W summaryTemplate descriptionTemplate epic t l s s' r evs} _.
Arguments spec_lookups {W summaryTemplate descriptionTemplate epic t l s s' r evs} _.
Arguments spec_heap {W summaryTemplate descriptionTemplate epic t l s s' r evs} _.
Arguments spec_executes {W summaryTemplate descriptionTemplate epic t l s s' r evs} _.
Arguments spec_creates {W summaryTemplate descriptionTemplate epic t l s s' r evs} _.
Arguments spec_cached {W summaryTemplate descriptionTemplate epic t l s s' r evs} _.
Arguments spec_next {W summaryTemplate descriptionTemplate epic t l s s' r evs} _.
Arguments spec_failed {W summaryTemplate descriptionTemplate epic t l s s' r evs} _.

(** What the loop over [tickets] from locals [l] and state [s] does, in
    terms of the events [evs] it adds to the trace. *)
Record LoopSpec {W : Type} (summaryTemplate descriptionTemplate : Template)
    (epic : option jira.Epic.t) (tickets : list Ticket) (l : Locals)
    (s s' : State W) (r : Result Locals) (evs : list Event) : Prop := {
  run_trace : trace s' = trace s ++ evs;
  run_heap : epicWritten epic (omap Params tickets) (heap s) (heap s');
  run_lookups :
    NoDup (lookups evs) ∧
    ∀ k, k ∈ lookups evs → projectCache l !! k = None ∧ k ∈ Project <$> tickets;
  run_creates : ∃ n,
    Forall2 (λ t i, ∃ e, epic = Some e ∧
               payloadFor summaryTemplate descriptionTemplate e
                 (contextOf (heap s) e t) i)
            (take n tickets) (creates evs);
  run_executes :
    Forall (λ d, ∃ e t p, epic = Some e ∧ t ∈ tickets ∧ Params t = Some p ∧
                          d = contextOf (heap s) e t)
           (executes evs);
  run_next : ∀ l', r = Next l' →
    created evs = creates evs ∧ length (creates evs) = length tickets ∧
    ¬ Exists failedRemoteCall evs ∧
    dom (projectCache l) ⊆ dom (projectCache l') ∧
    Forall (λ t, ∃ e p, epic = Some e ∧ Params t = Some p ∧
              heap s' !! p
              = Some (<["epic" := VString (jira.Epic.Key e)]> (mapAt (heap s) p)))
           tickets;
  run_failed : Exists failedRemoteCall evs → ∀ l', r ≠ Next l'
}.
Arguments run_trace {W summaryTemplate descriptionTemplate epic tickets l s s' r evs} _.
Arguments run_heap {W summaryTemplate descriptionTemplate epic tickets l s s' r evs} _.
Arguments run_lookups {W summaryTemplate descriptionTemplate epic tickets l s s' r evs} _.
Arguments run_creates {W summaryTemplate descriptionTemplate epic tickets l s s' r evs} _.
Arguments run_executes {W summaryTemplate descriptionTemplate epic tickets l s s' r evs} _.
Arguments run_next {W summaryTemplate descriptionTemplate epic tickets l s s' r evs} _.
Arguments run_failed {W summaryTemplate descriptionTemplate epic tickets l s s' r evs} _.

(** [createIssues] is the loop from the initial locals; what it returns is
    what the loop ends with, the final locals dropped. *)
Definition finish (r : Result Locals) : Result unit :=
  match r with
  | Next _ => Next tt
  | Return e => Return e
  | Panic v => Panic v
  end.

(** ** A small tracker, for running the program on concrete inputs *)

Module Demo.

Definition story : jira.IssueType.t :=
  {| jira.IssueType.ID := "7"; jira.IssueType.Name := "Story" |}.
Definition bug : jira.IssueType.t :=
  {| jira.IssueType.ID := "1"; jira.IssueType.Name := "Bug" |}.
Definition task : jira.IssueType.t :=
  {| jira.IssueType.ID := "3"; jira.IssueType.Name := "Task" |}.
Definition epicType : jira.IssueType.t :=
  {| jira.IssueType.ID := "6"; jira.IssueType.Name := "Epic" |}.

Definition projectX : jira.Project.t :=
  {| jira.Project.Key := "X"; jira.Project.Name := "X";
     jira.Project.IssueTypes := [story; bug] |}.
Definition projectY : jira.Project.t :=
  {| jira.Project.Key := "Y"; jira.Project.Name := "Y";
     jira.Project.IssueTypes := [task] |}.
(** A project without issue types. *)
Definition projectE : jira.Project.t :=
  {| jira.Project.Key := "E"; jira.Project.Name := "E";
     jira.Project.IssueTypes := [] |}.

Definition response (request : string) : jira.Response.t :=
  {| jira.Response.Request := request; jira.Response.Body := "{}" |}.

Definition blankFields : jira.IssueFields.t :=
  {| jira.IssueFields.Summary := ""; jira.IssueFields.Description := "";
     jira.IssueFields.Type_ := {| jira.IssueType.ID := ""; jira.IssueType.Name := "" |};
     jira.IssueFields.Project :=
       {| jira.Project.Key := ""; jira.Project.Name := "";
          jira.Project.IssueTypes := [] |};
     jira.IssueFields.Epic := None; jira.IssueFields.Unknowns := None |}.

Definition issueOfType (id key : string) (ty : jira.IssueType.t) : jira.Issue.t :=
  {| jira.Issue.ID := id; jira.Issue.Key := key;
     jira.Issue.Self := "https://jira/rest/api/2/issue/" +:+ id;
     jira.Issue.Fields :=
       Some {| jira.IssueFields.Summary := ""; jira.IssueFields.Description := "";
               jira.IssueFields.Type_ := ty;
               jira.IssueFields.Project := jira.IssueFields.Project blankFields;
               jira.IssueFields.Epic := None;
               jira.IssueFields.Unknowns := None |} |}.

(** The tracker's state is the number of issues it has created. It knows
    the projects X, Y and E, answers 500 for Z, refuses issues in Y, and
    holds the epic PROJ-1 and the task PROJ-5. *)
Definition tracker : Client nat :=
  {| Issue_Get := λ w name _,
       if decide (name = "PROJ-1") then
         (w, (Some (issueOfType "10001" "PROJ-1" epicType), Some (response "GET issue"), None))
       else if decide (name = "PROJ-5") then
         (w, (Some (issueOfType "10005" "PROJ-5" task), Some (response "GET issue"), None))
       else (w, (None, Some (response "GET issue"), Some "404 Not Found"));
     Project_Get := λ w key,
       if decide (key = "X") then (w, (Some projectX, Some (response "GET project"), None))
       else if decide (key = "Y") then (w, (Some projectY, Some (response "GET project"), None))
       else if decide (key = "E") then (w, (Some projectE, Some (response "GET project"), None))
       else (w, (None, Some (response "GET project"), Some "500 Internal Server Error"));
     Issue_Create := λ w issue,
       match jira.Issue.Fields issue with
       | Some f =>
           if decide (jira.Project.Key (jira.IssueFields.Project f) = "Y") then
             (w, (None, Some (response "POST issue"), Some "403 Forbidden"))
           else
             (S w, (Some {| jira.Issue.ID := "20000"; jira.Issue.Key := "NEW";
                            jira.Issue.Self := ""; jira.Issue.Fields := Some f |},
                    Some (response "POST issue"), None))
       | None => (w, (None, Some (response "POST issue"), Some "400 Bad Request"))
       end |}.

(** [Summary for {{ .Project }}]. *)
Definition summaryTmpl : Template :=
  λ d, ("Summary for " +:+ dataProject d, None).

(** [See {{ index .Params "epic" }}], for string parameters. *)
Definition descriptionTmpl : Template :=
  λ d, match dataParams d ≫= (.!! "epic") with
       | Some (VString k) => ("See " +:+ k, None)
       | _ => ("See ", Some "template: error calling index")
       end.

Definition epic1 : jira.Epic.t :=
  {| jira.Epic.ID := 10001; jira.Epic.Key := "PROJ-1";
     jira.Epic.Self := "https://jira/rest/api/2/issue/10001" |}.

(** Two parameter maps; the second declares its own ["epic"]. *)
Definition heap0 : Heap :=
  {[ 1%positive := {[ "a" := VFloat64 4607182418800017408 ]};
     2%positive := {[ "epic" := VString "OTHER-9"; "b" := VBool true ]} ]}.

Definition state0 : State nat :=
  {| world := 0%nat; heap := heap0; trace := [] |}.

Definition ticket (project : string) (params : option loc) (field : string) : Ticket :=
  {| Project := project; Params := params; CustomEpicField := field |}.

(** The files of a run. The tickets file lists one ticket of project X
    that has no [params] key: [json.Unmarshal] leaves its [Params] nil. *)
Definition readFile (path : string) : string + error :=
  if decide (path = "auth.json") then inl "{...}"
  else if decide (path = "tickets.json") then inl "[{...}]"
  else inr ("open " +:+ path +:+ ": no such file or directory").
Definition unmarshalTickets (data : string) (h : Heap) :
    Heap * list Ticket * option error :=
  (h, [ticket "X" None ""], None).
Definition unmarshalCreds (data : string) : Creds * option error :=
  ({| User := "me"; Password := "secret" |}, None).
Definition parseFiles (path : string) : Template + error :=
  if decide (path = "summary.jira.tmpl") then inl summaryTmpl
  else if decide (path = "description.jira.tmpl") then inl descriptionTmpl
  else inr ("open " +:+ path +:+ ": no such file or directory").
Definition newClient (url : string) : option error := None.

Definition flags (epic : string) : Flags :=
  {| url := "https://jira"; authFilePath := "auth.json";
     ticketsFilePath := "tickets.json";
     summaryTemplatePath := "summary.jira.tmpl";
     descriptionTemplatePath := "description.jira.tmpl";
     epicName := epic |}.

Definition run (tickets : list Ticket) : State nat * Result unit :=
  createIssues tracker summaryTmpl descriptionTmpl (Some epic1) tickets state0.

Definition runMain (epic : string) : State nat * Result unit :=
  main tracker readFile unmarshalTickets unmarshalCreds parseFiles newClient
    (flags epic) state0.

End Demo.

(** ** Runs on the small tracker *)

Module Runs.

Import Demo.

Definition ticketX1 : Ticket := ticket "X" (Some 1%positive) "".
Definition ticketX2 : Ticket := ticket "X" (Some 2%positive) "customfield_10008".
Definition ticketE : Ticket := ticket "E" (Some 1%positive) "".
Definition ticketZ : Ticket := ticket "Z" (Some 2%positive) "".

(** The loop after the tickets [pre], and the iteration that follows. *)
Definition afterLoop (pre : list Ticket) : State nat * Result Locals :=
  loop tracker summaryTmpl descriptionTmpl (Some epic1) pre initialLocals state0.
Definition localsOf (r : Result Locals) : Locals :=
  match r with Next l => l | _ => initialLocals end.
Definition afterNext (pre : list Ticket) (t : Ticket) : State nat * Result Locals :=
  iteration tracker summaryTmpl descriptionTmpl (Some epic1) t
    (localsOf (afterLoop pre).2) (afterLoop pre).1.
Definition eventsOfNext (pre : list Ticket) (t : Ticket) : list Event :=
  drop (length (trace (afterLoop pre).1)) (trace (afterNext pre t).1).

(** A cache that holds project X. *)
Definition cachedX : Locals :=
  {| summaryBuf := "left over"; descriptionBuf := "left over";
     projectCache := {[ "X" := Some projectX ]} |}.

End Runs.

(** ** More of what a run did, and the shapes of its trace *)

(** The names handed to [client.Issue.Get], in call order. *)
Definition issueGets (evs : list Event) : list string :=
  omap (λ ev, match ev with EvIssueGet n _ _ => Some n | _ => None end) evs.

(** A call to the tracker. *)
Definition remoteCall (ev : Event) : Prop :=
  match ev with
  | EvIssueGet _ _ _ | EvProjectGet _ _ | EvIssueCreate _ _ => True
  | _ => False
  end.

(** What [jiraAPIRequestErrorHandler] prints for a response. *)
Definition requestDiagnostics (resp : jira.Response.t) : list Event :=
  [EvPrint Stderr (Some ("Request: %v" +:+ LF)) [ORequest (jira.Response.Request resp)];
   EvPrint Stderr (Some ("Response body: %s" +:+ LF)) [OBody (jira.Response.Body resp)]].

(** The lookup an iteration starts with: none when the ticket's project is
    in the cache. *)
Definition lookupEvents (l : Locals) (t : Ticket) (err : option error) : list Event :=
  match projectCache l !! Project t with
  | Some _ => []
  | None => [EvProjectGet (Project t) err]
  end.

(** The diagnostic for a project without issue types. *)
Definition skipDiagnostic (d : TicketData) : Event :=
  EvPrint Stderr None
    [OString ("No issue types found for project %s - Skipping creating %v" +:+ LF);
     OString (dataProject d); OTicket d].

(** The confirmation of a created issue. *)
Definition confirmation (created : jira.Issue.t) : Event :=
  EvPrint Stdout (Some ("Created: %v" +:+ LF +:+ "Issue Fields: %v" +:+ LF))
    [OIssue created; OFields (jira.Issue.Fields created)].

(** How an iteration on [t] from locals [l] and state [s] can end, with
    the events [evs] it added; [h'] is the heap it leaves. *)
Definition iterationOutcome {W : Type} (summaryTemplate descriptionTemplate : Template)
    (epic : option jira.Epic.t) (t : Ticket) (l : Locals) (s s' : State W)
    (evs : list Event) (r : Result Locals) : Prop :=
  match r with
  | Next l' =>
      ∃ e p project issue f created,
        epic = Some e ∧ Params t = Some p ∧
        heap s' = injectEpic (jira.Epic.Key e) p (heap s) ∧
        (summaryTemplate (dataOf (heap s') t)).2 = None ∧
        (descriptionTemplate (dataOf (heap s') t)).2 = None ∧
        evs = lookupEvents l t None ++
              [EvExecute SummaryTemplate (dataOf (heap s') t);
               EvExecute DescriptionTemplate (dataOf (heap s') t);
               EvIssueCreate issue None;
               confirmation created] ∧
        jira.Issue.Fields issue = Some f ∧
        jira.IssueFields.Project f = project ∧
        projectCache l' !! Project t = Some (Some project)
  | Return err =>
      (∃ resp, projectCache l !! Project t = None ∧
               evs = EvProjectGet (Project t) (Some err) :: requestDiagnostics resp) ∨
      (∃ e p, epic = Some e ∧ Params t = Some p ∧
              heap s' = injectEpic (jira.Epic.Key e) p (heap s) ∧
              creates evs = [] ∧
              ((summaryTemplate (dataOf (heap s') t)).2 = Some err ∧
               executes evs = [dataOf (heap s') t]
               ∨
               (summaryTemplate (dataOf (heap s') t)).2 = None ∧
               (descriptionTemplate (dataOf (heap s') t)).2 = Some err ∧
               executes evs = [dataOf (heap s') t; dataOf (heap s') t])) ∨
      (∃ pre issue resp,
         evs = pre ++ EvIssueCreate issue (Some err) :: requestDiagnostics resp ∧
         creates pre = [])
  | Panic v =>
      (v = nilDereference ∨
       (v = indexOutOfRange ∧ heap s' = heap s ∧
        evs = lookupEvents l t None ++ [skipDiagnostic (dataOf (heap s) t)]) ∨
       (v = nilMapAssignment ∧ Params t = None ∧ heap s' = heap s ∧
        evs = lookupEvents l t None))
  end.

(** The events of one successfully processed ticket, after its lookup. *)
Definition ticketEvents (d : TicketData) (issue created : jira.Issue.t) : list Event :=
  [EvExecute SummaryTemplate d; EvExecute DescriptionTemplate d;
   EvIssueCreate issue None; confirmation created].

(** The events of a run in which every ticket succeeds: [c] gives the data
    a ticket is rendered with, [seen] are the project keys already in the
    cache, and [results] pairs, per ticket, the payload with the issue the
    tracker returned. *)
Fixpoint successEvents (c : Ticket → TicketData) (seen : gset string)
    (tickets : list Ticket) (results : list (jira.Issue.t * jira.Issue.t)) : list Event :=
  match tickets, results with
  | t :: ts, (issue, created) :: rs =>
      (if decide (Project t ∈ seen) then [] else [EvProjectGet (Project t) None])
      ++ ticketEvents (c t) issue created
      ++ successEvents c ({[Project t]} ∪ seen) ts rs
  | _, _ => []
  end.

(** The cache [l] and the map [m] do not disagree on a project. *)
Definition cacheAgrees (l : Locals) (m : gmap string jira.Project.t) : Prop :=
  ∀ k c p, projectCache l !! k = Some c → m !! k = Some p → c = Some p.

(** Everything [main] loads before it resolves the epic loaded without
    error: the credentials, the client, the two templates and the tickets
    (decoded into the heap [h] from the heap [h0]). *)
Definition inputsLoaded (ReadFile : string → string + error)
    (UnmarshalTickets : string → Heap → Heap * list Ticket * option error)
    (UnmarshalCreds : string → Creds * option error)
    (ParseFiles : string → Template + error)
    (NewClient : string → option error)
    (flags : Flags) (h0 : Heap) (creds : Creds)
    (summaryTemplate descriptionTemplate : Template)
    (h : Heap) (tickets : list Ticket) : Prop :=
  getCreds ReadFile UnmarshalCreds (authFilePath flags) = (Some creds, None) ∧
  NewClient (url flags) = None ∧
  loadTemplate ParseFiles (summaryTemplatePath flags) = inl summaryTemplate ∧
  loadTemplate ParseFiles (descriptionTemplatePath flags) = inl descriptionTemplate ∧
  ∃ data, ReadFile (ticketsFilePath flags) = inl data ∧
          UnmarshalTickets data h0 = (h, tickets, None).

(** The epic [getEpic] builds from an issue whose ID reads as [id]. *)
Definition epicOf (issue : jira.Issue.t) (id : Z) : jira.Epic.t :=
  {| jira.Epic.ID := id; jira.Epic.Key := jira.Issue.Key issue;
     jira.Epic.Self := jira.Issue.Self issue |}.

(** The project an iteration on [t] from locals [l] goes on with when the
    tracker is in state [w]: the one in the cache, or else the one
    [Project.Get] returns without an error; [None] when that call fails. *)
Definition resolvedProject {W : Type} (client : Client W) (l : Locals) (t : Ticket)
    (w : W) : option (option jira.Project.t) :=
  match projectCache l !! Project t with
  | Some project => Some project
  | None =>
      match Project_Get client w (Project t) with
      | (_, (project, _, None)) => Some project
      | (_, (_, _, Some _)) => None
      end
  end.

(** ** The earlier revision of the program

    The second Go file of the repository is an earlier [main.go]: tickets
    have no custom epic field, the epic is only checked to exist
    ([ensureEpicExists]), and [createIssues] prints each issue instead of
    creating it (the call to [client.Issue.Create] is commented out). *)

Module Earlier.

Record Ticket : Type := {
  Project : string;
  Params : option loc
}.

(** The value a template sees when it is handed a [Ticket]. *)
Record TicketData : Type := {
  dataProject : string;
  dataParams : option (gmap string Value)
}.

Definition Template : Type := TicketData → string * option error.

Definition dataOf (h : Heap) (t : Ticket) : TicketData :=
  {| dataProject := Project t; dataParams := mapAt h <$> Params t |}.

Inductive Operand : Type :=
| OString (s : string)
| OBool (b : bool)
| ORequest (r : string).

(** [EvPrintln f] is [fmt.Println(f)] for an [IssueFields] value. *)
Inductive Event : Type :=
| EvFprintf (w : Stream) (format : string) (ops : list Operand)
| EvPrintln (fields : jira.IssueFields.t)
| EvSetBasicAuth (user password : string)
| EvIssueGet (name : string) (fields : string) (err : option error)
| EvExecute (which : TemplateName) (data : TicketData).

(** The zero [jira.IssueType], and [jira.Project{Name: name}]. *)
Definition noIssueType : jira.IssueType.t :=
  {| jira.IssueType.ID := ""; jira.IssueType.Name := "" |}.
Definition projectNamed (name : string) : jira.Project.t :=
  {| jira.Project.Key := ""; jira.Project.Name := name;
     jira.Project.IssueTypes := [] |}.

Section Pipeline.

Variable W : Type.
Variable client : Client W.
Variable ReadFile : string → string + error.
Variable UnmarshalTickets : string → Heap → Heap * list Ticket * option error.
Variable UnmarshalCreds : string → Creds * option error.
Variable ParseFiles : string → Template + error.
Variable NewClient : string → option error.

Record State : Type := {
  world : W;
  heap : Heap;
  trace : list Event
}.

Definition M (A : Type) : Type := State → State * Result A.

#[local] Instance M_ret : MRet M := λ A a s, (s, Next a).
#[local] Instance M_bind : MBind M := λ A B f m s,
  match m s with
  | (s', Next a) => f a s'
  | (s', Return e) => (s', Return e)
  | (s', Panic v) => (s', Panic v)
  end.

Definition return_ {A} (e : error) : M A := λ s, (s, Return e).
Definition panic {A} (v : PanicValue) : M A := λ s, (s, Panic v).

Definition emit (ev : Event) : M unit := λ s,
  ({| world := world s; heap := heap s; trace := trace s ++ [ev] |}, Next tt).

Definition readTicket (t : Ticket) : M TicketData := λ s,
  (s, Next (dataOf (heap s) t)).

Definition mapAssign (p : loc) (k : string) (v : Value) : M unit := λ s,
  ({| world := world s;
      heap := <[p := <[k := v]> (mapAt (heap s) p)]> (heap s);
      trace := trace s |}, Next tt).

Definition callIssueGet (name fields : string) :
    M (option jira.Issue.t * option jira.Response.t * option error) := λ s,
  let '(w, r) := Issue_Get client (world s) name fields in
  ({| world := w; heap := heap s;
      trace := trace s ++ [EvIssueGet name fields r.2] |}, Next r).

Definition Execute (which : TemplateName) (tmpl : Template)
    (buf : string) (data : TicketData) : M (string * option error) :=
  emit (EvExecute which data);;
  mret (buf +:+ (tmpl data).1, (tmpl data).2).

Definition loadTickets (ticketsFilePath : string) :
    M (list Ticket * option error) :=
  match ReadFile ticketsFilePath with
  | inr err => mret ([], Some err)
  | inl data => λ s,
      let '(h, tickets, err) := UnmarshalTickets data (heap s) in
      ({| world := world s; heap := h; trace := trace s |},
       Next (tickets, err))
  end.

Definition loadTemplate (issueTemplate : string) : Template + error :=
  ParseFiles issueTemplate.

Section createIssues.

Variable summaryTemplate descriptionTemplate : Template.
Variable epic : option jira.Epic.t.

(** One iteration of the loop, from the contents of the two buffers to
    their contents after it. *)
Definition iteration (ticket : Ticket) (bufs : string * string) :
    M (string * string) :=
  let '(summaryBuf0, descriptionBuf0) := bufs in
  (* ticket.Params["epic"] = epic.Key *)
  match epic with
  | None => panic nilDereference
  | Some epic =>
      match Params ticket with
      | None => panic nilMapAssignment
      | Some p =>
          mapAssign p "epic" (VString (jira.Epic.Key epic));;
          (* err := summaryTemplate.Execute(summaryBuf, ticket) *)
          data ← readTicket ticket;
          '(summaryBuf1, err) ←
            Execute SummaryTemplate summaryTemplate summaryBuf0 data;
          match err with
          | Some e => return_ e
          | None =>
              (* err = descriptionTemplate.Execute(descriptionBuf, ticket) *)
              '(descriptionBuf1, err) ←
                Execute DescriptionTemplate descriptionTemplate
                        descriptionBuf0 data;
              match err with
              | Some e => return_ e
              | None =>
                  (* issue := jira.Issue{Fields: &jira.IssueFields{...}} *)
                  let fields :=
                    {| jira.IssueFields.Summary := summaryBuf1;
                       jira.IssueFields.Description := descriptionBuf1;
                       jira.IssueFields.Type_ := noIssueType;
                       jira.IssueFields.Project := projectNamed (Project ticket);
                       jira.IssueFields.Epic := Some epic;
                       jira.IssueFields.Unknowns := None |} in
                  (* fmt.Println( *issue.Fields ) *)
                  emit (EvPrintln fields);;
                  (* summaryBuf.Reset(); descriptionBuf.Reset() *)
                  mret ("", "")
              end
          end
      end
  end.

Fixpoint loop (tickets : list Ticket) (bufs : string * string) :
    M (string * string) :=
  match tickets with
  | [] => mret bufs
  | ticket :: rest => bufs' ← iteration ticket bufs; loop rest bufs'
  end.

(** [Next tt] is [return nil]. *)
Definition createIssues (tickets : list Ticket) : M unit :=
  loop tickets ("", "");;
  mret tt.

End createIssues.

Definition ensureEpicExists (epic : string) : M (bool * option error) :=
  '(issue, resp, err) ← callIssueGet epic "issuetype";
  match err with
  | Some e =>
      match resp with
      | None => panic nilDereference
      | Some r =>
          emit (EvFprintf Stderr ("%v" +:+ LF) [ORequest (jira.Response.Request r)]);;
          mret (false, Some e)
      end
  | None =>
      match issue with
      | None => panic nilDereference
      | Some issue =>
          match jira.Issue.Fields issue with
          | None => panic nilDereference
          | Some fields =>
              mret (bool_decide (jira.IssueType.Name (jira.IssueFields.Type_ fields)
                                 = "Epic"), None)
          end
      end
  end.

(** [&jira.Epic{Key: name}]. *)
Definition epicNamed (name : string) : jira.Epic.t :=
  {| jira.Epic.ID := 0; jira.Epic.Key := name; jira.Epic.Self := "" |}.

(** [main], from the line after [kingpin.Parse()]. *)
Definition main (flags : Flags) : M unit :=
  match getCreds ReadFile UnmarshalCreds (authFilePath flags) with
  | (_, Some err) => panic (A:=unit) (PanicError (Some err))
  | (None, None) => panic (A:=unit) nilDereference
  | (Some creds, None) =>
      match NewClient (url flags) with
      | Some err => panic (A:=unit) (PanicError (Some err))
      | None =>
          emit (EvSetBasicAuth (User creds) (Password creds));;
          match loadTemplate (summaryTemplatePath flags) with
          | inr err => panic (A:=unit) (PanicError (Some err))
          | inl summaryTemplate =>
              match loadTemplate (descriptionTemplatePath flags) with
              | inr err => panic (A:=unit) (PanicError (Some err))
              | inl descriptionTemplate =>
                  '(tickets, err) ← loadTickets (ticketsFilePath flags);
                  match err with
                  | Some err => panic (A:=unit) (PanicError (Some err))
                  | None =>
                      '(haveEpic, err) ← ensureEpicExists (epicName flags);
                      (* if err != nil || !haveEpic { ...; panic(err) } *)
                      if bool_decide (err ≠ None) || negb haveEpic then
                        emit (EvFprintf Stderr
                                ("Looking for epic %s with result %v." +:+ LF)
                                [OString (epicName flags); OBool haveEpic]);;
                        panic (A:=unit) (PanicError err)
                      else
                        λ s : State,
                          match createIssues summaryTemplate descriptionTemplate
                                  (Some (epicNamed (epicName flags))) tickets s with
                          | (s', Return err) => (s', Panic (PanicError (Some err)))
                          | r => r
                          end
                  end
              end
          end
      end
  end.

End Pipeline.

Arguments State W : clear implicits.
Arguments world {W} _.
Arguments heap {W} _.
Arguments trace {W} _.
Arguments iteration {W} summaryTemplate descriptionTemplate epic ticket bufs _.
Arguments loop {W} summaryTemplate descriptionTemplate epic tickets bufs _.
Arguments createIssues {W} summaryTemplate descriptionTemplate epic tickets _.
Arguments ensureEpicExists {W} client epic _.
Arguments main {W} client ReadFile UnmarshalTickets UnmarshalCreds ParseFiles
  NewClient flags _.

(** The values printed by [createIssues], the data handed to the
    templates and the names handed to [Issue.Get], in order. *)
Definition prints (evs : list Event) : list jira.IssueFields.t :=
  omap (λ ev, match ev with EvPrintln f => Some f | _ => None end) evs.
Definition executes (evs : list Event) : list TicketData :=
  omap (λ ev, match ev with EvExecute _ d => Some d | _ => None end) evs.
Definition issueGets (evs : list Event) : list string :=
  omap (λ ev, match ev with EvIssueGet n _ _ => Some n | _ => None end) evs.

(** The data a ticket is rendered with in a run that started in heap [h0]
    for the epic [e]. *)
Definition contextOf (h0 : Heap) (e : jira.Epic.t) (t : Ticket) : TicketData :=
  {| dataProject := Project t;
     dataParams :=
       (λ p, <["epic" := VString (jira.Epic.Key e)]> (mapAt h0 p)) <$> Params t |}.

(** The fields [createIssues] prints for a ticket rendered with data [d]. *)
Definition fieldsFor (summaryTemplate descriptionTemplate : Template)
    (e : jira.Epic.t) (t : Ticket) (d : TicketData) : jira.IssueFields.t :=
  {| jira.IssueFields.Summary := (summaryTemplate d).1;
     jira.IssueFields.Description := (descriptionTemplate d).1;
     jira.IssueFields.Type_ := noIssueType;
     jira.IssueFields.Project := projectNamed (Project t);
     jira.IssueFields.Epic := Some e;
     jira.IssueFields.Unknowns := None |}.

End Earlier.

(** ** More runs on the small tracker *)

Module MoreRuns.

(** A tickets file with two tickets of project X, whose maps are at the
    addresses 1 and 2. *)
Definition unmarshalTwo (data : string) (h : Heap) :
    Heap * list Ticket * option error :=
  (h, [Runs.ticketX1; Runs.ticketX2], None).

Definition runMain (epic : string) : State nat * Result unit :=
  main Demo.tracker Demo.readFile unmarshalTwo Demo.unmarshalCreds Demo.parseFiles
    Demo.newClient (Demo.flags epic) Demo.state0.

(** The events of [runMain]. *)
Definition eventsOfMain (epic : string) : list Event := trace (runMain epic).1.

(** The earlier revision on the same tracker and files. *)
Definition earlierSummary : Earlier.Template :=
  λ d, ("Summary for " +:+ Earlier.dataProject d, None).
Definition earlierDescription : Earlier.Template :=
  λ d, match Earlier.dataParams d ≫= (.!! "epic") with
       | Some (VString k) => ("See " +:+ k, None)
       | _ => ("See ", Some "template: error calling index")
       end.
Definition earlierTickets : list Earlier.Ticket :=
  [ {| Earlier.Project := "X"; Earlier.Params := Some 1%positive |};
    {| Earlier.Project := "Y"; Earlier.Params := Some 2%positive |} ].
Definition earlierState0 : Earlier.State nat :=
  {| Earlier.world := 0%nat; Earlier.heap := Demo.heap0; Earlier.trace := [] |}.
Definition earlierUnmarshal (data : string) (h : Heap) :
    Heap * list Earlier.Ticket * option error :=
  (h, earlierTickets, None).
Definition earlierParse (path : string) : Earlier.Template + error :=
  if decide (path = "summary.jira.tmpl") then inl earlierSummary
  else if decide (path = "description.jira.tmpl") then inl earlierDescription
  else inr ("open " +:+ path +:+ ": no such file or directory").
Definition earlierRun : Earlier.State nat * Result unit :=
  Earlier.createIssues earlierSummary earlierDescription (Some Demo.epic1)
    earlierTickets earlierState0.
Definition earlierRunMain (epic : string) : Earlier.State nat * Result unit :=
  Earlier.main Demo.tracker Demo.readFile earlierUnmarshal Demo.unmarshalCreds
    earlierParse Demo.newClient (Demo.flags epic) earlierState0.

End MoreRuns.

(** ** Properties *)

(** Unfolding of the monadic operations and of the bodies of the program's
    functions. *)
Ltac unfold_M :=
  unfold jiraAPIRequestErrorHandler, callProjectGet, callIssueCreate,
    callIssueGet, Execute, readTicket, mapAssign, emit, panic, return_,
    mbind, mret, M_bind, M_ret.
Ltac unfold_iteration := unfold iteration; unfold_M.
Ltac unfold_createIssues := unfold createIssues; unfold_M.
Ltac unfold_main := unfold main, loadTickets; unfold_M.

Ltac unfold_earlier :=
  unfold Earlier.iteration, Earlier.ensureEpicExists, Earlier.callIssueGet,
    Earlier.Execute, Earlier.readTicket, Earlier.mapAssign, Earlier.emit,
    Earlier.panic, Earlier.return_, mbind, mret, Earlier.M_bind, Earlier.M_ret.

Lemma mapAt_injectEpic key p h :
  mapAt (injectEpic key p h) p = <["epic" := VString key]> (mapAt h p).
Proof. unfold mapAt at 1, injectEpic. by rewrite lookup_insert_eq. Qed.

Lemma dataOf_injectEpic e p h t :
  Params t = Some p →
  dataOf (injectEpic (jira.Epic.Key e) p h) t = contextOf h e t.
Proof.
  intros Hp. unfold dataOf, contextOf. rewrite Hp. simpl.
  by rewrite mapAt_injectEpic.
Qed.

Lemma epicWritten_refl epic ps h : epicWritten epic ps h h.
Proof. intros p. by left. Qed.

Lemma epicWritten_injectEpic e p h :
  epicWritten (Some e) [p] h (injectEpic (jira.Epic.Key e) p h).
Proof.
  intros q. unfold injectEpic. destruct (decide (q = p)) as [->|Hne].
  - right. exists e. rewrite lookup_insert_eq. split_and!; [done | set_solver | done].
  - left. by rewrite lookup_insert_ne.
Qed.

Lemma epicWritten_trans epic ps1 ps2 h0 h1 h2 :
  epicWritten epic ps1 h0 h1 → epicWritten epic ps2 h1 h2 →
  epicWritten epic (ps1 ++ ps2) h0 h2.
Proof.
  intros H1 H2 p. destruct (H2 p) as [E2 | (e & -> & Hin & E2)].
  - rewrite E2. destruct (H1 p) as [E1 | (e & -> & Hin & E1)]; [by left |].
    right. exists e. split_and!; [done | set_solver | done].
  - right. exists e. split_and!; [done | set_solver |].
    rewrite E2. f_equal. unfold mapAt.
    destruct (H1 p) as [-> | (e' & [= <-] & _ & ->)]; [done |].
    simpl. by rewrite insert_insert_eq.
Qed.

(** Writing the key again gives the same map, whichever heap one starts from. *)
Lemma epicWritten_rebase e ps h0 h1 p :
  epicWritten (Some e) ps h0 h1 →
  <["epic" := VString (jira.Epic.Key e)]> (mapAt h1 p)
  = <["epic" := VString (jira.Epic.Key e)]> (mapAt h0 p).
Proof.
  intros H. unfold mapAt.
  destruct (H p) as [-> | (e' & [= <-] & _ & ->)]; [done |].
  simpl. by rewrite insert_insert_eq.
Qed.

Lemma contextOf_epicWritten e ps h0 h1 t :
  epicWritten (Some e) ps h0 h1 → contextOf h1 e t = contextOf h0 e t.
Proof.
  intros H. unfold contextOf. f_equal. destruct (Params t) as [p|]; [| done].
  simpl. f_equal. by eapply epicWritten_rebase.
Qed.

(** Entries other than ["epic"] are the same in both heaps. *)
Lemma epicWritten_frame epic ps h0 h p k :
  epicWritten epic ps h0 h → k ≠ "epic" → mapAt h p !! k = mapAt h0 p !! k.
Proof.
  intros H Hk. unfold mapAt at 1.
  destruct (H p) as [-> | (e & _ & _ & ->)]; [done |].
  simpl. by rewrite lookup_insert_ne.
Qed.

Lemma creates_app evs1 evs2 : creates (evs1 ++ evs2) = creates evs1 ++ creates evs2.
Proof. apply omap_app. Qed.
Lemma created_app evs1 evs2 : created (evs1 ++ evs2) = created evs1 ++ created evs2.
Proof. apply omap_app. Qed.
Lemma lookups_app evs1 evs2 : lookups (evs1 ++ evs2) = lookups evs1 ++ lookups evs2.
Proof. apply omap_app. Qed.
Lemma executes_app evs1 evs2 : executes (evs1 ++ evs2) = executes evs1 ++ executes evs2.
Proof. apply omap_app. Qed.

Section Properties.

Context {W : Type} (client : Client W).
Context (summaryTemplate descriptionTemplate : Template).

Abbreviation iteration := (iteration client summaryTemplate descriptionTemplate).
Abbreviation loop := (loop client summaryTemplate descriptionTemplate).
Abbreviation createIssues := (createIssues client summaryTemplate descriptionTemplate).

Lemma iteration_spec epic t l s s' r :
  iteration epic t l s = (s', r) → ∃ evs, IterationSpec summaryTemplate descriptionTemplate epic t l s s' r evs.
Proof.
  unfold_iteration.
  intros H.
  repeat (simplify_eq/= ||
          match goal with
          | H : context [<[_:=_]> _ !! _] |- _ => rewrite lookup_insert_eq in H
          | H : context [match ?x with _ => _ end] |- _ =>
              let E := fresh "E" in destruct x eqn:E
          end).
  all: rewrite <- ?app_assoc.
  all: first [ eexists; split; [simpl; reflexivity | ..]
             | exists []; split; [simpl; by rewrite app_nil_r | ..] ].
  all: simpl.
  all: try match goal with E : projectCache _ !! _ = _ |- _ => rewrite E end.
  all: try done.
  all: try (left; reflexivity).
  all: try solve [right; eauto 10].
  all: try solve [repeat constructor; eauto 10].
  all: try solve [intros; simplify_eq].
  all: try solve [intros ? [= <-]; repeat constructor; eexists; by split].
  all: try solve [rewrite ?Exists_cons, ?Exists_nil; simpl; naive_solver].
  all: try solve
    [ right; do 3 eexists; split_and!; try done;
      eexists; split; [reflexivity |]; simpl;
      match goal with E : jira.Project.IssueTypes _ = _ |- _ => rewrite E end;
      split_and!; try done; intros; by split_and! ].
  all: intros l' [= <-]; simpl; split_and!; try done.
  all: try solve [rewrite ?Exists_cons, ?Exists_nil; simpl; naive_solver].
  all: try solve [eexists; split_and!; reflexivity].
  all: try solve [intros; by rewrite lookup_insert_ne].
  all: try solve [rewrite dom_insert_L; done].
  all: try match goal with
           | E : projectCache _ !! _ = Some _ |- _ =>
               apply elem_of_dom_2 in E; set_solver
           | E : projectCache _ !! _ = None |- _ =>
               rewrite E; by intros [? ?]
           end.
Qed.

Lemma loop_cons epic t ts l s :
  loop epic (t :: ts) l s =
  match iteration epic t l s with
  | (s1, Next l1) => loop epic ts l1 s1
  | (s1, Return e) => (s1, Return e)
  | (s1, Panic v) => (s1, Panic v)
  end.
Proof. reflexivity. Qed.

(** The loop handles a list in two parts, one after the other. *)
Lemma loop_app epic pre post l s :
  loop epic (pre ++ post) l s =
  match loop epic pre l s with
  | (s1, Next l1) => loop epic post l1 s1
  | (s1, Return e) => (s1, Return e)
  | (s1, Panic v) => (s1, Panic v)
  end.
Proof.
  revert l s. induction pre as [| t pre IH]; intros l s; [done |].
  rewrite <- app_comm_cons, !loop_cons.
  destruct (iteration epic t l s) as [s1 [l1 | e | v]]; [apply IH | done | done].
Qed.

Lemma loop_spec epic tickets l s s' r :
  loop epic tickets l s = (s', r) → ∃ evs, LoopSpec summaryTemplate descriptionTemplate epic tickets l s s' r evs.
Proof.
  revert l s. induction tickets as [| t ts IH]; intros l s H.
  { injection H as <- <-. exists []. split; simpl.
    - by rewrite app_nil_r.
    - apply epicWritten_refl.
    - split; [constructor | set_solver].
    - exists 0%nat. constructor.
    - constructor.
    - intros l' [= <-].
      split_and!; try done. by intros ?%Exists_nil.
    - by intros ?%Exists_nil. }
  rewrite loop_cons in H.
  destruct (iteration epic t l s) as [s1 r1] eqn:Hit.
  apply iteration_spec in Hit as [evs1 S1].
  assert (Hstep : epicWritten epic (omap Params [t]) (heap s) (heap s1)).
  { destruct (spec_heap S1) as [-> | (e & p & -> & Hp & ->)].
    - apply epicWritten_refl.
    - simpl. rewrite Hp. apply epicWritten_injectEpic. }
  assert (Hexec : Forall (λ d, ∃ e t' p, epic = Some e ∧ t' ∈ t :: ts ∧
                           Params t' = Some p ∧
                           d = contextOf (heap s) e t') (executes evs1)).
  { eapply Forall_impl; [apply (spec_executes S1) |].
    intros d (e & p & -> & Hp & Hh & ->). exists e, t, p.
    split_and!; [done | set_solver | done |].
    rewrite Hh. by apply dataOf_injectEpic. }
  assert (Hcre : ∃ n, Forall2 (λ t' i, ∃ e, epic = Some e ∧
                          payloadFor summaryTemplate descriptionTemplate e
                            (contextOf (heap s) e t') i)
                        (take n (t :: ts)) (creates evs1) ∧
                      (length (creates evs1) = 1%nat → n = 1%nat)).
  { destruct (spec_creates S1)
      as [-> | (e & p & i & -> & Hp & Hh & -> & Hpay)].
    - exists 0%nat. split; [constructor | done].
    - exists 1%nat. split; [| done]. simpl. rewrite take_0.
      constructor; [| constructor]. exists e. split; [done |].
      rewrite Hh in Hpay. by rewrite dataOf_injectEpic in Hpay. }
  destruct r1 as [l1 | e1 | v1].
  - apply IH in H as [evs2 S2].
    destruct (spec_next S1 l1 eq_refl)
      as (Hc1 & Hn1 & Hf1 & Hdom & _ & _ & d & Hd & _).
    exists (evs1 ++ evs2). split.
    + rewrite (run_trace S2), (spec_trace S1).
      by rewrite app_assoc.
    + rewrite (omap_app Params [t] ts : omap Params (t :: ts) = _).
      eapply epicWritten_trans; [done | apply (run_heap S2)].
    + rewrite lookups_app, (spec_lookups S1).
      destruct (run_lookups S2) as [Hnd Hk].
      assert (Hfresh : ∀ k, k ∈ lookups evs2 →
                k ≠ Project t ∧ projectCache l !! k = None ∧ k ∈ Project <$> ts).
      { intros k Hin. destruct (Hk k Hin) as [Hnone Hin'].
        apply not_elem_of_dom in Hnone. rewrite Hdom in Hnone.
        split_and!; [set_solver | apply not_elem_of_dom; set_solver | done]. }
      destruct (projectCache l !! Project t) eqn:Ec; simpl.
      * split; [done |]. intros k Hin. destruct (Hfresh k Hin) as (_ & ? & ?).
        split; [done | set_solver].
      * split.
        { constructor; [| done]. intros Hin. by destruct (Hfresh _ Hin). }
        intros k [-> | Hin]%elem_of_cons; [split; [done | set_solver] |].
        destruct (Hfresh k Hin) as (_ & ? & ?). split; [done | set_solver].
    + destruct Hcre as (n1 & Hn1' & Hlen). rewrite (Hlen Hn1) in Hn1'.
      destruct (run_creates S2) as [n2 Hn2].
      exists (S n2). rewrite creates_app. simpl in Hn1'. rewrite take_0 in Hn1'.
      simpl. apply Forall2_length in Hn1' as Hl1.
      destruct (creates evs1) as [| i1 [| ? ?]]; [done | | done].
      simpl. constructor; [by inversion Hn1' |].
      eapply Forall2_impl; [exact Hn2 |].
      intros t' i' (e & -> & Hpay). exists e. split; [done |].
      by erewrite <- contextOf_epicWritten.
    + rewrite executes_app. apply Forall_app. split; [done |].
      eapply Forall_impl; [apply (run_executes S2) |].
      intros d' (e & t' & p' & -> & Hin & Hp' & ->). exists e, t', p'.
      split_and!; [done | set_solver | done |]. by eapply contextOf_epicWritten.
    + intros l' Hr.
      destruct (run_next S2 l' Hr) as (Hc2 & Hn2 & Hf2 & Hdom2 & Hw2).
      split_and!.
      * by rewrite created_app, creates_app, Hc1, Hc2.
      * rewrite creates_app, length_app, Hn1, Hn2. done.
      * rewrite Exists_app. tauto.
      * set_solver.
      * assert (He : ∃ e p, epic = Some e ∧ Params t = Some p ∧
                  heap s1 = injectEpic (jira.Epic.Key e) p (heap s)).
        { pose proof (spec_executes S1) as Hex. rewrite Hd in Hex.
          apply Forall_cons in Hex as [(e & p & ? & ? & ? & _) _]. eauto. }
        destruct He as (e & p & -> & Hp & Hh). constructor.
        -- exists e, p. split_and!; [done | done |].
           destruct (run_heap S2 p) as [-> | (e' & [= <-] & _ & ->)].
           ++ rewrite Hh. unfold injectEpic. by rewrite lookup_insert_eq.
           ++ f_equal. by eapply epicWritten_rebase.
        -- eapply Forall_impl; [exact Hw2 |].
           intros t' (e' & p' & [= <-] & Hp' & Hw'). exists e, p'.
           split_and!; [done | done |]. rewrite Hw'. f_equal.
           by eapply epicWritten_rebase.
    + rewrite Exists_app. intros [Hex | Hex]; [done |].
      by apply (run_failed S2).
  - injection H as <- <-. exists evs1. split; try done.
    + apply (spec_trace S1).
    + rewrite (omap_app Params [t] ts : omap Params (t :: ts) = _).
      eapply epicWritten_trans; [done | apply epicWritten_refl].
    + rewrite (spec_lookups S1).
      destruct (projectCache l !! Project t) eqn:Ec; simpl.
      * split; [constructor | set_solver].
      * split; [apply NoDup_singleton |].
        intros k ->%list_elem_of_singleton. split; [done | set_solver].
    + destruct Hcre as (n & Hn & _). by exists n.
  - injection H as <- <-. exists evs1. split; try done.
    + apply (spec_trace S1).
    + rewrite (omap_app Params [t] ts : omap Params (t :: ts) = _).
      eapply epicWritten_trans; [done | apply epicWritten_refl].
    + rewrite (spec_lookups S1).
      destruct (projectCache l !! Project t) eqn:Ec; simpl.
      * split; [constructor | set_solver].
      * split; [apply NoDup_singleton |].
        intros k ->%list_elem_of_singleton. split; [done | set_solver].
    + destruct Hcre as (n & Hn & _). by exists n.
Qed.

Lemma createIssues_loop epic tickets s :
  createIssues epic tickets s =
  ((loop epic tickets initialLocals s).1, finish (loop epic tickets initialLocals s).2).
Proof.
  unfold_createIssues.
  by destruct (loop epic tickets initialLocals s) as [s' [l' | e | v]].
Qed.

Lemma createIssues_spec epic tickets s :
  ∃ evs, LoopSpec summaryTemplate descriptionTemplate epic tickets initialLocals s (createIssues epic tickets s).1
           (loop epic tickets initialLocals s).2 evs.
Proof.
  rewrite createIssues_loop. simpl. apply loop_spec.
  by destruct (loop epic tickets initialLocals s).
Qed.

Lemma Forall2_take_length {A B} (R : A → B → Prop) n (l : list A) (k : list B) :
  Forall2 R (take n l) k → Forall2 R (take (length k) l) k.
Proof.
  intros H. pose proof (Forall2_length _ _ _ H) as Hlen. rewrite <- Hlen.
  rewrite length_take. destruct (decide (n ≤ length l)%nat).
  - by rewrite Nat.min_l.
  - rewrite Nat.min_r by lia. rewrite take_ge in H by lia. by rewrite take_ge.
Qed.

Lemma injectEpic_idemp key p h :
  injectEpic key p (injectEpic key p h) = injectEpic key p h.
Proof.
  unfold injectEpic at 1. rewrite mapAt_injectEpic, insert_insert_eq.
  unfold injectEpic. by rewrite insert_insert_eq.
Qed.

(** *** The project cache *)

(** C4: in a run of [createIssues] on any ticket list, the keys handed to
    [client.Project.Get] are pairwise distinct: at most one remote lookup
    per project key. An iteration whose project key is in the cache makes
    no lookup, builds its payload from the cached project and leaves the
    cache as it is. *)
Theorem getProject_once_per_key epic tickets s :
  (∃ evs, trace (createIssues epic tickets s).1 = trace s ++ evs ∧
          NoDup (lookups evs) ∧
          Forall (λ k, k ∈ Project <$> tickets) (lookups evs)) ∧
  (∀ t l s0 cached,
     projectCache l !! Project t = Some cached →
     ∃ evs, trace (iteration epic t l s0).1 = trace s0 ++ evs ∧
            lookups evs = [] ∧
            Forall (λ i, ∃ f, jira.Issue.Fields i = Some f ∧
                              cached = Some (jira.IssueFields.Project f))
                   (creates evs) ∧
            ∀ l', (iteration epic t l s0).2 = Next l' →
                  projectCache l' = projectCache l).
Proof.
  split.
  - destruct (createIssues_spec epic tickets s) as [evs S].
    exists evs. destruct (run_lookups S) as [Hnd Hk].
    split_and!; [apply (run_trace S) | done |].
    apply Forall_forall. intros k Hin. by destruct (Hk k Hin).
  - intros t l s0 cached Hc.
    destruct (iteration epic t l s0) as [s1 r1] eqn:Hit.
    apply iteration_spec in Hit as [evs S]. exists evs. simpl.
    split_and!.
    + apply (spec_trace S).
    + rewrite (spec_lookups S). by rewrite Hc.
    + by apply (spec_cached S).
    + intros l' ->.
      destruct (spec_next S l' eq_refl) as (_ & _ & _ & _ & _ & Hsame & _).
      apply Hsame. by rewrite Hc.
Qed.

(** *** The payload *)

(** C8: the summary and the description of the payloads that a run of
    [createIssues] hands to [client.Issue.Create] are, in order, the
    outputs of the two templates on the data of the first tickets of the
    list alone; and an iteration does the same whatever the two buffers
    held when it started. *)
Theorem buffers_do_not_leak e tickets s :
  (∃ evs, trace (createIssues (Some e) tickets s).1 = trace s ++ evs ∧
     Forall2 (λ t i, ∃ f, jira.Issue.Fields i = Some f ∧
                jira.IssueFields.Summary f
                = (summaryTemplate (contextOf (heap s) e t)).1 ∧
                jira.IssueFields.Description f
                = (descriptionTemplate (contextOf (heap s) e t)).1)
             (take (length (creates evs)) tickets) (creates evs)) ∧
  (∀ epic t l s0 left1 left2,
     iteration epic t {| summaryBuf := left1; descriptionBuf := left2;
                         projectCache := projectCache l |} s0
     = iteration epic t l s0).
Proof.
  split; [| done].
  destruct (createIssues_spec (Some e) tickets s) as [evs S].
  exists evs. split; [apply (run_trace S) |].
  destruct (run_creates S) as [n Hn].
  apply Forall2_take_length in Hn.
  eapply Forall2_impl; [exact Hn |].
  intros t i (e' & [= <-] & f & Hf & Hsum & Hdesc & _). by exists f.
Qed.

(** *** Order and abort *)

(** C5: let the loop have processed the tickets [pre] successfully, and
    let the iteration on the next ticket [t] make a remote call (project
    lookup or issue creation) that returns an error. Then [createIssues]
    on [pre ++ t :: post] stops there, in the state that iteration left,
    with an error or a panic, whatever [post] is: no event of [post]
    exists. The tracker accepted exactly one creation per ticket of
    [pre], in the order of [pre], each with the payload of its ticket;
    they all remain in the final trace, and the failed iteration adds
    none. *)
Theorem abort_on_remote_failure epic pre t post s s1 l1 s2 r evs :
  loop epic pre initialLocals s = (s1, Next l1) →
  iteration epic t l1 s1 = (s2, r) →
  trace s2 = trace s1 ++ evs →
  Exists failedRemoteCall evs →
  (∃ r', createIssues epic (pre ++ t :: post) s = (s2, r') ∧ r' ≠ Next tt) ∧
  ∃ evs0, trace s1 = trace s ++ evs0 ∧
    Forall2 (λ t' i, ∃ e, epic = Some e ∧
               payloadFor summaryTemplate descriptionTemplate e
                 (contextOf (heap s) e t') i) pre (created evs0) ∧
    created (evs0 ++ evs) = created evs0 ∧
    creates evs0 = created evs0.
Proof.
  intros Hpre Hit Htr Hfail.
  destruct (iteration_spec _ _ _ _ _ _ Hit) as [evs' S].
  assert (evs' = evs) as ->.
  { pose proof (spec_trace S) as Htr'. rewrite Htr in Htr'.
    by apply app_inv_head in Htr'. }
  destruct (spec_failed S Hfail) as [Hr Hnone].
  split.
  - exists (finish r). split.
    + rewrite createIssues_loop, loop_app, Hpre, loop_cons, Hit.
      destruct r as [l' | e' | v']; [by destruct (Hr l') | done | done].
    + destruct r as [l' | e' | v']; [by destruct (Hr l') | done | done].
  - destruct (loop_spec _ _ _ _ _ _ Hpre) as [evs0 S0]. exists evs0.
    destruct (run_next S0 l1 eq_refl) as (Hc & Hlen & _).
    destruct (run_creates S0) as [n Hn].
    apply Forall2_take_length in Hn. rewrite Hlen, firstn_all in Hn.
    split_and!.
    + apply (run_trace S0).
    + by rewrite Hc.
    + by rewrite created_app, Hnone, app_nil_r.
    + done.
Qed.

(** *** Rendering again *)

(** When an iteration on a ticket has succeeded and the next
    iteration is on the same ticket, the second one hands the templates
    the same data as the first, leaves the heap as the first left it,
    puts the same summary and description in its payload, and, when it
    succeeds too, leaves the same text in the two buffers. *)
Theorem render_again_same_output epic t l s s1 l1 s2 r2 :
  iteration epic t l s = (s1, Next l1) →
  iteration epic t l1 s1 = (s2, r2) →
  ∃ evs1 evs2 d i1 f1,
    trace s1 = trace s ++ evs1 ∧ trace s2 = trace s1 ++ evs2 ∧
    executes evs1 = [d; d] ∧ Forall (λ d', d' = d) (executes evs2) ∧
    heap s2 = heap s1 ∧
    creates evs1 = [i1] ∧ jira.Issue.Fields i1 = Some f1 ∧
    Forall (λ i2, ∃ f2, jira.Issue.Fields i2 = Some f2 ∧
              jira.IssueFields.Summary f2 = jira.IssueFields.Summary f1 ∧
              jira.IssueFields.Description f2 = jira.IssueFields.Description f1)
           (creates evs2) ∧
    ∀ l2, r2 = Next l2 →
          summaryBuf l2 = summaryBuf l1 ∧ descriptionBuf l2 = descriptionBuf l1.
Proof.
  intros H1 H2.
  destruct (iteration_spec _ _ _ _ _ _ H1) as [evs1 S1].
  destruct (iteration_spec _ _ _ _ _ _ H2) as [evs2 S2].
  destruct (spec_next S1 l1 eq_refl)
    as (_ & Hlen1 & _ & _ & _ & _ & d & Hd & Hsb1 & Hdb1).
  pose proof (spec_executes S1) as Hex1. rewrite Hd in Hex1.
  apply Forall_cons in Hex1 as [(e & p & -> & Hp & Hh1 & ->) _].
  assert (Hheap : heap s2 = heap s1).
  { destruct (spec_heap S2) as [-> | (e' & p' & [= <-] & Hp' & ->)];
      [done |].
    rewrite Hp in Hp'. injection Hp' as <-. rewrite Hh1. apply injectEpic_idemp. }
  destruct (spec_creates S1)
    as [Hnil | (e1 & p1 & i1 & [= <-] & _ & _ & Hi1 & f1 & Hf1 & Hs1 & Hd1 & _)].
  { rewrite Hnil in Hlen1. done. }
  exists evs1, evs2, (dataOf (heap s1) t), i1, f1. split_and!.
  - apply (spec_trace S1).
  - apply (spec_trace S2).
  - done.
  - eapply Forall_impl; [apply (spec_executes S2) |].
    intros d' (_ & _ & _ & _ & _ & ->). by rewrite Hheap.
  - done.
  - done.
  - done.
  - destruct (spec_creates S2)
      as [-> | (e2 & p2 & i2 & [= <-] & _ & _ & -> & f2 & Hf2 & Hs2 & Hd2 & _)];
      [constructor |].
    constructor; [| constructor]. exists f2. rewrite Hheap in Hs2, Hd2.
    split_and!; [done | by rewrite Hs2, Hs1 | by rewrite Hd2, Hd1].
  - intros l2 ->.
    destruct (spec_next S2 l2 eq_refl)
      as (_ & _ & _ & _ & _ & _ & d2 & Hd2' & Hsb2 & Hdb2).
    pose proof (spec_executes S2) as Hex2. rewrite Hd2' in Hex2.
    apply Forall_cons in Hex2 as [(_ & _ & _ & _ & _ & ->) _].
    rewrite Hheap in Hsb2, Hdb2. by rewrite Hsb1, Hdb1, Hsb2, Hdb2.
Qed.

(** *** What the run changes in the caller's data *)

(** C10: a run of [createIssues] changes the caller's data only by
    writing the epic's key under ["epic"] in maps that tickets of the
    list hold. Every entry under another key is as it was, in every map;
    a map is either as it was or is its old contents with ["epic"] set
    to the epic's key, and then a ticket of the list holds it (the write
    goes through the shared map); after a run that returns nil, every
    ticket's map has the epic's key under ["epic"]; and the [Project]
    and [CustomEpicField] of the data handed to the templates are those
    of a ticket of the list. *)
Theorem only_epic_param_written epic tickets s :
  (∀ p k, k ≠ "epic" →
     mapAt (heap (createIssues epic tickets s).1) p !! k = mapAt (heap s) p !! k) ∧
  (∀ p, heap (createIssues epic tickets s).1 !! p = heap s !! p ∨
        ∃ e, epic = Some e ∧ Some p ∈ Params <$> tickets ∧
             heap (createIssues epic tickets s).1 !! p
             = Some (<["epic" := VString (jira.Epic.Key e)]> (mapAt (heap s) p))) ∧
  ((createIssues epic tickets s).2 = Next tt →
     Forall (λ t, ∃ e p, epic = Some e ∧ Params t = Some p ∧
               mapAt (heap (createIssues epic tickets s).1) p !! "epic"
               = Some (VString (jira.Epic.Key e))) tickets) ∧
  (∃ evs, trace (createIssues epic tickets s).1 = trace s ++ evs ∧
     Forall (λ d, ∃ t, t ∈ tickets ∧ dataProject d = Project t ∧
               dataCustomEpicField d = CustomEpicField t) (executes evs)).
Proof.
  destruct (createIssues_spec epic tickets s) as [evs S].
  pose proof (run_heap S) as Hheap.
  split_and!.
  - intros p k Hk. by eapply epicWritten_frame.
  - intros p. destruct (Hheap p) as [E | (e & -> & Hin & E)]; [by left |].
    right. exists e. split_and!; [done | | done].
    apply list_elem_of_fmap. apply list_elem_of_omap in Hin as (t & Hin & Hp).
    by exists t.
  - rewrite createIssues_loop. simpl. intros Hr.
    destruct (loop epic tickets initialLocals s).2 as [l' | |] eqn:Er; [| done..].
    destruct (run_next S l' eq_refl) as (_ & _ & _ & _ & Hw).
    rewrite createIssues_loop in Hw. simpl in Hw.
    eapply Forall_impl; [exact Hw |].
    intros t (e & p & -> & Hp & E). exists e, p. split_and!; [done | done |].
    unfold mapAt. rewrite E. simpl. apply lookup_insert_eq.
  - exists evs. split; [apply (run_trace S) |].
    eapply Forall_impl; [apply (run_executes S) |].
    intros d (e & t & p & _ & Hin & _ & ->). by exists t.
Qed.

(** *** Defects of the loop body *)

(** A project without issue types: the diagnostic is printed (through
    [fmt.Fprint], so the verbs stay in the text), and the index
    expression that follows panics. *)
Lemma iteration_no_issue_types epic t l s project :
  projectCache l !! Project t = Some (Some project) →
  jira.Project.IssueTypes project = [] →
  iteration epic t l s =
  ({| world := world s; heap := heap s;
      trace := trace s ++
        [EvPrint Stderr None
           [OString ("No issue types found for project %s - Skipping creating %v"
                     +:+ LF);
            OString (Project t); OTicket (dataOf (heap s) t)]] |},
   Panic indexOutOfRange).
Proof.
  intros Hc Hty.
  unfold_iteration.
  rewrite Hc. simpl. rewrite Hc, Hty. done.
Qed.

(** A ticket whose [Params] is the nil map: the assignment panics. *)
Lemma iteration_nil_params e t l s project issueType rest :
  projectCache l !! Project t = Some (Some project) →
  jira.Project.IssueTypes project = issueType :: rest →
  Params t = None →
  iteration (Some e) t l s = (s, Panic nilMapAssignment).
Proof.
  intros Hc Hty Hp.
  unfold_iteration.
  rewrite Hc. simpl. rewrite Hc, Hty, Hp. done.
Qed.

End Properties.

Section MainProperties.

Context {W : Type} (client : Client W).
Context (ReadFile : string → string + error).
Context (UnmarshalTickets : string → Heap → Heap * list Ticket * option error).
Context (UnmarshalCreds : string → Creds * option error).
Context (ParseFiles : string → Template + error).
Context (NewClient : string → option error).

Abbreviation main :=
  (main client ReadFile UnmarshalTickets UnmarshalCreds ParseFiles NewClient).

Lemma getEpic_not_epic name s w issue resp fields :
  Issue_Get client (world s) name "issuetype" = (w, (Some issue, resp, None)) →
  jira.Issue.Fields issue = Some fields →
  jira.IssueType.Name (jira.IssueFields.Type_ fields) ≠ "Epic" →
  getEpic client name s =
  ({| world := w; heap := heap s;
      trace := trace s ++ [EvIssueGet name "issuetype" None] |},
   Next (None, None)).
Proof.
  intros Hget Hf Hty.
  unfold getEpic, callIssueGet, mbind, mret, M_bind, M_ret.
  rewrite Hget. simpl. rewrite Hf. by destruct (decide _).
Qed.

Lemma getEpic_request_failure name s w issue resp e :
  Issue_Get client (world s) name "issuetype" = (w, (issue, Some resp, Some e)) →
  getEpic client name s =
  ({| world := w; heap := heap s;
      trace := trace s ++
        [EvIssueGet name "issuetype" (Some e);
         EvPrint Stderr (Some ("Request: %v" +:+ LF))
           [ORequest (jira.Response.Request resp)];
         EvPrint Stderr (Some ("Response body: %s" +:+ LF))
           [OBody (jira.Response.Body resp)]] |},
   Next (None, Some e)).
Proof.
  intros Hget.
  unfold getEpic, callIssueGet, jiraAPIRequestErrorHandler, emit,
    mbind, mret, M_bind, M_ret.
  rewrite Hget. simpl. by rewrite <- !app_assoc.
Qed.

(** C2: let the lookup of the epic's name succeed and return an issue
    whose type name is not ["Epic"]. Then [getEpic] makes that one call
    and returns no epic and no error: the outcome (nil, nil), which a
    failed request never gives, for that one returns its error. [main]
    then panics, whatever the files hold, and its trace has no call of
    [client.Issue.Create]. When the credentials, the client, the
    templates and the tickets were loaded, the trace of [main] is the
    authentication, the lookup and the message that the name was found
    but is not an epic, and the panic carries the nil error. *)
Theorem not_an_epic_stops_the_run flags s w issue resp fields :
  Issue_Get client (world s) (epicName flags) "issuetype"
    = (w, (Some issue, resp, None)) →
  jira.Issue.Fields issue = Some fields →
  jira.IssueType.Name (jira.IssueFields.Type_ fields) ≠ "Epic" →
  (getEpic client (epicName flags) s).2 = Next (None, None) ∧
  trace (getEpic client (epicName flags) s).1
    = trace s ++ [EvIssueGet (epicName flags) "issuetype" None] ∧
  (∀ s0 name w0 issue0 resp0 e,
     Issue_Get client (world s0) name "issuetype" = (w0, (issue0, Some resp0, Some e)) →
     (getEpic client name s0).2 = Next (None, Some e)) ∧
  (∃ v evs, (main flags s).2 = Panic v ∧
            trace (main flags s).1 = trace s ++ evs ∧ creates evs = []) ∧
  (∀ creds summaryTemplate descriptionTemplate data h tickets,
     getCreds ReadFile UnmarshalCreds (authFilePath flags) = (Some creds, None) →
     NewClient (url flags) = None →
     loadTemplate ParseFiles (summaryTemplatePath flags) = inl summaryTemplate →
     loadTemplate ParseFiles (descriptionTemplatePath flags) = inl descriptionTemplate →
     ReadFile (ticketsFilePath flags) = inl data →
     UnmarshalTickets data (heap s) = (h, tickets, None) →
     main flags s =
     ({| world := w; heap := h;
         trace := trace s ++
           [EvSetBasicAuth (User creds) (Password creds);
            EvIssueGet (epicName flags) "issuetype" None;
            EvPrint Stderr (Some ("Found %s but it was not an epic." +:+ LF))
              [OString (epicName flags)]] |},
      Panic (PanicError None))).
Proof.
  intros Hget Hf Hty. split_and!.
  - by erewrite getEpic_not_epic.
  - by erewrite getEpic_not_epic.
  - intros s0 name w0 issue0 resp0 e Hget0. by erewrite getEpic_request_failure.
  - unfold_main.
    destruct (getCreds _ _ _) as [[creds |] [e |]];
      try (by eexists _, []; rewrite app_nil_r).
    destruct (NewClient _); [by eexists _, []; rewrite app_nil_r |].
    destruct (loadTemplate _ (summaryTemplatePath flags));
      [| by eexists _, [_]].
    destruct (loadTemplate _ (descriptionTemplatePath flags));
      [| by eexists _, [_]].
    destruct (ReadFile (ticketsFilePath flags)); [| by eexists _, [_]].
    destruct (UnmarshalTickets _ _) as [[h tickets] [e |]]; [by eexists _, [_] |].
    erewrite getEpic_not_epic by done. simpl.
    eexists _, [_; _; _]. by rewrite <- !app_assoc.
  - intros creds summaryTemplate descriptionTemplate data h tickets
      Hcreds Hclient Hsum Hdesc Hread Hun.
    unfold_main.
    rewrite Hcreds, Hclient, Hsum, Hdesc, Hread. simpl. rewrite Hun.
    erewrite getEpic_not_epic by done. simpl. by rewrite <- !app_assoc.
Qed.

End MainProperties.

(** C1 (defect of [createIssues]): on the tickets [E; X], where project E
    has no issue types, the run looks up E, prints the diagnostic and then
    panics with an index out of range: the batch fails and the ticket of
    project X is never reached. *)
Theorem empty_issue_types_end_the_run :
  (Demo.run [Runs.ticketE; Runs.ticketX2]).2 = Panic indexOutOfRange ∧
  trace (Demo.run [Runs.ticketE; Runs.ticketX2]).1
  = [EvProjectGet "E" None;
     EvPrint Stderr None
       [OString ("No issue types found for project %s - Skipping creating %v"
                 +:+ LF);
        OString "E"; OTicket (dataOf Demo.heap0 Runs.ticketE)]] ∧
  creates (trace (Demo.run [Runs.ticketE; Runs.ticketX2]).1) = [].
Proof. split_and!; by vm_compute. Qed.

(** C3 (defect of [createIssues]): a tickets file whose only ticket has no
    [params] key loads without error, with a nil [Params]; [main] then
    resolves the epic and the project and panics at the assignment of the
    epic's key, before any template is executed or issue created. *)
Theorem absent_params_end_the_run :
  (loadTickets (W:=nat) Demo.readFile Demo.unmarshalTickets "tickets.json" Demo.state0).2
  = Next ([Demo.ticket "X" None ""], None) ∧
  (Demo.runMain "PROJ-1").2 = Panic nilMapAssignment ∧
  trace (Demo.runMain "PROJ-1").1
  = [EvSetBasicAuth "me" "secret"; EvIssueGet "PROJ-1" "issuetype" None;
     EvProjectGet "X" None] ∧
  executes (trace (Demo.runMain "PROJ-1").1) = [] ∧
  creates (trace (Demo.runMain "PROJ-1").1) = [].
Proof. split_and!; by vm_compute. Qed.

Lemma not_an_epic_stops_the_run_witness :
  Issue_Get Demo.tracker 0%nat "PROJ-5" "issuetype"
  = (0%nat, (Some (Demo.issueOfType "10005" "PROJ-5" Demo.task),
             Some (Demo.response "GET issue"), None)) ∧
  jira.IssueType.Name Demo.task ≠ "Epic" ∧
  Demo.runMain "PROJ-5"
  = ({| world := 0%nat; heap := Demo.heap0;
        trace := [EvSetBasicAuth "me" "secret";
                  EvIssueGet "PROJ-5" "issuetype" None;
                  EvPrint Stderr (Some ("Found %s but it was not an epic." +:+ LF))
                    [OString "PROJ-5"]] |},
     Panic (PanicError None)).
Proof.
  assert (H1 : Issue_Get Demo.tracker 0%nat "PROJ-5" "issuetype"
               = (0%nat, (Some (Demo.issueOfType "10005" "PROJ-5" Demo.task),
                          Some (Demo.response "GET issue"), None)))
    by reflexivity.
  assert (H2 : jira.IssueType.Name Demo.task ≠ "Epic") by discriminate.
  split_and!; [exact H1 | exact H2 |].
  destruct (not_an_epic_stops_the_run Demo.tracker Demo.readFile
              Demo.unmarshalTickets Demo.unmarshalCreds Demo.parseFiles
              Demo.newClient (Demo.flags "PROJ-5") Demo.state0 _ _ _ _
              H1 eq_refl H2) as (_ & _ & _ & _ & Hmain).
  exact (Hmain _ _ _ _ _ _ eq_refl eq_refl eq_refl eq_refl eq_refl eq_refl).
Defined.

Lemma getProject_once_per_key_witness :
  projectCache Runs.cachedX !! Project Runs.ticketX1 = Some (Some Demo.projectX) ∧
  ∃ evs,
    trace (iteration Demo.tracker Demo.summaryTmpl Demo.descriptionTmpl
             (Some Demo.epic1) Runs.ticketX1 Runs.cachedX Demo.state0).1
    = trace Demo.state0 ++ evs ∧
    lookups evs = [] ∧
    Forall (λ i, ∃ f, jira.Issue.Fields i = Some f ∧
                      Some Demo.projectX = Some (jira.IssueFields.Project f))
           (creates evs) ∧
    ∀ l', (iteration Demo.tracker Demo.summaryTmpl Demo.descriptionTmpl
             (Some Demo.epic1) Runs.ticketX1 Runs.cachedX Demo.state0).2 = Next l' →
          projectCache l' = projectCache Runs.cachedX.
Proof.
  assert (H : projectCache Runs.cachedX !! Project Runs.ticketX1
              = Some (Some Demo.projectX)) by (vm_compute; reflexivity).
  split; [exact H |].
  exact (proj2 (getProject_once_per_key Demo.tracker Demo.summaryTmpl
                  Demo.descriptionTmpl (Some Demo.epic1) [] Demo.state0)
           Runs.ticketX1 Runs.cachedX Demo.state0 _ H).
Defined.

Lemma abort_on_remote_failure_witness :
  Runs.afterLoop [Runs.ticketX1]
  = ((Runs.afterLoop [Runs.ticketX1]).1, Next (Runs.localsOf (Runs.afterLoop [Runs.ticketX1]).2)) ∧
  Exists failedRemoteCall (Runs.eventsOfNext [Runs.ticketX1] Runs.ticketZ) ∧
  (∃ r', Demo.run ([Runs.ticketX1] ++ Runs.ticketZ :: [Runs.ticketX2])
         = ((Runs.afterNext [Runs.ticketX1] Runs.ticketZ).1, r') ∧ r' ≠ Next tt) ∧
  length (created (trace (Demo.run [Runs.ticketX1; Runs.ticketZ; Runs.ticketX2]).1)) = 1%nat.
Proof.
  assert (H1 : Runs.afterLoop [Runs.ticketX1]
               = ((Runs.afterLoop [Runs.ticketX1]).1,
                  Next (Runs.localsOf (Runs.afterLoop [Runs.ticketX1]).2)))
    by (vm_compute; reflexivity).
  assert (H2 : Runs.afterNext [Runs.ticketX1] Runs.ticketZ
               = ((Runs.afterNext [Runs.ticketX1] Runs.ticketZ).1,
                  (Runs.afterNext [Runs.ticketX1] Runs.ticketZ).2))
    by (vm_compute; reflexivity).
  assert (H3 : trace (Runs.afterNext [Runs.ticketX1] Runs.ticketZ).1
               = trace (Runs.afterLoop [Runs.ticketX1]).1
                 ++ Runs.eventsOfNext [Runs.ticketX1] Runs.ticketZ)
    by (vm_compute; reflexivity).
  assert (H4 : Exists failedRemoteCall (Runs.eventsOfNext [Runs.ticketX1] Runs.ticketZ))
    by (vm_compute; apply Exists_cons_hd; exact I).
  destruct (abort_on_remote_failure Demo.tracker Demo.summaryTmpl Demo.descriptionTmpl
              (Some Demo.epic1) [Runs.ticketX1] Runs.ticketZ [Runs.ticketX2]
              Demo.state0 _ _ _ _ _ H1 H2 H3 H4) as [Hrun _].
  split_and!; [exact H1 | exact H4 | exact Hrun | by vm_compute].
Defined.

Lemma render_again_same_output_witness :
  Runs.afterLoop [Runs.ticketX1]
  = ((Runs.afterLoop [Runs.ticketX1]).1, Next (Runs.localsOf (Runs.afterLoop [Runs.ticketX1]).2)) ∧
  ∃ evs1 evs2 d i1 f1,
    trace (Runs.afterLoop [Runs.ticketX1]).1 = trace Demo.state0 ++ evs1 ∧
    trace (Runs.afterNext [Runs.ticketX1] Runs.ticketX1).1
    = trace (Runs.afterLoop [Runs.ticketX1]).1 ++ evs2 ∧
    executes evs1 = [d; d] ∧ Forall (λ d', d' = d) (executes evs2) ∧
    heap (Runs.afterNext [Runs.ticketX1] Runs.ticketX1).1
    = heap (Runs.afterLoop [Runs.ticketX1]).1 ∧
    creates evs1 = [i1] ∧ jira.Issue.Fields i1 = Some f1 ∧
    Forall (λ i2, ∃ f2, jira.Issue.Fields i2 = Some f2 ∧
              jira.IssueFields.Summary f2 = jira.IssueFields.Summary f1 ∧
              jira.IssueFields.Description f2 = jira.IssueFields.Description f1)
           (creates evs2) ∧
    ∀ l2, (Runs.afterNext [Runs.ticketX1] Runs.ticketX1).2 = Next l2 →
          summaryBuf l2 = summaryBuf (Runs.localsOf (Runs.afterLoop [Runs.ticketX1]).2) ∧
          descriptionBuf l2 = descriptionBuf (Runs.localsOf (Runs.afterLoop [Runs.ticketX1]).2).
Proof.
  assert (H1 : Runs.afterLoop [Runs.ticketX1]
               = ((Runs.afterLoop [Runs.ticketX1]).1,
                  Next (Runs.localsOf (Runs.afterLoop [Runs.ticketX1]).2)))
    by (vm_compute; reflexivity).
  assert (H2 : Runs.afterNext [Runs.ticketX1] Runs.ticketX1
               = ((Runs.afterNext [Runs.ticketX1] Runs.ticketX1).1,
                  (Runs.afterNext [Runs.ticketX1] Runs.ticketX1).2))
    by (vm_compute; reflexivity).
  split; [exact H1 |].
  exact (render_again_same_output Demo.tracker Demo.summaryTmpl Demo.descriptionTmpl
           (Some Demo.epic1) Runs.ticketX1 initialLocals Demo.state0 _ _ _ _ H1 H2).
Defined.

Lemma only_epic_param_written_witness :
  "b" ≠ "epic" ∧
  mapAt (heap (Demo.run [Runs.ticketX2]).1) 2%positive !! "b"
  = mapAt Demo.heap0 2%positive !! "b" ∧
  (Demo.run [Runs.ticketX2]).2 = Next tt ∧
  Forall (λ t, ∃ e p, Some Demo.epic1 = Some e ∧ Params t = Some p ∧
            mapAt (heap (Demo.run [Runs.ticketX2]).1) p !! "epic"
            = Some (VString (jira.Epic.Key e))) [Runs.ticketX2].
Proof.
  assert (H1 : "b" ≠ "epic") by discriminate.
  assert (H2 : (Demo.run [Runs.ticketX2]).2 = Next tt) by (vm_compute; reflexivity).
  destruct (only_epic_param_written Demo.tracker Demo.summaryTmpl Demo.descriptionTmpl
              (Some Demo.epic1) [Runs.ticketX2] Demo.state0) as (Hframe & _ & Hall & _).
  split_and!; [exact H1 | exact (Hframe _ _ H1) | exact H2 | exact (Hall H2)].
Defined.

(** The ticket at address 2 declares ["epic"] as OTHER-9; the templates
    see PROJ-1, and the caller's map holds PROJ-1 after the run. *)
Example declared_epic_is_shadowed :
  mapAt Demo.heap0 2%positive !! "epic" = Some (VString "OTHER-9") ∧
  (λ d, dataParams d ≫= (.!! "epic")) <$> executes (trace (Demo.run [Runs.ticketX2]).1)
  = [Some (VString "PROJ-1"); Some (VString "PROJ-1")] ∧
  mapAt (heap (Demo.run [Runs.ticketX2]).1) 2%positive !! "epic" = Some (VString "PROJ-1").
Proof. split_and!; by vm_compute. Qed.

(** Two tickets of project X: one lookup, the first issue type, and one
    link to the epic each. *)
Example two_tickets_one_lookup :
  lookups (trace (Demo.run [Runs.ticketX1; Runs.ticketX2]).1) = ["X"] ∧
  (λ i, (λ f, (jira.IssueFields.Summary f, jira.IssueFields.Description f,
               jira.IssueType.Name (jira.IssueFields.Type_ f),
               jira.Epic.Key <$> jira.IssueFields.Epic f,
               jira.IssueFields.Unknowns f)) <$> jira.Issue.Fields i)
    <$> created (trace (Demo.run [Runs.ticketX1; Runs.ticketX2]).1)
  = [Some ("Summary for X", "See PROJ-1", "Story", Some "PROJ-1", None);
     Some ("Summary for X", "See PROJ-1", "Story", None,
           Some {[ "customfield_10008" := VString "PROJ-1" ]})].
Proof. split_and!; by vm_compute. Qed.

(** ** More properties of [createIssues] *)

Lemma issueGets_app evs1 evs2 : issueGets (evs1 ++ evs2) = issueGets evs1 ++ issueGets evs2.
Proof. apply omap_app. Qed.
Lemma successEvents_ext c1 c2 seen tickets results :
  Forall (λ t, c1 t = c2 t) tickets →
  successEvents c1 seen tickets results = successEvents c2 seen tickets results.
Proof.
  intros H. revert seen results.
  induction H as [| t ts Ht _ IH]; intros seen [| [issue created] rs]; simpl; try done.
  by rewrite Ht, IH.
Qed.

Lemma lookupEvents_decide l t err :
  lookupEvents l t err
  = if decide (Project t ∈ dom (projectCache l)) then [] else [EvProjectGet (Project t) err].
Proof.
  unfold lookupEvents. destruct (projectCache l !! Project t) eqn:E.
  - rewrite decide_True; [done |]. by apply elem_of_dom.
  - rewrite decide_False; [done |]. by apply not_elem_of_dom.
Qed.

Section IterationOutcomes.

Context {W : Type} (client : Client W).
Context (summaryTemplate descriptionTemplate : Template).

Abbreviation iteration := (iteration client summaryTemplate descriptionTemplate).
Abbreviation loop := (loop client summaryTemplate descriptionTemplate).
Abbreviation createIssues := (createIssues client summaryTemplate descriptionTemplate).

Lemma iteration_outcome epic t l s s' r :
  iteration epic t l s = (s', r) →
  ∃ evs, trace s' = trace s ++ evs ∧ issueGets evs = [] ∧
         iterationOutcome summaryTemplate descriptionTemplate epic t l s s' evs r.
Proof.
  unfold_iteration.
  intros H.
  repeat (simplify_eq/= ||
          match goal with
          | H : context [<[_:=_]> _ !! _] |- _ => rewrite lookup_insert_eq in H
          | H : context [match ?x with _ => _ end] |- _ =>
              let E := fresh "E" in destruct x eqn:E
          end).
  all: rewrite <- ?app_assoc.
  all: first [ eexists; split; [simpl; reflexivity | ..]
             | exists []; split; [simpl; by rewrite app_nil_r | ..] ].
  all: split; [reflexivity |].
  all: unfold iterationOutcome, lookupEvents; simpl.
  all: try match goal with E : projectCache _ !! _ = _ |- _ => rewrite E end.
  all: try solve [by left].
  all: try solve [right; left; by split_and!].
  all: try solve [right; right; by split_and!].
  all: try solve [left; eexists; by split].
  all: try solve [right; left; do 2 eexists; split_and!; try done; by left].
  all: try solve [right; left; do 2 eexists; split_and!; try done; right; by split_and!].
  all: try solve [right; right; by eexists [_; _], _, _].
  all: try solve [right; right; by eexists [_; _; _], _, _].
  all: try solve [do 6 eexists; split_and!; try done; by rewrite ?lookup_insert_eq].
Qed.

End IterationOutcomes.

Section LoopOutcomes.

Context {W : Type} (client : Client W).
Context (summaryTemplate descriptionTemplate : Template).

Abbreviation iteration := (iteration client summaryTemplate descriptionTemplate).
Abbreviation loop := (loop client summaryTemplate descriptionTemplate).
Abbreviation createIssues := (createIssues client summaryTemplate descriptionTemplate).

(** A loop that does not run to its end stopped in the iteration on one
    of its tickets, after the tickets before it succeeded. *)
Lemma loop_stops epic tickets l s s' r :
  loop epic tickets l s = (s', r) → (∀ l', r ≠ Next l') →
  ∃ pre t post s1 l1,
    tickets = pre ++ t :: post ∧
    loop epic pre l s = (s1, Next l1) ∧
    iteration epic t l1 s1 = (s', r).
Proof.
  revert l s. induction tickets as [| t ts IH]; intros l s H Hr.
  { injection H as <- <-. by destruct (Hr l). }
  rewrite (loop_cons client) in H.
  destruct (iteration epic t l s) as [s1 r1] eqn:Hit.
  destruct r1 as [l1 | e1 | v1].
  - destruct (IH _ _ H Hr) as (pre & t' & post & s2 & l2 & -> & Hpre & Hit').
    exists (t :: pre), t', post, s2, l2. split_and!; [done | | done].
    by rewrite (loop_cons client), Hit.
  - injection H as <- <-. by exists [], t, ts, s, l.
  - injection H as <- <-. by exists [], t, ts, s, l.
Qed.

(** The exact events of a loop that runs to its end. *)
Lemma loop_success e tickets l s s' l' :
  loop (Some e) tickets l s = (s', Next l') →
  ∃ results, length results = length tickets ∧
    trace s' = trace s ++
      successEvents (contextOf (heap s) e) (dom (projectCache l)) tickets results ∧
    Forall (λ t, (summaryTemplate (contextOf (heap s) e t)).2 = None ∧
                 (descriptionTemplate (contextOf (heap s) e t)).2 = None) tickets.
Proof.
  revert l s. induction tickets as [| t ts IH]; intros l s H.
  { injection H as <- <-. exists []. simpl. by rewrite app_nil_r. }
  rewrite (loop_cons client) in H.
  destruct (iteration (Some e) t l s) as [s1 r1] eqn:Hit.
  destruct r1 as [l1 | e1 | v1]; [| done..].
  destruct (iteration_spec client _ _ _ _ _ _ _ _ Hit) as [evs1' S1].
  destruct (iteration_outcome client _ _ _ _ _ _ _ _ Hit) as (evs1 & Htr1 & _ & Hout).
  destruct Hout as (e' & p & project & issue & f & created & [= <-] & Hp & Hh &
                    Hs & Hd & -> & _).
  destruct (spec_next S1 l1 eq_refl) as (_ & _ & _ & Hdom & _).
  rewrite Hh, dataOf_injectEpic in Hs, Hd, Htr1 by done.
  assert (Hw : epicWritten (Some e) [p] (heap s) (heap s1)).
  { rewrite Hh. apply epicWritten_injectEpic. }
  destruct (IH _ _ H) as (rs & Hlen & Htr & Hall).
  exists ((issue, created) :: rs). split_and!.
  - simpl. by rewrite Hlen.
  - rewrite Htr, Htr1, <- !app_assoc. f_equal. simpl.
    rewrite lookupEvents_decide, Hdom. f_equal. unfold ticketEvents. simpl.
    do 4 f_equal. apply successEvents_ext, Forall_forall. intros t' _.
    by eapply contextOf_epicWritten.
  - constructor; [done |]. eapply Forall_impl; [exact Hall |].
    intros t' Ht'. simpl in Ht'. by erewrite contextOf_epicWritten in Ht'.
Qed.

End LoopOutcomes.

Section RunProperties.

Context {W : Type} (client : Client W).
Context (summaryTemplate descriptionTemplate : Template).

Abbreviation iteration := (iteration client summaryTemplate descriptionTemplate).
Abbreviation loop := (loop client summaryTemplate descriptionTemplate).
Abbreviation createIssues := (createIssues client summaryTemplate descriptionTemplate).

Lemma createIssues_result epic tickets s s' r :
  createIssues epic tickets s = (s', r) →
  ∃ r0, loop epic tickets initialLocals s = (s', r0) ∧ r = finish r0.
Proof.
  rewrite (createIssues_loop client). intros [= <- <-].
  eexists. split; [| done]. by destruct (loop epic tickets initialLocals s).
Qed.

(** The exact trace of a run of [createIssues] that returns nil: per
    ticket, in order, the project lookup when the key was not seen before,
    the two template executions on the ticket's data, the accepted
    creation and the confirmation; and no template reported an error. *)
Theorem createIssues_nil_trace e tickets s s' :
  createIssues (Some e) tickets s = (s', Next tt) →
  ∃ results, length results = length tickets ∧
    trace s' = trace s ++ successEvents (contextOf (heap s) e) ∅ tickets results ∧
    Forall (λ t, (summaryTemplate (contextOf (heap s) e t)).2 = None ∧
                 (descriptionTemplate (contextOf (heap s) e t)).2 = None) tickets.
Proof.
  intros (r0 & Hloop & Hr)%createIssues_result.
  destruct r0 as [l' | |]; [| done..].
  apply loop_success in Hloop as (results & Hlen & Htr & Hall).
  exists results. split_and!; [done | | done].
  rewrite Htr. simpl. by rewrite dom_empty_L.
Qed.


(** The error that [createIssues] returns comes from the ticket it stopped
    at: it is the error of a failed [Project.Get] or [Issue.Create], and
    then the trace ends with that call and the two lines of
    [jiraAPIRequestErrorHandler]; or it is the error of one of the two
    templates on that ticket's data, and then the last [Execute] was on
    that data and no creation was attempted for the ticket. The tracker
    accepted one creation for each ticket before it, and no other. *)
Theorem createIssues_error_origin epic tickets s s' err :
  createIssues epic tickets s = (s', Return err) →
  ∃ pre t post evs,
    tickets = pre ++ t :: post ∧
    trace s' = trace s ++ evs ∧
    length (created evs) = length pre ∧
    ((∃ before call resp,
        evs = before ++ call :: requestDiagnostics resp ∧
        (call = EvProjectGet (Project t) (Some err) ∨
         ∃ issue, call = EvIssueCreate issue (Some err))) ∨
     (∃ e, epic = Some e ∧
        last (executes evs) = Some (contextOf (heap s) e t) ∧
        length (creates evs) = length pre ∧
        ((summaryTemplate (contextOf (heap s) e t)).2 = Some err ∨
         (descriptionTemplate (contextOf (heap s) e t)).2 = Some err))).
Proof.
  intros (r0 & Hloop & Hr)%createIssues_result.
  destruct r0 as [| err' |]; [done | | done]. injection Hr as <-.
  apply loop_stops in Hloop as (pre & t & post & s1 & l1 & -> & Hpre & Hit); [| done].
  destruct (loop_spec client _ _ _ _ _ _ _ _ Hpre) as [evs0 S0].
  destruct (run_next S0 l1 eq_refl) as (Hc0 & Hlen0 & _).
  destruct (iteration_outcome client _ _ _ _ _ _ _ _ Hit) as (evs1 & Htr1 & _ & Hout).
  exists pre, t, post, (evs0 ++ evs1). split_and!.
  - done.
  - by rewrite Htr1, (run_trace S0), app_assoc.
  - rewrite created_app, Hc0, length_app, Hlen0.
    destruct Hout as [(resp & _ & ->) | [(e & p & _ & _ & _ & Hcr & _) |
                      (before & issue & resp & -> & Hcr)]].
    + simpl. lia.
    + assert (created evs1 = []) as ->; [| simpl; lia].
      clear -Hcr. induction evs1 as [| [| | | | i [e' |] |] evs IH]; simpl in *; try done;
        by apply IH.
    + rewrite created_app. simpl.
      assert (created before = []) as ->; [| simpl; lia].
      clear -Hcr. induction before as [| [| | | | i [e' |] |] evs IH]; simpl in *; try done;
        by apply IH.
  - destruct Hout as [(resp & _ & ->) | [(e & p & -> & Hp & Hh & Hcr & Hex) |
                      (before & issue & resp & -> & Hcr)]].
    + left. exists evs0, (EvProjectGet (Project t) (Some err)), resp. split; [done |]. by left.
    + right. exists e. split; [done |].
      assert (Hd : dataOf (heap s') t = contextOf (heap s) e t).
      { rewrite Hh, dataOf_injectEpic by done.
        eapply contextOf_epicWritten, (run_heap S0). }
      rewrite Hd in Hex. split_and!.
      * rewrite executes_app.
        destruct Hex as [[_ ->] | (_ & _ & ->)]; by rewrite last_app.
      * rewrite creates_app, Hcr, app_nil_r. done.
      * destruct Hex as [[? _] | (_ & ? & _)]; [by left | by right].
    + left. exists (evs0 ++ before), (EvIssueCreate issue (Some err)), resp.
      split; [by rewrite <- app_assoc |]. right. by exists issue.
Qed.

(** [createIssues] panics in three ways only, each raised by the ticket it
    stopped at: a nil pointer dereference; an index out of range, right
    after the diagnostic for a project without issue types; an assignment
    to a nil map, for a ticket whose [Params] is nil, before any template
    is executed for it. *)
Theorem createIssues_panic_origin epic tickets s s' v :
  createIssues epic tickets s = (s', Panic v) →
  ∃ pre t post evs,
    tickets = pre ++ t :: post ∧
    trace s' = trace s ++ evs ∧
    (v = nilDereference ∨
     (v = indexOutOfRange ∧
      ∃ d, last evs = Some (skipDiagnostic d) ∧ dataProject d = Project t ∧
           length (creates evs) = length pre) ∨
     (v = nilMapAssignment ∧ Params t = None ∧
      length (creates evs) = length pre)).
Proof.
  intros (r0 & Hloop & Hr)%createIssues_result.
  destruct r0 as [| | v']; [done | done |]. injection Hr as <-.
  apply loop_stops in Hloop as (pre & t & post & s1 & l1 & -> & Hpre & Hit); [| done].
  destruct (loop_spec client _ _ _ _ _ _ _ _ Hpre) as [evs0 S0].
  destruct (run_next S0 l1 eq_refl) as (Hc0 & Hlen0 & _).
  destruct (iteration_outcome client _ _ _ _ _ _ _ _ Hit) as (evs1 & Htr1 & _ & Hout).
  exists pre, t, post, (evs0 ++ evs1). split_and!; [done | |].
  { by rewrite Htr1, (run_trace S0), app_assoc. }
  destruct Hout as [-> | [(-> & Hh & ->) | (-> & Hp & Hh & ->)]]; [by left | |].
  - right. left. split; [done |]. exists (dataOf (heap s1) t). split_and!.
    + by rewrite !app_assoc, last_snoc.
    + done.
    + rewrite !creates_app, !length_app, Hlen0. unfold lookupEvents.
      destruct (projectCache l1 !! Project t); simpl; lia.
  - right. right. split_and!; [done | done |].
    rewrite !creates_app, !length_app, Hlen0. unfold lookupEvents.
    destruct (projectCache l1 !! Project t); simpl; lia.
Qed.


Lemma loop_no_issueGets epic tickets l s s' r :
  loop epic tickets l s = (s', r) →
  ∃ evs, trace s' = trace s ++ evs ∧ issueGets evs = [].
Proof.
  revert l s. induction tickets as [| t ts IH]; intros l s H.
  { injection H as <- <-. exists []. by rewrite app_nil_r. }
  rewrite (loop_cons client) in H.
  destruct (iteration epic t l s) as [s1 r1] eqn:Hit.
  destruct (iteration_outcome client _ _ _ _ _ _ _ _ Hit) as (evs1 & Htr1 & Hg1 & _).
  destruct r1 as [l1 | e1 | v1]; [| injection H as <- <-; by exists evs1..].
  destruct (IH _ _ H) as (evs2 & Htr2 & Hg2). exists (evs1 ++ evs2).
  split; [by rewrite Htr2, Htr1, app_assoc |]. by rewrite issueGets_app, Hg1, Hg2.
Qed.

Lemma loop_same_project epic tickets l s s' r :
  loop epic tickets l s = (s', r) →
  ∃ evs m n, trace s' = trace s ++ evs ∧ cacheAgrees l m ∧
    Forall2 (λ t i, ∃ f, jira.Issue.Fields i = Some f ∧
               m !! Project t = Some (jira.IssueFields.Project f))
            (take n tickets) (creates evs).
Proof.
  revert l s. induction tickets as [| t ts IH]; intros l s H.
  { injection H as <- <-. exists [], ∅, 0%nat. rewrite app_nil_r.
    split_and!; [done | by intros ??? | constructor]. }
  rewrite (loop_cons client) in H.
  destruct (iteration epic t l s) as [s1 r1] eqn:Hit.
  destruct (iteration_spec client _ _ _ _ _ _ _ _ Hit) as [evs1 S1].
  assert (Hstop : (∀ l', r1 ≠ Next l') → (s1, r1) = (s', r) →
            ∃ evs m n, trace s' = trace s ++ evs ∧ cacheAgrees l m ∧
              Forall2 (λ t i, ∃ f, jira.Issue.Fields i = Some f ∧
                         m !! Project t = Some (jira.IssueFields.Project f))
                      (take n (t :: ts)) (creates evs)).
  { intros _ [= <- <-].
    destruct (spec_creates S1) as [Hnil | (e & p & i & _ & _ & _ & Hi & f & Hf & _)].
    - exists evs1, ∅, 0%nat. rewrite Hnil.
      split_and!; [apply (spec_trace S1) | by intros ??? | constructor].
    - exists evs1, {[ Project t := jira.IssueFields.Project f ]}, 1%nat. rewrite Hi.
      split_and!; [apply (spec_trace S1) | |].
      + intros k c p' Hc [<- <-]%lookup_singleton_Some.
        pose proof (spec_cached S1 c Hc) as Hca. rewrite Hi in Hca.
        apply Forall_cons in Hca as [(f' & Hf' & ->) _]. congruence.
      + simpl. rewrite take_0. constructor; [| constructor].
        exists f. split; [done |]. apply lookup_singleton_eq. }
  destruct r1 as [l1 | e1 | v1]; [| by apply Hstop..]. clear Hstop.
  destruct (iteration_outcome client _ _ _ _ _ _ _ _ Hit) as (evs1' & Htr1 & _ & Hout).
  assert (evs1' = evs1) as ->.
  { pose proof (spec_trace S1) as Htr. rewrite Htr1 in Htr. by apply app_inv_head in Htr. }
  destruct Hout as (e & p & project & issue & f & created & _ & _ & _ & _ & _ & Hevs &
                    Hf & Hproj & Hc1).
  assert (Hcr : creates evs1 = [issue]).
  { rewrite Hevs, creates_app. unfold lookupEvents.
    by destruct (projectCache l !! Project t). }
  destruct (spec_next S1 l1 eq_refl) as (_ & _ & _ & _ & Hother & Hsame & _).
  destruct (IH _ _ H) as (evs2 & m1 & n & Htr2 & Hag & Hall).
  assert (Hl : ∀ k c, projectCache l !! k = Some c → projectCache l1 !! k = Some c).
  { intros k c Hc. destruct (decide (k = Project t)) as [-> | Hne].
    - rewrite Hsame; [done |]. by rewrite Hc.
    - by rewrite Hother. }
  destruct (m1 !! Project t) as [p1 |] eqn:Em.
  - exists (evs1 ++ evs2), m1, (S n). split_and!.
    + by rewrite Htr2, (spec_trace S1), app_assoc.
    + intros k c p' Hc Hm. eapply Hag; [by apply Hl | done].
    + rewrite creates_app, Hcr. simpl. constructor; [| done].
      exists f. split; [done |]. rewrite Em.
      specialize (Hag _ _ _ Hc1 Em). congruence.
  - exists (evs1 ++ evs2), (<[Project t := project]> m1), (S n). split_and!.
    + by rewrite Htr2, (spec_trace S1), app_assoc.
    + intros k c p' Hc Hm. destruct (decide (k = Project t)) as [-> | Hne].
      * rewrite lookup_insert_eq in Hm. injection Hm as <-.
        apply Hl in Hc. congruence.
      * rewrite lookup_insert_ne in Hm by done. eapply Hag; [by apply Hl | done].
    + rewrite creates_app, Hcr. simpl. constructor.
      * exists f. split; [done |]. rewrite lookup_insert_eq. by rewrite Hproj.
      * eapply Forall2_impl; [exact Hall |].
        intros t' i' (f' & Hf' & Hm'). exists f'. split; [done |].
        rewrite lookup_insert_ne; [done |]. intros Heq. rewrite <- Heq, Em in Hm'. done.
Qed.

(** In a run of [createIssues], the payloads of tickets with the same
    project key carry the same project: there is one project per key that
    every payload of the run holds for its ticket's key. *)
Theorem one_project_per_key epic tickets s :
  ∃ evs (m : gmap string jira.Project.t),
    trace (createIssues epic tickets s).1 = trace s ++ evs ∧
    Forall2 (λ t i, ∃ f, jira.Issue.Fields i = Some f ∧
               m !! Project t = Some (jira.IssueFields.Project f))
            (take (length (creates evs)) tickets) (creates evs).
Proof.
  rewrite (createIssues_loop client). simpl.
  destruct (loop epic tickets initialLocals s) as [s' r] eqn:Hloop.
  apply loop_same_project in Hloop as (evs & m & n & Htr & _ & Hall).
  exists evs, m. split; [done |]. by eapply Forall2_take_length.
Qed.

(** Every payload that a run of [createIssues] hands to [Issue.Create] has
    as its type the first issue type of the project it carries. *)
Theorem first_issue_type_wins epic tickets s :
  ∃ evs, trace (createIssues epic tickets s).1 = trace s ++ evs ∧
    Forall (λ i, ∃ f, jira.Issue.Fields i = Some f ∧
              head (jira.Project.IssueTypes (jira.IssueFields.Project f))
              = Some (jira.IssueFields.Type_ f)) (creates evs).
Proof.
  destruct (createIssues_spec client summaryTemplate descriptionTemplate epic tickets s)
    as [evs S].
  exists evs. split; [apply (run_trace S) |].
  destruct (run_creates S) as [n Hn].
  eapply Forall2_Forall_r; [exact Hn |].
  apply Forall_forall. intros t _ i (e & _ & f & Hf & _ & _ & Hhead & _). by exists f.
Qed.

End RunProperties.

(** *** The epic parameter and the epic link *)

Lemma executes_successEvents c seen tickets results :
  length results = length tickets →
  executes (successEvents c seen tickets results) = tickets ≫= (λ t, [c t; c t]).
Proof.
  revert seen results.
  induction tickets as [| t ts IH]; intros seen [| [issue created] rs] Hlen;
    try done.
  injection Hlen as Hlen.
  change (successEvents c seen (t :: ts) ((issue, created) :: rs))
    with ((if decide (Project t ∈ seen) then [] else [EvProjectGet (Project t) None])
          ++ ticketEvents (c t) issue created
          ++ successEvents c ({[Project t]} ∪ seen) ts rs).
  rewrite !executes_app, (IH _ _ Hlen). by destruct (decide _).
Qed.

Section EpicLink.

Context {W : Type} (client : Client W).
Context (summaryTemplate descriptionTemplate : Template).

Abbreviation iteration := (iteration client summaryTemplate descriptionTemplate).
Abbreviation loop := (loop client summaryTemplate descriptionTemplate).
Abbreviation createIssues := (createIssues client summaryTemplate descriptionTemplate).

(** An iteration whose ticket has a parameter map and whose project
    resolves to one with an issue type writes the epic's key into the map
    and executes the summary template on the ticket's data right after the
    lookup; when both templates succeed it hands one payload to
    [Issue.Create]. *)
Lemma iteration_resolved e t l s p project issueType rest :
  Params t = Some p →
  resolvedProject client l t (world s) = Some (Some project) →
  jira.Project.IssueTypes project = issueType :: rest →
  ∃ evs,
    trace (iteration (Some e) t l s).1
    = trace s ++ lookupEvents l t None
      ++ EvExecute SummaryTemplate (contextOf (heap s) e t) :: evs ∧
    heap (iteration (Some e) t l s).1 = injectEpic (jira.Epic.Key e) p (heap s) ∧
    Forall (λ d, d = contextOf (heap s) e t) (executes evs) ∧
    ((summaryTemplate (contextOf (heap s) e t)).2 = None →
     (descriptionTemplate (contextOf (heap s) e t)).2 = None →
     ∃ issue, creates evs = [issue] ∧
       payloadFor summaryTemplate descriptionTemplate e (contextOf (heap s) e t) issue).
Proof.
  intros Hp Hres Hty.
  rewrite <- (dataOf_injectEpic e p (heap s) t Hp).
  unfold resolvedProject in Hres. unfold lookupEvents.
  unfold_iteration. unfold payloadFor.
  destruct (projectCache l !! Project t) as [c |] eqn:Hc.
  - injection Hres as ->. simpl. rewrite Hc, Hty, Hp. simpl.
    fold (injectEpic (jira.Epic.Key e) p (heap s)).
    set (d := dataOf (injectEpic (jira.Epic.Key e) p (heap s)) t).
    destruct (summaryTemplate d) as [out1 [e1 |]] eqn:H1; simpl.
    { exists []. by split_and!. }
    destruct (descriptionTemplate d) as [out2 [e2 |]] eqn:H2; simpl.
    { exists [EvExecute DescriptionTemplate d]. rewrite <- !app_assoc.
      split_and!; try done. by repeat constructor. }
    destruct (Issue_Create client _ _) as [w [[created resp] err]] eqn:Hcr. simpl.
    destruct err as [err |]; [destruct resp as [resp |] | destruct created as [created |]];
      simpl; rewrite <- ?app_assoc; simpl.
    all: eexists; split; [reflexivity |].
    all: split; [done |]. all: split; [by repeat constructor |].
    all: intros _ _; eexists; split; [reflexivity |].
    all: eexists; split; [reflexivity |]; simpl.
    all: destruct (decide (CustomEpicField t ≠ "")) as [Hne | Heq%dec_stable]; simpl.
    all: rewrite Hty; by split_and!.
  - destruct (Project_Get client (world s) (Project t)) as [w [[project' resp] err]] eqn:Hget.
    destruct err as [err |]; [done |]. injection Hres as ->. simpl.
    rewrite lookup_insert_eq, Hty, Hp. simpl.
    fold (injectEpic (jira.Epic.Key e) p (heap s)).
    set (d := dataOf (injectEpic (jira.Epic.Key e) p (heap s)) t).
    destruct (summaryTemplate d) as [out1 [e1 |]] eqn:H1; simpl.
    { exists []. rewrite <- !app_assoc. by split_and!. }
    destruct (descriptionTemplate d) as [out2 [e2 |]] eqn:H2; simpl.
    { exists [EvExecute DescriptionTemplate d]. rewrite <- !app_assoc.
      split_and!; try done. by repeat constructor. }
    destruct (Issue_Create client _ _) as [w' [[created resp'] err]] eqn:Hcr. simpl.
    destruct err as [err |]; [destruct resp' as [resp' |] | destruct created as [created |]];
      simpl; rewrite <- ?app_assoc; simpl.
    all: eexists; split; [reflexivity |].
    all: split; [done |]. all: split; [by repeat constructor |].
    all: intros _ _; eexists; split; [reflexivity |].
    all: eexists; split; [reflexivity |]; simpl.
    all: destruct (decide (CustomEpicField t ≠ "")) as [Hne | Heq%dec_stable]; simpl.
    all: rewrite Hty; by split_and!.
Qed.

(** C6: the data handed to the templates has the epic's key under
    ["epic"], whatever the ticket declared there. In every run of
    [createIssues] for the epic [e], each data value handed to
    [Template.Execute] is that of one of the tickets, with the parameters
    the ticket had at the start of the run overwritten at ["epic"] by the
    epic's key, and a run that returns nil has executed both templates on
    that data for every ticket, in order. And the write is made and the
    templates are reached: an iteration on a ticket that has a parameter
    map, and whose project resolves to one with an issue type, executes
    the summary template, and any other template it executes, on the
    ticket's parameters with ["epic"] set to the epic's key, whatever the
    map held under ["epic"] before. *)
Theorem epic_param_is_epic_key e tickets s :
  (∃ evs, trace (createIssues (Some e) tickets s).1 = trace s ++ evs ∧
     Forall (λ d, ∃ t p, t ∈ tickets ∧ Params t = Some p ∧
               dataParams d
               = Some (<["epic" := VString (jira.Epic.Key e)]> (mapAt (heap s) p)) ∧
               dataParams d ≫= (.!! "epic") = Some (VString (jira.Epic.Key e)))
            (executes evs) ∧
     ((createIssues (Some e) tickets s).2 = Next tt →
      executes evs
      = tickets ≫= (λ t, [contextOf (heap s) e t; contextOf (heap s) e t]))) ∧
  (∀ t l s0 p project issueType rest,
     Params t = Some p →
     resolvedProject client l t (world s0) = Some (Some project) →
     jira.Project.IssueTypes project = issueType :: rest →
     ∃ evs d,
       trace (iteration (Some e) t l s0).1 = trace s0 ++ evs ∧
       head (executes evs) = Some d ∧
       Forall (λ d', d' = d) (executes evs) ∧
       dataProject d = Project t ∧
       dataParams d
       = Some (<["epic" := VString (jira.Epic.Key e)]> (mapAt (heap s0) p)) ∧
       dataParams d ≫= (.!! "epic") = Some (VString (jira.Epic.Key e))).
Proof.
  split.
  - destruct (createIssues_spec client summaryTemplate descriptionTemplate
                (Some e) tickets s) as [evs S].
    exists evs. split_and!; [apply (run_trace S) | |].
    + eapply Forall_impl; [apply (run_executes S) |].
      intros d (e' & t & p & [= <-] & Hin & Hp & ->). exists t, p.
      unfold contextOf. rewrite Hp. simpl.
      split_and!; [done | done | done | apply lookup_insert_eq].
    + intros Hnil. pose proof (run_trace S) as Htr.
      destruct (createIssues (Some e) tickets s) as [s' r] eqn:Hc.
      simpl in Hnil, Htr. subst r.
      apply (createIssues_result client) in Hc as (r0 & Hloop & Hr).
      destruct r0 as [l' | |]; [| done..].
      apply (loop_success client) in Hloop as (results & Hlen & Htr' & _).
      rewrite Htr' in Htr. apply app_inv_head in Htr as <-.
      by apply executes_successEvents.
  - intros t l s0 p project issueType rest Hp Hres Hty.
    destruct (iteration_resolved e t l s0 p project issueType rest Hp Hres Hty)
      as (evs & Htr & _ & Hall & _).
    exists (lookupEvents l t None
            ++ EvExecute SummaryTemplate (contextOf (heap s0) e t) :: evs),
           (contextOf (heap s0) e t).
    assert (Hex : executes (lookupEvents l t None
                            ++ EvExecute SummaryTemplate (contextOf (heap s0) e t) :: evs)
                  = contextOf (heap s0) e t :: executes evs).
    { rewrite executes_app. unfold lookupEvents.
      by destruct (projectCache l !! Project t). }
    rewrite Hex. split_and!; [done | done | by constructor | done | |].
    + unfold contextOf. by rewrite Hp.
    + unfold contextOf. rewrite Hp. simpl. apply lookup_insert_eq.
Qed.

(** C7: the payload links to the epic in exactly one way. In every run
    of [createIssues] for the epic [e], the payloads handed to
    [client.Issue.Create] belong, in order, to the first tickets of the
    list, to all of them in a run that returns nil, and each links to the
    epic through [Unknowns], holding the epic's key under the ticket's
    [CustomEpicField], with [Epic] nil, when that field is non-empty, and
    through [Epic], with [Unknowns] nil, when it is empty. And the payload
    is built: an iteration on a ticket that has a parameter map, whose
    project resolves to one with an issue type and whose two templates
    succeed, hands exactly one payload to [client.Issue.Create], linked in
    that way. *)
Theorem one_epic_link e tickets s :
  (∃ evs, trace (createIssues (Some e) tickets s).1 = trace s ++ evs ∧
     Forall2 (λ t i, ∃ f, jira.Issue.Fields i = Some f ∧
                ((CustomEpicField t ≠ "" ∧
                  jira.IssueFields.Unknowns f
                  = Some {[ CustomEpicField t := VString (jira.Epic.Key e) ]} ∧
                  jira.IssueFields.Epic f = None) ∨
                 (CustomEpicField t = "" ∧
                  jira.IssueFields.Epic f = Some e ∧
                  jira.IssueFields.Unknowns f = None)))
             (take (length (creates evs)) tickets) (creates evs) ∧
     ((createIssues (Some e) tickets s).2 = Next tt →
      length (creates evs) = length tickets)) ∧
  (∀ t l s0 p project issueType rest,
     Params t = Some p →
     resolvedProject client l t (world s0) = Some (Some project) →
     jira.Project.IssueTypes project = issueType :: rest →
     (summaryTemplate (contextOf (heap s0) e t)).2 = None →
     (descriptionTemplate (contextOf (heap s0) e t)).2 = None →
     ∃ evs issue f,
       trace (iteration (Some e) t l s0).1 = trace s0 ++ evs ∧
       creates evs = [issue] ∧
       jira.Issue.Fields issue = Some f ∧
       ((CustomEpicField t ≠ "" ∧
         jira.IssueFields.Unknowns f
         = Some {[ CustomEpicField t := VString (jira.Epic.Key e) ]} ∧
         jira.IssueFields.Epic f = None) ∨
        (CustomEpicField t = "" ∧
         jira.IssueFields.Epic f = Some e ∧
         jira.IssueFields.Unknowns f = None))).
Proof.
  split.
  - destruct (createIssues_spec client summaryTemplate descriptionTemplate
                (Some e) tickets s) as [evs S].
    exists evs. split_and!; [apply (run_trace S) | |].
    + destruct (run_creates S) as [n Hn].
      apply Forall2_take_length in Hn.
      eapply Forall2_impl; [exact Hn |].
      intros t i (e' & [= <-] & f & Hf & _ & _ & _ & Hcustom & Hstd). exists f.
      split; [done |]. simpl in *.
      destruct (decide (CustomEpicField t = "")) as [Heq | Hne].
      * right. by destruct (Hstd Heq).
      * left. by destruct (Hcustom Hne).
    + rewrite (createIssues_loop client). simpl. intros Hnil.
      destruct ((loop (Some e) tickets initialLocals s).2) as [l' | |] eqn:Hr;
        [| done..].
      by destruct (run_next S l' eq_refl) as (_ & Hlen & _).
  - intros t l s0 p project issueType rest Hp Hres Hty H1 H2.
    destruct (iteration_resolved e t l s0 p project issueType rest Hp Hres Hty)
      as (evs & Htr & _ & _ & Hcreate).
    destruct (Hcreate H1 H2) as (issue & Hc & f & Hf & _ & _ & _ & Hcustom & Hstd).
    exists (lookupEvents l t None
            ++ EvExecute SummaryTemplate (contextOf (heap s0) e t) :: evs), issue, f.
    split_and!; [done | | done |].
    + rewrite creates_app. unfold lookupEvents.
      by destruct (projectCache l !! Project t).
    + simpl in *. destruct (decide (CustomEpicField t = "")) as [Heq | Hne].
      * right. by destruct (Hstd Heq).
      * left. by destruct (Hcustom Hne).
Qed.

End EpicLink.

(** ** More properties of [getEpic] and [main] *)

Section MoreMainProperties.
Context {W : Type} (client : Client W).
Context (ReadFile : string → string + error).
Context (UnmarshalTickets : string → Heap → Heap * list Ticket * option error).
Context (UnmarshalCreds : string → Creds * option error).
Context (ParseFiles : string → Template + error).
Context (NewClient : string → option error).

Abbreviation main :=
  (main client ReadFile UnmarshalTickets UnmarshalCreds ParseFiles NewClient).
Abbreviation loaded :=
  (inputsLoaded ReadFile UnmarshalTickets UnmarshalCreds ParseFiles NewClient).

Lemma getEpic_epic_inv name s epic err :
  (getEpic client name s).2 = Next (Some epic, err) →
  err = None ∧
  ∃ w issue resp fields,
    Issue_Get client (world s) name "issuetype" = (w, (Some issue, resp, None)) ∧
    jira.Issue.Fields issue = Some fields ∧
    jira.IssueType.Name (jira.IssueFields.Type_ fields) = "Epic" ∧
    Atoi (jira.Issue.ID issue) = inl (jira.Epic.ID epic) ∧
    jira.Epic.Key epic = jira.Issue.Key issue ∧
    jira.Epic.Self epic = jira.Issue.Self issue.
Proof.
  unfold getEpic. unfold_M.
  destruct (Issue_Get client (world s) name "issuetype") as [w [[issue resp] e]] eqn:Hget.
  simpl. intros H.
  destruct e as [e |]; [by destruct resp |].
  destruct issue as [issue |]; [| done].
  destruct (jira.Issue.Fields issue) as [fields |] eqn:Hf; [| done].
  destruct (decide _) as [Hne | Heq]; [done |].
  destruct (Atoi (jira.Issue.ID issue)) as [id | e] eqn:Hid; [| done].
  injection H as <- <-. split; [done |]. exists w, issue, resp, fields.
  split_and!; try done. by apply dec_stable.
Qed.

(** [getEpic] returns an epic exactly when the lookup succeeded with an
    issue whose type name is ["Epic"] and whose ID reads as a decimal
    [int]; the epic then has that number as ID and the issue's key and
    self link, and the error is nil. *)
Theorem getEpic_epic_iff name s epic err :
  (getEpic client name s).2 = Next (Some epic, err) ↔
  err = None ∧
  ∃ w issue resp fields,
    Issue_Get client (world s) name "issuetype" = (w, (Some issue, resp, None)) ∧
    jira.Issue.Fields issue = Some fields ∧
    jira.IssueType.Name (jira.IssueFields.Type_ fields) = "Epic" ∧
    Atoi (jira.Issue.ID issue) = inl (jira.Epic.ID epic) ∧
    jira.Epic.Key epic = jira.Issue.Key issue ∧
    jira.Epic.Self epic = jira.Issue.Self issue.
Proof.
  unfold getEpic. unfold_M.
  destruct (Issue_Get client (world s) name "issuetype") as [w [[issue resp] e]] eqn:Hget.
  simpl. split.
  - intros H.
    destruct e as [e |]; [by destruct resp |].
    destruct issue as [issue |]; [| done].
    destruct (jira.Issue.Fields issue) as [fields |] eqn:Hf; [| done].
    destruct (decide _) as [Hne | Heq]; [done |].
    destruct (Atoi (jira.Issue.ID issue)) as [id | e] eqn:Hid; [| done].
    injection H as <- <-. split; [done |]. exists w, issue, resp, fields.
    split_and!; try done. by apply dec_stable.
  - intros (-> & w' & issue' & resp' & fields & [= -> -> -> ->] & Hf & Hty & Hid & Hk & Hs).
    rewrite Hf. rewrite decide_False by (by intros ?). rewrite Hid.
    destruct epic; simpl in *. by subst.
Qed.

(** On every path [getEpic] makes one call to the tracker, [Issue.Get]
    for the name with the field filter ["issuetype"], moves the tracker
    to the state the call left and leaves the heap alone. When the call
    succeeds nothing else is added to the trace. When it fails and gave a
    response, the request and the response body are printed and the
    call's error is returned with no epic. When it fails and gave no
    response, the error handler dereferences nil: nothing is printed and
    [getEpic] panics. *)
Theorem getEpic_one_call name s :
  ∃ w issue resp err,
    Issue_Get client (world s) name "issuetype" = (w, (issue, resp, err)) ∧
    world (getEpic client name s).1 = w ∧
    heap (getEpic client name s).1 = heap s ∧
    match err, resp with
    | None, _ =>
        trace (getEpic client name s).1 = trace s ++ [EvIssueGet name "issuetype" None]
    | Some e, Some r =>
        trace (getEpic client name s).1
        = trace s ++ EvIssueGet name "issuetype" (Some e) :: requestDiagnostics r ∧
        (getEpic client name s).2 = Next (None, Some e)
    | Some e, None =>
        trace (getEpic client name s).1
        = trace s ++ [EvIssueGet name "issuetype" (Some e)] ∧
        (getEpic client name s).2 = Panic nilDereference
    end.
Proof.
  unfold getEpic. unfold_M.
  destruct (Issue_Get client (world s) name "issuetype") as [w [[issue resp] err]] eqn:Hget.
  exists w, issue, resp, err. split; [done |]. simpl.
  destruct err as [e |].
  - destruct resp as [resp |]; simpl; [| done].
    rewrite <- !app_assoc. by split_and!.
  - split_and!.
    all: destruct issue as [issue |]; [| done].
    all: destruct (jira.Issue.Fields issue); [| done].
    all: destruct (decide _); [done |].
    all: by destruct (Atoi _).
Qed.


(** [main] either stops before its first call to the tracker, with a
    panic, because an input failed to load; or it loaded its inputs,
    authenticated, and goes on with [getEpic] and [createIssues]. *)
Lemma main_load_cases flags s :
  (∃ v pre, (main flags s).2 = Panic v ∧
            trace (main flags s).1 = trace s ++ pre ∧
            (pre = [] ∨ ∃ user password, pre = [EvSetBasicAuth user password])) ∨
  (∃ creds summaryTemplate descriptionTemplate h tickets,
     loaded flags (heap s) creds summaryTemplate descriptionTemplate h tickets ∧
     main flags s =
     match getEpic client (epicName flags)
             {| world := world s; heap := h;
                trace := trace s ++ [EvSetBasicAuth (User creds) (Password creds)] |} with
     | (s2, Next (_, Some err)) => (s2, Panic (PanicError (Some err)))
     | (s2, Next (None, None)) =>
         ({| world := world s2; heap := heap s2;
             trace := trace s2 ++
               [EvPrint Stderr (Some ("Found %s but it was not an epic." +:+ LF))
                  [OString (epicName flags)]] |},
          Panic (PanicError None))
     | (s2, Next (Some epic, None)) =>
         match createIssues client summaryTemplate descriptionTemplate
                 (Some epic) tickets s2 with
         | (s', Return err) => (s', Panic (PanicError (Some err)))
         | r => r
         end
     | (s2, Return e) => (s2, Return e)
     | (s2, Panic v) => (s2, Panic v)
     end).
Proof.
  unfold inputsLoaded.
  unfold_main.
  destruct (getCreds _ _ _) as [[creds |] [e |]];
    try (left; eexists _, []; rewrite app_nil_r; by split_and!; [..| left]).
  destruct (NewClient _);
    [left; eexists _, []; rewrite app_nil_r; by split_and!; [..| left] |].
  destruct (loadTemplate _ (summaryTemplatePath flags)) as [T1 |];
    [| left; eexists _, [_]; split_and!; [done | done | right; by eexists _, _] ].
  destruct (loadTemplate _ (descriptionTemplatePath flags)) as [T2 |];
    [| left; eexists _, [_]; split_and!; [done | done | right; by eexists _, _] ].
  destruct (ReadFile (ticketsFilePath flags)) as [data |];
    [| left; eexists _, [_]; split_and!; [done | done | right; by eexists _, _] ].
  destruct (UnmarshalTickets _ _) as [[h tickets] [e |]] eqn:Hun;
    [left; eexists _, [_]; split_and!; [done | done | right; by eexists _, _] |].
  right. exists creds, T1, T2, h, tickets. split.
  { split_and!; try done. by exists data. }
  simpl.
  destruct (getEpic client (epicName flags) _) as [s2 [[[epic |] [err |]] | e | v]]; done.
Qed.


Lemma getEpic_events name s :
  ∃ err rest,
    trace (getEpic client name s).1 = trace s ++ EvIssueGet name "issuetype" err :: rest ∧
    heap (getEpic client name s).1 = heap s ∧
    issueGets rest = [] ∧ executes rest = [] ∧ creates rest = [] ∧ lookups rest = [] ∧
    (∀ epic err', (getEpic client name s).2 = Next (Some epic, err') →
                  err = None ∧ rest = []).
Proof.
  unfold getEpic. unfold_M.
  destruct (Issue_Get client (world s) name "issuetype") as [w [[issue resp] err]] eqn:Hget.
  simpl. exists err. destruct err as [e |].
  - destruct resp as [resp |]; simpl.
    + exists (requestDiagnostics resp). rewrite <- !app_assoc. by split_and!.
    + exists []. by split_and!.
  - exists []. split_and!; try done.
    all: destruct issue as [issue |]; [| done].
    all: destruct (jira.Issue.Fields issue); [| done].
    all: destruct (decide _); [done |].
    all: by destruct (Atoi _).
Qed.

Lemma createIssues_no_issueGets summaryTemplate descriptionTemplate epic tickets s :
  ∃ evs, trace (createIssues client summaryTemplate descriptionTemplate epic tickets s).1
         = trace s ++ evs ∧ issueGets evs = [].
Proof.
  rewrite (createIssues_loop client). simpl.
  destruct (loop client summaryTemplate descriptionTemplate epic tickets initialLocals s)
    as [s' r] eqn:Hloop.
  by apply loop_no_issueGets in Hloop.
Qed.

(** [main] calls the tracker only after the credentials, the client, both
    templates and the tickets have loaded without error and the client has
    been given the credentials; its first call is the lookup of the epic,
    with the field filter ["issuetype"], and it makes no second
    [Issue.Get]. *)
Theorem main_first_remote_call flags s evs :
  trace (main flags s).1 = trace s ++ evs →
  Exists remoteCall evs →
  ∃ creds summaryTemplate descriptionTemplate h tickets err rest,
    loaded flags (heap s) creds summaryTemplate descriptionTemplate h tickets ∧
    evs = EvSetBasicAuth (User creds) (Password creds)
          :: EvIssueGet (epicName flags) "issuetype" err :: rest ∧
    issueGets rest = [].
Proof.
  intros Htr Hex.
  destruct (main_load_cases flags s)
    as [(v & pre & _ & Hpre & Hshape) | (creds & T1 & T2 & h & tickets & Hl & Hmain)].
  { rewrite Htr in Hpre. apply app_inv_head in Hpre as ->.
    destruct Hshape as [-> | (u & p & ->)].
    - by apply Exists_nil in Hex.
    - apply Exists_cons in Hex as [[] | Hex]. by apply Exists_nil in Hex. }
  exists creds, T1, T2, h, tickets.
  set (s1 := {| world := world s; heap := h;
                trace := trace s ++ [EvSetBasicAuth (User creds) (Password creds)] |}) in *.
  destruct (getEpic_events (epicName flags) s1) as (err & rest0 & Htr0 & _ & Hg0 & _).
  rewrite Hmain in Htr. clear Hmain.
  destruct (getEpic client (epicName flags) s1) as [s2 r2]. simpl in Htr0.
  assert (Hfin : ∀ more, issueGets more = [] →
            trace s2 ++ more = trace s ++ evs →
            ∃ rest, evs = EvSetBasicAuth (User creds) (Password creds)
                          :: EvIssueGet (epicName flags) "issuetype" err :: rest ∧
                    issueGets rest = []).
  { intros more Hm Hevs. rewrite Htr0 in Hevs. simpl in Hevs.
    rewrite <- !app_assoc in Hevs. apply app_inv_head in Hevs as <-.
    exists (rest0 ++ more). split; [done |]. by rewrite issueGets_app, Hg0, Hm. }
  assert (∃ rest, evs = EvSetBasicAuth (User creds) (Password creds)
                          :: EvIssueGet (epicName flags) "issuetype" err :: rest ∧
                  issueGets rest = []) as (rest & ? & ?); [| by exists err, rest].
  destruct r2 as [[[epic |] [e |]] | e | v]; simpl in Htr.
  - apply (Hfin []); [done | by rewrite app_nil_r].
  - destruct (createIssues_no_issueGets T1 T2 (Some epic) tickets s2) as (more & Hm & Hg).
    apply (Hfin more); [done |]. rewrite <- Hm, <- Htr.
    by destruct (createIssues client T1 T2 (Some epic) tickets s2) as [s' [[] | e | v]].
  - apply (Hfin []); [done | by rewrite app_nil_r].
  - by eapply Hfin; [| exact Htr].
  - apply (Hfin []); [done | by rewrite app_nil_r].
  - apply (Hfin []); [done | by rewrite app_nil_r].
Qed.

(** The exact trace of a run of [main] that ends normally: the inputs
    loaded, the lookup of the epic returned an issue of type ["Epic"] with
    a decimal ID, and after the authentication and that lookup come the
    events of a run of [createIssues] in which every ticket succeeded, for
    the epic built from the issue. *)
Theorem main_normal_end flags s s' :
  main flags s = (s', Next tt) →
  ∃ creds summaryTemplate descriptionTemplate h tickets w issue resp fields id results,
    loaded flags (heap s) creds summaryTemplate descriptionTemplate h tickets ∧
    Issue_Get client (world s) (epicName flags) "issuetype"
      = (w, (Some issue, resp, None)) ∧
    jira.Issue.Fields issue = Some fields ∧
    jira.IssueType.Name (jira.IssueFields.Type_ fields) = "Epic" ∧
    Atoi (jira.Issue.ID issue) = inl id ∧
    length results = length tickets ∧
    trace s' = trace s ++
      EvSetBasicAuth (User creds) (Password creds)
      :: EvIssueGet (epicName flags) "issuetype" None
      :: successEvents (contextOf h (epicOf issue id)) ∅ tickets results.
Proof.
  intros Hmain.
  destruct (main_load_cases flags s)
    as [(v & pre & Hv & _) | (creds & T1 & T2 & h & tickets & Hl & Heq)].
  { by rewrite Hmain in Hv. }
  rewrite Hmain in Heq. clear Hmain.
  set (s1 := {| world := world s; heap := h;
                trace := trace s ++ [EvSetBasicAuth (User creds) (Password creds)] |}) in *.
  destruct (getEpic_events (epicName flags) s1)
    as (err & rest0 & Htr0 & Hh0 & _ & _ & _ & _ & Hok).
  pose proof (getEpic_epic_inv (epicName flags) s1) as Hinv.
  destruct (getEpic client (epicName flags) s1) as [s2 r2]. simpl in *.
  destruct r2 as [[[epic |] [e |]] | e | v]; try done.
  destruct (Hinv epic None eq_refl)
    as (_ & w & issue & resp & fields & Hget & Hf & Hty & Hid & Hk & Hself).
  destruct (Hok epic None eq_refl) as [-> ->].
  destruct (createIssues client T1 T2 (Some epic) tickets s2) as [s3 r3] eqn:Hc.
  destruct r3 as [[] | |]; [| done..]. injection Heq as ->.
  apply (createIssues_result client) in Hc as (r0 & Hloop & Hr).
  destruct r0 as [l' | |]; [| done..].
  apply (loop_success client) in Hloop as (results & Hlen & Htr & _).
  simpl in Htr. rewrite dom_empty_L in Htr.
  exists creds, T1, T2, h, tickets, w, issue, resp, fields, (jira.Epic.ID epic), results.
  split_and!; try done.
  assert (epic = epicOf issue (jira.Epic.ID epic)) as <-.
  { destruct epic. unfold epicOf. simpl in *. by subst. }
  rewrite Htr, Htr0, Hh0. simpl. by rewrite <- !app_assoc.
Qed.

(** What [main] did before it calls [createIssues], or instead of it:
    events that touch no ticket. *)
Lemma main_before_createIssues flags s :
  (∃ evs, trace (main flags s).1 = trace s ++ evs ∧
          lookups evs = [] ∧ executes evs = [] ∧ creates evs = []) ∨
  (∃ creds summaryTemplate descriptionTemplate h tickets epic s2 evs,
     loaded flags (heap s) creds summaryTemplate descriptionTemplate h tickets ∧
     getEpic client (epicName flags)
       {| world := world s; heap := h;
          trace := trace s ++ [EvSetBasicAuth (User creds) (Password creds)] |}
     = (s2, Next (Some epic, None)) ∧
     heap s2 = h ∧
     trace s2 = trace s ++ evs ∧
     lookups evs = [] ∧ executes evs = [] ∧ creates evs = [] ∧
     trace (main flags s).1
     = trace (createIssues client summaryTemplate descriptionTemplate
                (Some epic) tickets s2).1).
Proof.
  destruct (main_load_cases flags s)
    as [(v & pre & _ & Hpre & Hshape) | (creds & T1 & T2 & h & tickets & Hl & Hmain)].
  { left. exists pre. split; [done |]. by destruct Hshape as [-> | (u & p & ->)]. }
  set (s1 := {| world := world s; heap := h;
                trace := trace s ++ [EvSetBasicAuth (User creds) (Password creds)] |}) in *.
  destruct (getEpic_events (epicName flags) s1)
    as (err & rest0 & Htr0 & Hh0 & _ & Hx0 & Hc0 & Hl0 & _).
  rewrite Hmain. clear Hmain.
  destruct (getEpic client (epicName flags) s1) as [s2 r2] eqn:Hge. simpl in Htr0, Hh0.
  assert (Hs2 : trace s2 = trace s ++
            EvSetBasicAuth (User creds) (Password creds)
            :: EvIssueGet (epicName flags) "issuetype" err :: rest0).
  { rewrite Htr0. simpl. by rewrite <- app_assoc. }
  assert (Hnone : lookups (EvSetBasicAuth (User creds) (Password creds)
                    :: EvIssueGet (epicName flags) "issuetype" err :: rest0) = [] ∧
                  executes (EvSetBasicAuth (User creds) (Password creds)
                    :: EvIssueGet (epicName flags) "issuetype" err :: rest0) = [] ∧
                  creates (EvSetBasicAuth (User creds) (Password creds)
                    :: EvIssueGet (epicName flags) "issuetype" err :: rest0) = []).
  { by split_and!. }
  destruct Hnone as (? & ? & ?).
  destruct r2 as [[[epic |] [e |]] | e | v]; simpl.
  2: { right. exists creds, T1, T2, h, tickets, epic, s2. eexists.
       split_and!; try done.
       by destruct (createIssues client T1 T2 (Some epic) tickets s2) as [s' [[] | |]]. }
  all: left; eexists; split; [rewrite Hs2, <- ?app_assoc; reflexivity |].
  all: unfold lookups, executes, creates in *; simpl; rewrite ?omap_app; simpl.
  all: by rewrite ?Hl0, ?Hx0, ?Hc0.
Qed.

(** [main] touches a ticket (looks up a project, executes a template or
    creates an issue) only when the lookup of the epic's name succeeded with
    an issue whose type name is ["Epic"] and whose ID reads as a decimal
    [int]. *)
Theorem main_tickets_need_epic flags s evs :
  trace (main flags s).1 = trace s ++ evs →
  lookups evs ≠ [] ∨ executes evs ≠ [] ∨ creates evs ≠ [] →
  ∃ w issue resp fields id,
    Issue_Get client (world s) (epicName flags) "issuetype"
      = (w, (Some issue, resp, None)) ∧
    jira.Issue.Fields issue = Some fields ∧
    jira.IssueType.Name (jira.IssueFields.Type_ fields) = "Epic" ∧
    Atoi (jira.Issue.ID issue) = inl id.
Proof.
  intros Htr Hev.
  destruct (main_before_createIssues flags s)
    as [(evs' & Htr' & Hl & Hx & Hc) |
        (creds & T1 & T2 & h & tickets & epic & s2 & evs0 & _ & Hge & _)].
  { rewrite Htr in Htr'. apply app_inv_head in Htr' as <-. naive_solver. }
  apply (f_equal snd) in Hge.
  apply getEpic_epic_inv in Hge as (_ & w & issue & resp & fields & ? & ? & ? & ? & _).
  by exists w, issue, resp, fields, (jira.Epic.ID epic).
Qed.

(** The epic that [main] writes into the tickets' parameters and links
    the issues to is identified by the key of the issue the tracker
    returned for the name, not by the name given on the command line:
    every data value handed to a template has that key under ["epic"], and
    every payload carries it, as the key of its [Epic] or as the value of
    its one custom field. *)
Theorem main_uses_issue_key flags s w issue resp :
  Issue_Get client (world s) (epicName flags) "issuetype"
    = (w, (Some issue, resp, None)) →
  ∃ evs, trace (main flags s).1 = trace s ++ evs ∧
    Forall (λ d, dataParams d ≫= (.!! "epic")
                 = Some (VString (jira.Issue.Key issue))) (executes evs) ∧
    Forall (λ i, ∃ f, jira.Issue.Fields i = Some f ∧
              ((jira.Epic.Key <$> jira.IssueFields.Epic f = Some (jira.Issue.Key issue) ∧
                jira.IssueFields.Unknowns f = None) ∨
               (∃ k, jira.IssueFields.Unknowns f
                     = Some {[ k := VString (jira.Issue.Key issue) ]} ∧
                     jira.IssueFields.Epic f = None)))
           (creates evs).
Proof.
  intros Hget.
  destruct (main_before_createIssues flags s)
    as [(evs' & Htr' & Hl & Hx & Hc) |
        (creds & T1 & T2 & h & tickets & epic & s2 & evs0 & _ & Hge & Hh & Htr0 &
         Hl0 & Hx0 & Hc0 & Htr)].
  { exists evs'. rewrite Hx, Hc. by split_and!. }
  apply (f_equal snd) in Hge.
  apply getEpic_epic_inv in Hge
    as (_ & w' & issue' & resp' & fields & Hget' & _ & _ & _ & Hk & _).
  simpl in Hget'. rewrite Hget in Hget'. injection Hget' as <- <- <-.
  destruct (createIssues_spec client T1 T2 (Some epic) tickets s2) as [evs1 S].
  exists (evs0 ++ evs1). split_and!.
  - by rewrite Htr, (run_trace S), Htr0, app_assoc.
  - rewrite executes_app, Hx0. simpl.
    eapply Forall_impl; [apply (run_executes S) |].
    intros d (e & t & p & [= <-] & _ & Hp & ->). unfold contextOf. rewrite Hp. simpl.
    by rewrite lookup_insert_eq, Hk.
  - rewrite creates_app, Hc0. simpl.
    destruct (run_creates S) as [n Hn].
    eapply Forall2_Forall_r; [exact Hn |].
    apply Forall_forall. intros t _ i (e & [= <-] & f & Hf & _ & _ & _ & Hcustom & Hstd).
    exists f. split; [done |]. simpl in *.
    destruct (decide (CustomEpicField t = "")) as [Heq | Hne].
    + left. destruct (Hstd Heq) as [-> ->]. simpl. by rewrite Hk.
    + right. exists (CustomEpicField t). destruct (Hcustom Hne) as [-> ->]. by rewrite Hk.
Qed.

End MoreMainProperties.

(** ** Properties of the earlier revision *)

Section EarlierProperties.
Context {W : Type} (client : Client W).
Context (summaryTemplate descriptionTemplate : Earlier.Template).

Lemma earlier_dataOf_injectEpic e p h t :
  Earlier.Params t = Some p →
  Earlier.dataOf (injectEpic (jira.Epic.Key e) p h) t = Earlier.contextOf h e t.
Proof.
  intros Hp. unfold Earlier.dataOf, Earlier.contextOf. rewrite Hp. simpl.
  by rewrite mapAt_injectEpic.
Qed.

Lemma earlier_contextOf_epicWritten e ps h0 h1 t :
  epicWritten (Some e) ps h0 h1 → Earlier.contextOf h1 e t = Earlier.contextOf h0 e t.
Proof.
  intros H. unfold Earlier.contextOf. f_equal. destruct (Earlier.Params t) as [p|]; [| done].
  simpl. f_equal. by eapply epicWritten_rebase.
Qed.

Lemma earlier_prints_app evs1 evs2 :
  Earlier.prints (evs1 ++ evs2) = Earlier.prints evs1 ++ Earlier.prints evs2.
Proof. apply omap_app. Qed.
Lemma earlier_executes_app evs1 evs2 :
  Earlier.executes (evs1 ++ evs2) = Earlier.executes evs1 ++ Earlier.executes evs2.
Proof. apply omap_app. Qed.
Lemma earlier_issueGets_app evs1 evs2 :
  Earlier.issueGets (evs1 ++ evs2) = Earlier.issueGets evs1 ++ Earlier.issueGets evs2.
Proof. apply omap_app. Qed.

(** One iteration that starts with empty buffers. *)
Lemma earlier_iteration_spec epic t (s s' : Earlier.State W) r :
  Earlier.iteration summaryTemplate descriptionTemplate epic t ("", "") s = (s', r) →
  ∃ evs, Earlier.trace s' = Earlier.trace s ++ evs ∧
    Earlier.issueGets evs = [] ∧
    epicWritten epic (omap Earlier.Params [t]) (Earlier.heap s) (Earlier.heap s') ∧
    Forall (λ d, ∃ e, epic = Some e ∧ is_Some (Earlier.Params t) ∧
                      d = Earlier.contextOf (Earlier.heap s) e t)
           (Earlier.executes evs) ∧
    match r with
    | Next bufs =>
        bufs = ("", "") ∧
        ∃ e, epic = Some e ∧
             Earlier.prints evs
             = [Earlier.fieldsFor summaryTemplate descriptionTemplate e t
                  (Earlier.contextOf (Earlier.heap s) e t)]
    | _ => Earlier.prints evs = []
    end.
Proof.
  unfold_earlier. intros H.
  repeat (simplify_eq/= ||
          match goal with
          | H : context [match ?x with _ => _ end] |- _ =>
              let E := fresh "E" in destruct x eqn:E
          end).
  all: rewrite <- ?app_assoc.
  all: first [ eexists; split; [simpl; reflexivity | ..]
             | exists []; split; [simpl; by rewrite app_nil_r | ..] ].
  all: split; [reflexivity |].
  all: try match goal with E : Earlier.Params _ = Some _ |- _ => rewrite E end.
  all: simpl.
  all: change (<[?p := <["epic" := VString ?k]> (mapAt ?h ?p)]> ?h)
         with (injectEpic k p h) in *.
  all: rewrite ?earlier_dataOf_injectEpic by done.
  all: split; [first [apply epicWritten_refl | apply epicWritten_injectEpic] |].
  all: split; [repeat constructor; eauto |].
  all: try done.
  split; [done |]. eexists. split; [done |]. done.
Qed.

Lemma earlier_loop_cons epic t ts bufs (s : Earlier.State W) :
  Earlier.loop summaryTemplate descriptionTemplate epic (t :: ts) bufs s =
  match Earlier.iteration summaryTemplate descriptionTemplate epic t bufs s with
  | (s1, Next bufs1) => Earlier.loop summaryTemplate descriptionTemplate epic ts bufs1 s1
  | (s1, Return e) => (s1, Return e)
  | (s1, Panic v) => (s1, Panic v)
  end.
Proof. reflexivity. Qed.

Lemma earlier_loop_spec e tickets (s s' : Earlier.State W) r :
  Earlier.loop summaryTemplate descriptionTemplate (Some e) tickets ("", "") s = (s', r) →
  ∃ evs n, Earlier.trace s' = Earlier.trace s ++ evs ∧
    Earlier.issueGets evs = [] ∧
    epicWritten (Some e) (omap Earlier.Params tickets) (Earlier.heap s) (Earlier.heap s') ∧
    Forall (λ d, ∃ t, t ∈ tickets ∧ is_Some (Earlier.Params t) ∧
                      d = Earlier.contextOf (Earlier.heap s) e t)
           (Earlier.executes evs) ∧
    Earlier.prints evs
    = (λ t, Earlier.fieldsFor summaryTemplate descriptionTemplate e t
              (Earlier.contextOf (Earlier.heap s) e t)) <$> take n tickets ∧
    (n ≤ length tickets)%nat ∧
    (∀ bufs, r = Next bufs → n = length tickets).
Proof.
  revert s. induction tickets as [| t ts IH]; intros s H.
  { injection H as <- <-. exists [], 0%nat. rewrite app_nil_r.
    split_and!; try done. apply epicWritten_refl. }
  rewrite earlier_loop_cons in H.
  destruct (Earlier.iteration _ _ _ t _ s) as [s1 r1] eqn:Hit.
  apply earlier_iteration_spec in Hit as (evs1 & Htr1 & Hg1 & Hw1 & Hx1 & Hr1).
  assert (Hx1' : Forall (λ d, ∃ t', t' ∈ t :: ts ∧ is_Some (Earlier.Params t') ∧
                          d = Earlier.contextOf (Earlier.heap s) e t')
                   (Earlier.executes evs1)).
  { eapply Forall_impl; [exact Hx1 |]. intros d (e' & [= <-] & Hp & ->).
    exists t. split_and!; [set_solver | done | done]. }
  destruct r1 as [bufs1 | e1 | v1].
  - destruct Hr1 as (-> & e' & [= <-] & Hp1).
    destruct (IH _ H) as (evs2 & n & Htr2 & Hg2 & Hw2 & Hx2 & Hp2 & Hn & Hnext).
    exists (evs1 ++ evs2), (S n). split_and!.
    + by rewrite Htr2, Htr1, app_assoc.
    + by rewrite earlier_issueGets_app, Hg1, Hg2.
    + rewrite (omap_app Earlier.Params [t] ts : omap Earlier.Params (t :: ts) = _).
      by eapply epicWritten_trans.
    + rewrite earlier_executes_app. apply Forall_app. split; [done |].
      eapply Forall_impl; [exact Hx2 |]. intros d (t' & Hin & Hp & ->).
      exists t'. split_and!; [set_solver | done |].
      by eapply earlier_contextOf_epicWritten.
    + rewrite earlier_prints_app, Hp1, Hp2. simpl. f_equal.
      apply list_fmap_ext. intros _ t' _. f_equal.
      by eapply earlier_contextOf_epicWritten.
    + simpl. lia.
    + intros bufs Hr. simpl. f_equal. by eapply Hnext.
  - injection H as <- <-. exists evs1, 0%nat. rewrite Hr1.
    split_and!; try done.
    + rewrite (omap_app Earlier.Params [t] ts : omap Earlier.Params (t :: ts) = _).
      eapply epicWritten_trans; [done | apply epicWritten_refl].
    + simpl. lia.
  - injection H as <- <-. exists evs1, 0%nat. rewrite Hr1.
    split_and!; try done.
    + rewrite (omap_app Earlier.Params [t] ts : omap Earlier.Params (t :: ts) = _).
      eapply epicWritten_trans; [done | apply epicWritten_refl].
    + simpl. lia.
Qed.

Lemma earlier_createIssues_spec e tickets (s : Earlier.State W) :
  ∃ evs n,
    Earlier.trace (Earlier.createIssues summaryTemplate descriptionTemplate
                     (Some e) tickets s).1 = Earlier.trace s ++ evs ∧
    Earlier.issueGets evs = [] ∧
    epicWritten (Some e) (omap Earlier.Params tickets) (Earlier.heap s)
      (Earlier.heap (Earlier.createIssues summaryTemplate descriptionTemplate
                       (Some e) tickets s).1) ∧
    Forall (λ d, ∃ t, t ∈ tickets ∧ is_Some (Earlier.Params t) ∧
                      d = Earlier.contextOf (Earlier.heap s) e t)
           (Earlier.executes evs) ∧
    Earlier.prints evs
    = (λ t, Earlier.fieldsFor summaryTemplate descriptionTemplate e t
              (Earlier.contextOf (Earlier.heap s) e t)) <$> take n tickets ∧
    (n ≤ length tickets)%nat ∧
    ((Earlier.createIssues summaryTemplate descriptionTemplate
        (Some e) tickets s).2 = Next tt → n = length tickets).
Proof.
  unfold Earlier.createIssues, mbind, mret, Earlier.M_bind, Earlier.M_ret.
  destruct (Earlier.loop _ _ _ tickets _ s) as [s' r] eqn:Hloop.
  apply earlier_loop_spec in Hloop as (evs & n & Htr & Hg & Hw & Hx & Hp & Hn & Hnext).
  exists evs, n. destruct r as [bufs | e' | v]; simpl; split_and!; try done.
  intros _. by eapply Hnext.
Qed.

End EarlierProperties.

Section EarlierTheorems.
Context {W : Type} (client : Client W).

(** Earlier revision: a run of [createIssues] never calls the tracker; it
    prints, for the first tickets of the list in order (for all of them
    when it returns nil), issue fields whose summary and description are
    the outputs of the two templates on that ticket's data alone, whose
    project has the ticket's project as its name, and whose epic is the
    one given; and it changes the caller's maps only by writing the epic's
    key under ["epic"]. *)
Theorem earlier_createIssues_prints summaryTemplate descriptionTemplate e tickets
    (s : Earlier.State W) :
  ∃ evs,
    Earlier.trace (Earlier.createIssues summaryTemplate descriptionTemplate
                     (Some e) tickets s).1 = Earlier.trace s ++ evs ∧
    Earlier.issueGets evs = [] ∧
    Earlier.prints evs
    = (λ t, Earlier.fieldsFor summaryTemplate descriptionTemplate e t
              (Earlier.contextOf (Earlier.heap s) e t))
      <$> take (length (Earlier.prints evs)) tickets ∧
    ((Earlier.createIssues summaryTemplate descriptionTemplate
        (Some e) tickets s).2 = Next tt →
     length (Earlier.prints evs) = length tickets) ∧
    epicWritten (Some e) (omap Earlier.Params tickets) (Earlier.heap s)
      (Earlier.heap (Earlier.createIssues summaryTemplate descriptionTemplate
                       (Some e) tickets s).1).
Proof.
  destruct (earlier_createIssues_spec summaryTemplate descriptionTemplate e tickets s)
    as (evs & n & Htr & Hg & Hw & _ & Hp & Hn & Hnext).
  assert (Hlen : length (Earlier.prints evs) = n).
  { rewrite Hp, length_fmap, length_take. lia. }
  exists evs. rewrite Hlen. by split_and!.
Qed.

Lemma earlier_ensureEpicExists_inv name (s : Earlier.State W) err :
  (Earlier.ensureEpicExists client name s).2 = Next (true, err) →
  err = None ∧
  ∃ w issue resp fields,
    Issue_Get client (Earlier.world s) name "issuetype" = (w, (Some issue, resp, None)) ∧
    jira.Issue.Fields issue = Some fields ∧
    jira.IssueType.Name (jira.IssueFields.Type_ fields) = "Epic".
Proof.
  unfold_earlier.
  destruct (Issue_Get client (Earlier.world s) name "issuetype")
    as [w [[issue resp] e]] eqn:Hget.
  simpl. intros H.
  destruct e as [e |]; [by destruct resp |].
  destruct issue as [issue |]; [| done].
  destruct (jira.Issue.Fields issue) as [fields |] eqn:Hf; [| done].
  injection H as Hb <-. apply bool_decide_eq_true in Hb.
  split; [done |]. by exists w, issue, resp, fields.
Qed.

(** Earlier revision: [ensureEpicExists] answers true exactly when the
    lookup succeeded with an issue whose type name is ["Epic"], and it
    never answers true together with an error. *)
Theorem earlier_ensureEpicExists_true name (s : Earlier.State W) err :
  (Earlier.ensureEpicExists client name s).2 = Next (true, err) ↔
  err = None ∧
  ∃ w issue resp fields,
    Issue_Get client (Earlier.world s) name "issuetype" = (w, (Some issue, resp, None)) ∧
    jira.Issue.Fields issue = Some fields ∧
    jira.IssueType.Name (jira.IssueFields.Type_ fields) = "Epic".
Proof.
  unfold_earlier.
  destruct (Issue_Get client (Earlier.world s) name "issuetype")
    as [w [[issue resp] e]] eqn:Hget.
  simpl. split.
  - intros H.
    destruct e as [e |]; [by destruct resp |].
    destruct issue as [issue |]; [| done].
    destruct (jira.Issue.Fields issue) as [fields |] eqn:Hf; [| done].
    injection H as Hb <-. apply bool_decide_eq_true in Hb.
    split; [done |]. by exists w, issue, resp, fields.
  - intros (-> & w' & issue' & resp' & fields & [= -> -> -> ->] & Hf & Hty).
    rewrite Hf. by rewrite bool_decide_eq_true_2.
Qed.


Context (ReadFile : string → string + error).
Context (UnmarshalTickets : string → Heap → Heap * list Earlier.Ticket * option error).
Context (UnmarshalCreds : string → Creds * option error).
Context (ParseFiles : string → Earlier.Template + error).
Context (NewClient : string → option error).

Lemma earlier_ensureEpicExists_events name (s : Earlier.State W) :
  ∃ err rest,
    Earlier.trace (Earlier.ensureEpicExists client name s).1
    = Earlier.trace s ++ Earlier.EvIssueGet name "issuetype" err :: rest ∧
    Earlier.issueGets rest = [] ∧ Earlier.executes rest = [] ∧ Earlier.prints rest = [].
Proof.
  unfold_earlier.
  destruct (Issue_Get client (Earlier.world s) name "issuetype")
    as [w [[issue resp] err]] eqn:Hget.
  simpl. exists err. destruct err as [e |].
  - destruct resp as [resp |]; simpl.
    + eexists [_]. by rewrite <- !app_assoc.
    + by exists [].
  - exists []. destruct issue as [issue |]; [| done].
    by destruct (jira.Issue.Fields issue).
Qed.

(** Earlier revision: [main] executes a template or prints an issue only
    when the lookup of the epic's name succeeded with an issue whose type
    name is ["Epic"]; it makes at most one call to the tracker; and the
    epic it writes into the parameters and the printed fields has the
    name from the command line as its key. *)
Theorem earlier_main_epic flags (s : Earlier.State W) :
  ∃ evs,
    Earlier.trace (Earlier.main client ReadFile UnmarshalTickets UnmarshalCreds
                     ParseFiles NewClient flags s).1 = Earlier.trace s ++ evs ∧
    (length (Earlier.issueGets evs) ≤ 1)%nat ∧
    Forall (λ d, Earlier.dataParams d ≫= (.!! "epic")
                 = Some (VString (epicName flags))) (Earlier.executes evs) ∧
    Forall (λ f, jira.Epic.Key <$> jira.IssueFields.Epic f = Some (epicName flags))
           (Earlier.prints evs) ∧
    (Earlier.executes evs ≠ [] ∨ Earlier.prints evs ≠ [] →
     ∃ w issue resp fields,
       Issue_Get client (Earlier.world s) (epicName flags) "issuetype"
         = (w, (Some issue, resp, None)) ∧
       jira.Issue.Fields issue = Some fields ∧
       jira.IssueType.Name (jira.IssueFields.Type_ fields) = "Epic").
Proof.
  unfold Earlier.main, Earlier.loadTickets, Earlier.emit, Earlier.panic,
    mbind, mret, Earlier.M_bind, Earlier.M_ret.
  destruct (getCreds _ _ _) as [[creds |] [e |]];
    try (exists []; rewrite app_nil_r; split_and!; try done; simpl; try lia; naive_solver).
  destruct (NewClient _);
    [exists []; rewrite app_nil_r; split_and!; try done; simpl; try lia; naive_solver |].
  destruct (Earlier.loadTemplate _ (summaryTemplatePath flags)) as [T1 |];
    [| eexists [_]; split_and!; try done; simpl; try lia; naive_solver].
  destruct (Earlier.loadTemplate _ (descriptionTemplatePath flags)) as [T2 |];
    [| eexists [_]; split_and!; try done; simpl; try lia; naive_solver].
  destruct (ReadFile (ticketsFilePath flags)) as [data |];
    [| eexists [_]; split_and!; try done; simpl; try lia; naive_solver].
  destruct (UnmarshalTickets _ _) as [[h tickets] [e |]] eqn:Hun;
    [eexists [_]; split_and!; try done; simpl; try lia; naive_solver |].
  simpl.
  set (s1 := {| Earlier.world := Earlier.world s; Earlier.heap := h;
                Earlier.trace := Earlier.trace s ++
                  [Earlier.EvSetBasicAuth (User creds) (Password creds)] |}).
  destruct (earlier_ensureEpicExists_events (epicName flags) s1)
    as (err & rest0 & Htr0 & Hg0 & Hx0 & Hp0).
  pose proof (earlier_ensureEpicExists_inv (epicName flags) s1) as Htrue.
  destruct (Earlier.ensureEpicExists client (epicName flags) s1) as [s2 r2].
  simpl in Htr0.
  assert (Hs2 : Earlier.trace s2 = Earlier.trace s ++
            Earlier.EvSetBasicAuth (User creds) (Password creds)
            :: Earlier.EvIssueGet (epicName flags) "issuetype" err :: rest0).
  { rewrite Htr0. simpl. by rewrite <- app_assoc. }
  assert (Hquiet : ∀ more,
            Earlier.issueGets more = [] → Earlier.executes more = [] →
            Earlier.prints more = [] →
            let evs := Earlier.EvSetBasicAuth (User creds) (Password creds)
                       :: Earlier.EvIssueGet (epicName flags) "issuetype" err
                       :: rest0 ++ more in
            (length (Earlier.issueGets evs) ≤ 1)%nat ∧
            Earlier.executes evs = [] ∧ Earlier.prints evs = []).
  { intros more Hg Hx Hp. simpl. unfold Earlier.issueGets, Earlier.executes,
      Earlier.prints in *. simpl. rewrite !omap_app, Hg0, Hx0, Hp0, Hg, Hx, Hp. done. }
  destruct r2 as [[haveEpic err'] | e | v]; simpl.
  2, 3: exists (Earlier.EvSetBasicAuth (User creds) (Password creds)
            :: Earlier.EvIssueGet (epicName flags) "issuetype" err :: rest0 ++ []);
    destruct (Hquiet [] eq_refl eq_refl eq_refl) as (? & -> & ->);
    rewrite app_nil_r in *; split_and!; try done; naive_solver.
  destruct (bool_decide (err' ≠ None) || negb haveEpic) eqn:Hcond; simpl.
  { eexists (Earlier.EvSetBasicAuth (User creds) (Password creds)
            :: Earlier.EvIssueGet (epicName flags) "issuetype" err :: rest0 ++ [_]).
    destruct (Hquiet [Earlier.EvFprintf Stderr
                        ("Looking for epic %s with result %v." +:+ LF)
                        [Earlier.OString (epicName flags); Earlier.OBool haveEpic]]
                eq_refl eq_refl eq_refl) as (? & -> & ->).
    split_and!; try done; [| naive_solver].
    rewrite Hs2. simpl. rewrite <- !app_assoc. done. }
  apply orb_false_iff in Hcond as [Herr Hhave].
  apply negb_false_iff in Hhave as ->.
  apply bool_decide_eq_false in Herr. apply dec_stable in Herr as ->.
  destruct (Htrue None eq_refl) as (_ & w & issue & resp & fields & Hget & Hf & Hty).
  destruct (earlier_createIssues_spec T1 T2 (Earlier.epicNamed (epicName flags)) tickets s2)
    as (evs1 & n & Htr1 & Hg1 & _ & Hx1 & Hp1 & _).
  exists (Earlier.EvSetBasicAuth (User creds) (Password creds)
          :: Earlier.EvIssueGet (epicName flags) "issuetype" err :: rest0 ++ evs1).
  assert (Hfin : Earlier.trace (Earlier.createIssues T1 T2
                   (Some (Earlier.epicNamed (epicName flags))) tickets s2).1
                 = Earlier.trace s ++
                   Earlier.EvSetBasicAuth (User creds) (Password creds)
                   :: Earlier.EvIssueGet (epicName flags) "issuetype" err :: rest0 ++ evs1).
  { rewrite Htr1, Hs2, <- app_assoc. done. }
  split_and!.
  - by destruct (Earlier.createIssues T1 T2 _ tickets s2) as [s' [[] | |]].
  - unfold Earlier.issueGets in *. simpl. rewrite omap_app, Hg0, Hg1. simpl. lia.
  - unfold Earlier.executes in *. simpl. rewrite omap_app, Hx0. simpl.
    eapply Forall_impl; [exact Hx1 |]. intros d (t & _ & [p Hp] & ->).
    unfold Earlier.contextOf. rewrite Hp. simpl. by rewrite lookup_insert_eq.
  - unfold Earlier.prints in *. simpl. rewrite omap_app, Hp0. simpl. rewrite Hp1.
    apply Forall_fmap, Forall_forall. by intros t _.
  - intros _. by exists w, issue, resp, fields.
Qed.

End EarlierTheorems.

(** ** The properties on the small tracker *)

Lemma getEpic_epic_iff_witness :
  (getEpic Demo.tracker "PROJ-1" Demo.state0).2 = Next (Some Demo.epic1, None) ∧
  ∃ w issue resp fields,
    Issue_Get Demo.tracker 0%nat "PROJ-1" "issuetype" = (w, (Some issue, resp, None)) ∧
    jira.Issue.Fields issue = Some fields ∧
    jira.IssueType.Name (jira.IssueFields.Type_ fields) = "Epic" ∧
    Atoi (jira.Issue.ID issue) = inl 10001 ∧
    jira.Issue.Key issue = "PROJ-1".
Proof.
  assert (H : (getEpic Demo.tracker "PROJ-1" Demo.state0).2 = Next (Some Demo.epic1, None))
    by (vm_compute; reflexivity).
  split; [exact H |].
  destruct (proj1 (getEpic_epic_iff Demo.tracker "PROJ-1" Demo.state0 Demo.epic1 None) H)
    as (_ & w & issue & resp & fields & H1 & H2 & H3 & H4 & H5 & _).
  exists w, issue, resp, fields. split_and!; [exact H1 | exact H2 | exact H3 | exact H4 |].
  symmetry. exact H5.
Defined.

Lemma main_first_remote_call_witness :
  trace (MoreRuns.runMain "PROJ-1").1 = trace Demo.state0 ++ MoreRuns.eventsOfMain "PROJ-1" ∧
  Exists remoteCall (MoreRuns.eventsOfMain "PROJ-1") ∧
  ∃ err rest,
    MoreRuns.eventsOfMain "PROJ-1"
    = EvSetBasicAuth "me" "secret" :: EvIssueGet "PROJ-1" "issuetype" err :: rest ∧
    issueGets rest = [].
Proof.
  assert (H1 : trace (MoreRuns.runMain "PROJ-1").1
               = trace Demo.state0 ++ MoreRuns.eventsOfMain "PROJ-1") by reflexivity.
  assert (H2 : Exists remoteCall (MoreRuns.eventsOfMain "PROJ-1"))
    by (vm_compute; apply Exists_cons_tl, Exists_cons_hd; exact I).
  split_and!; [exact H1 | exact H2 |].
  destruct (main_first_remote_call Demo.tracker Demo.readFile MoreRuns.unmarshalTwo
              Demo.unmarshalCreds Demo.parseFiles Demo.newClient (Demo.flags "PROJ-1")
              Demo.state0 _ H1 H2)
    as (creds & T1 & T2 & h & tickets & err & rest & (Hc & _) & Hevs & Hg).
  injection Hc as <-. exists err, rest. split; [exact Hevs | exact Hg].
Defined.

Lemma main_normal_end_witness :
  MoreRuns.runMain "PROJ-1" = ((MoreRuns.runMain "PROJ-1").1, Next tt) ∧
  ∃ results, length results = 2%nat ∧
    MoreRuns.eventsOfMain "PROJ-1"
    = EvSetBasicAuth "me" "secret" :: EvIssueGet "PROJ-1" "issuetype" None
      :: successEvents (contextOf Demo.heap0 Demo.epic1) ∅
           [Runs.ticketX1; Runs.ticketX2] results.
Proof.
  assert (H : MoreRuns.runMain "PROJ-1" = ((MoreRuns.runMain "PROJ-1").1, Next tt))
    by (vm_compute; reflexivity).
  split; [exact H |].
  destruct (main_normal_end Demo.tracker Demo.readFile MoreRuns.unmarshalTwo
              Demo.unmarshalCreds Demo.parseFiles Demo.newClient (Demo.flags "PROJ-1")
              Demo.state0 _ H)
    as (creds & T1 & T2 & h & tickets & w & issue & resp & fields & id & results &
        (Hc & _ & _ & _ & data & _ & Hun) & Hget & _ & _ & Hid & Hlen & Htr).
  injection Hc as <-. injection Hun as <- <-. injection Hget as <- <- <-.
  injection Hid as <-.
  exists results. split; [exact Hlen |]. exact Htr.
Defined.

Lemma main_tickets_need_epic_witness :
  lookups (MoreRuns.eventsOfMain "PROJ-1") ≠ [] ∧
  ∃ w issue resp fields id,
    Issue_Get Demo.tracker 0%nat "PROJ-1" "issuetype" = (w, (Some issue, resp, None)) ∧
    jira.Issue.Fields issue = Some fields ∧
    jira.IssueType.Name (jira.IssueFields.Type_ fields) = "Epic" ∧
    Atoi (jira.Issue.ID issue) = inl id.
Proof.
  assert (H : lookups (MoreRuns.eventsOfMain "PROJ-1") ≠ []) by (vm_compute; discriminate).
  split; [exact H |].
  exact (main_tickets_need_epic Demo.tracker Demo.readFile MoreRuns.unmarshalTwo
           Demo.unmarshalCreds Demo.parseFiles Demo.newClient (Demo.flags "PROJ-1")
           Demo.state0 (MoreRuns.eventsOfMain "PROJ-1") eq_refl (or_introl H)).
Defined.

Lemma main_uses_issue_key_witness :
  Issue_Get Demo.tracker 0%nat "PROJ-1" "issuetype"
  = (0%nat, (Some (Demo.issueOfType "10001" "PROJ-1" Demo.epicType),
             Some (Demo.response "GET issue"), None)) ∧
  ∃ evs, trace (MoreRuns.runMain "PROJ-1").1 = trace Demo.state0 ++ evs ∧
    Forall (λ d, dataParams d ≫= (.!! "epic") = Some (VString "PROJ-1")) (executes evs).
Proof.
  assert (H : Issue_Get Demo.tracker 0%nat "PROJ-1" "issuetype"
              = (0%nat, (Some (Demo.issueOfType "10001" "PROJ-1" Demo.epicType),
                         Some (Demo.response "GET issue"), None))) by reflexivity.
  split; [exact H |].
  destruct (main_uses_issue_key Demo.tracker Demo.readFile MoreRuns.unmarshalTwo
              Demo.unmarshalCreds Demo.parseFiles Demo.newClient (Demo.flags "PROJ-1")
              Demo.state0 _ _ _ H) as (evs & Htr & Hx & _).
  exists evs. split; [exact Htr | exact Hx].
Defined.

Lemma createIssues_nil_trace_witness :
  Demo.run [Runs.ticketX1; Runs.ticketX2]
  = ((Demo.run [Runs.ticketX1; Runs.ticketX2]).1, Next tt) ∧
  ∃ results, length results = 2%nat ∧
    trace (Demo.run [Runs.ticketX1; Runs.ticketX2]).1
    = trace Demo.state0 ++
      successEvents (contextOf Demo.heap0 Demo.epic1) ∅
        [Runs.ticketX1; Runs.ticketX2] results.
Proof.
  assert (H : Demo.run [Runs.ticketX1; Runs.ticketX2]
              = ((Demo.run [Runs.ticketX1; Runs.ticketX2]).1, Next tt))
    by (vm_compute; reflexivity).
  split; [exact H |].
  destruct (createIssues_nil_trace Demo.tracker Demo.summaryTmpl Demo.descriptionTmpl
              Demo.epic1 [Runs.ticketX1; Runs.ticketX2] Demo.state0 _ H)
    as (results & Hlen & Htr & _).
  exists results. split; [exact Hlen | exact Htr].
Defined.

Lemma createIssues_error_origin_witness :
  Demo.run [Runs.ticketX1; Runs.ticketZ; Runs.ticketX2]
  = ((Demo.run [Runs.ticketX1; Runs.ticketZ; Runs.ticketX2]).1,
     Return "500 Internal Server Error") ∧
  ∃ pre t post evs,
    [Runs.ticketX1; Runs.ticketZ; Runs.ticketX2] = pre ++ t :: post ∧
    trace (Demo.run [Runs.ticketX1; Runs.ticketZ; Runs.ticketX2]).1
    = trace Demo.state0 ++ evs ∧
    length (created evs) = length pre.
Proof.
  assert (H : Demo.run [Runs.ticketX1; Runs.ticketZ; Runs.ticketX2]
              = ((Demo.run [Runs.ticketX1; Runs.ticketZ; Runs.ticketX2]).1,
                 Return "500 Internal Server Error"))
    by (vm_compute; reflexivity).
  split; [exact H |].
  destruct (createIssues_error_origin Demo.tracker Demo.summaryTmpl Demo.descriptionTmpl
              (Some Demo.epic1) [Runs.ticketX1; Runs.ticketZ; Runs.ticketX2]
              Demo.state0 _ _ H)
    as (pre & t & post & evs & Heq & Htr & Hlen & _).
  exists pre, t, post, evs. split_and!; [exact Heq | exact Htr | exact Hlen].
Defined.

Lemma createIssues_panic_origin_witness :
  Demo.run [Runs.ticketX1; Runs.ticketE]
  = ((Demo.run [Runs.ticketX1; Runs.ticketE]).1, Panic indexOutOfRange) ∧
  ∃ pre t post evs,
    [Runs.ticketX1; Runs.ticketE] = pre ++ t :: post ∧
    trace (Demo.run [Runs.ticketX1; Runs.ticketE]).1 = trace Demo.state0 ++ evs.
Proof.
  assert (H : Demo.run [Runs.ticketX1; Runs.ticketE]
              = ((Demo.run [Runs.ticketX1; Runs.ticketE]).1, Panic indexOutOfRange))
    by (vm_compute; reflexivity).
  split; [exact H |].
  destruct (createIssues_panic_origin Demo.tracker Demo.summaryTmpl Demo.descriptionTmpl
              (Some Demo.epic1) [Runs.ticketX1; Runs.ticketE] Demo.state0 _ _ H)
    as (pre & t & post & evs & Heq & Htr & _).
  exists pre, t, post, evs. split; [exact Heq | exact Htr].
Defined.

Lemma earlier_createIssues_prints_witness :
  MoreRuns.earlierRun.2 = Next tt ∧
  ∃ evs, Earlier.trace MoreRuns.earlierRun.1 = Earlier.trace MoreRuns.earlierState0 ++ evs ∧
    Earlier.issueGets evs = [] ∧
    length (Earlier.prints evs) = length MoreRuns.earlierTickets.
Proof.
  assert (H : MoreRuns.earlierRun.2 = Next tt) by (vm_compute; reflexivity).
  split; [exact H |].
  destruct (earlier_createIssues_prints MoreRuns.earlierSummary MoreRuns.earlierDescription
              Demo.epic1 MoreRuns.earlierTickets MoreRuns.earlierState0)
    as (evs & Htr & Hg & _ & Hall & _).
  exists evs. split_and!; [exact Htr | exact Hg | exact (Hall H)].
Defined.

Lemma earlier_ensureEpicExists_true_witness :
  (Earlier.ensureEpicExists Demo.tracker "PROJ-1" MoreRuns.earlierState0).2
  = Next (true, None) ∧
  ∃ w issue resp fields,
    Issue_Get Demo.tracker 0%nat "PROJ-1" "issuetype" = (w, (Some issue, resp, None)) ∧
    jira.Issue.Fields issue = Some fields ∧
    jira.IssueType.Name (jira.IssueFields.Type_ fields) = "Epic".
Proof.
  assert (H : (Earlier.ensureEpicExists Demo.tracker "PROJ-1" MoreRuns.earlierState0).2
              = Next (true, None)) by (vm_compute; reflexivity).
  split; [exact H |].
  exact (proj2 (proj1 (earlier_ensureEpicExists_true Demo.tracker "PROJ-1"
                         MoreRuns.earlierState0 None) H)).
Defined.

Lemma earlier_main_epic_witness :
  ∃ evs,
    Earlier.trace (MoreRuns.earlierRunMain "PROJ-1").1
    = Earlier.trace MoreRuns.earlierState0 ++ evs ∧
    Earlier.prints evs ≠ [] ∧
    Forall (λ f, jira.Epic.Key <$> jira.IssueFields.Epic f = Some "PROJ-1")
           (Earlier.prints evs) ∧
    ∃ w issue resp fields,
      Issue_Get Demo.tracker 0%nat "PROJ-1" "issuetype" = (w, (Some issue, resp, None)) ∧
      jira.Issue.Fields issue = Some fields ∧
      jira.IssueType.Name (jira.IssueFields.Type_ fields) = "Epic".
Proof.
  destruct (earlier_main_epic Demo.tracker Demo.readFile MoreRuns.earlierUnmarshal
              Demo.unmarshalCreds MoreRuns.earlierParse Demo.newClient
              (Demo.flags "PROJ-1") MoreRuns.earlierState0)
    as (evs & Htr & _ & _ & Hp & Hneed).
  assert (H : Earlier.prints evs ≠ []).
  { assert (Hev : evs = Earlier.trace (MoreRuns.earlierRunMain "PROJ-1").1).
    { unfold MoreRuns.earlierRunMain. rewrite Htr. reflexivity. }
    rewrite Hev. vm_compute. discriminate. }
  exists evs. split_and!; [exact Htr | exact H | exact Hp | exact (Hneed (or_intror H))].
Defined.

Lemma epic_param_is_epic_key_witness :
  mapAt Demo.heap0 2%positive !! "epic" = Some (VString "OTHER-9") ∧
  (∃ evs d,
     trace (iteration Demo.tracker Demo.summaryTmpl Demo.descriptionTmpl
              (Some Demo.epic1) Runs.ticketX2 initialLocals Demo.state0).1
     = trace Demo.state0 ++ evs ∧
     head (executes evs) = Some d ∧
     Forall (λ d', d' = d) (executes evs) ∧
     dataProject d = Project Runs.ticketX2 ∧
     dataParams d
     = Some (<["epic" := VString (jira.Epic.Key Demo.epic1)]>
               (mapAt (heap Demo.state0) 2%positive)) ∧
     dataParams d ≫= (.!! "epic") = Some (VString (jira.Epic.Key Demo.epic1))) ∧
  (∃ evs, trace (Demo.run [Runs.ticketX1; Runs.ticketX2]).1 = trace Demo.state0 ++ evs ∧
     executes evs
     = [Runs.ticketX1; Runs.ticketX2]
         ≫= (λ t, [contextOf (heap Demo.state0) Demo.epic1 t;
                   contextOf (heap Demo.state0) Demo.epic1 t])).
Proof.
  assert (H0 : mapAt Demo.heap0 2%positive !! "epic" = Some (VString "OTHER-9"))
    by (vm_compute; reflexivity).
  assert (H1 : Params Runs.ticketX2 = Some 2%positive) by reflexivity.
  assert (H2 : resolvedProject Demo.tracker initialLocals Runs.ticketX2
                 (world Demo.state0) = Some (Some Demo.projectX))
    by (vm_compute; reflexivity).
  assert (H3 : jira.Project.IssueTypes Demo.projectX = [Demo.story; Demo.bug])
    by reflexivity.
  assert (H4 : (Demo.run [Runs.ticketX1; Runs.ticketX2]).2 = Next tt)
    by (vm_compute; reflexivity).
  destruct (epic_param_is_epic_key Demo.tracker Demo.summaryTmpl Demo.descriptionTmpl
              Demo.epic1 [Runs.ticketX1; Runs.ticketX2] Demo.state0)
    as [(evs & Htr & _ & Hnil) Hit].
  split; [exact H0 |]. split.
  - exact (Hit Runs.ticketX2 initialLocals Demo.state0 2%positive Demo.projectX
             Demo.story [Demo.bug] H1 H2 H3).
  - exists evs. split; [exact Htr | exact (Hnil H4)].
Defined.

Lemma one_epic_link_witness :
  (∃ evs issue f,
     trace (iteration Demo.tracker Demo.summaryTmpl Demo.descriptionTmpl
              (Some Demo.epic1) Runs.ticketX2 initialLocals Demo.state0).1
     = trace Demo.state0 ++ evs ∧
     creates evs = [issue] ∧
     jira.Issue.Fields issue = Some f ∧
     ((CustomEpicField Runs.ticketX2 ≠ "" ∧
       jira.IssueFields.Unknowns f
       = Some {[ CustomEpicField Runs.ticketX2 := VString (jira.Epic.Key Demo.epic1) ]} ∧
       jira.IssueFields.Epic f = None) ∨
      (CustomEpicField Runs.ticketX2 = "" ∧
       jira.IssueFields.Epic f = Some Demo.epic1 ∧
       jira.IssueFields.Unknowns f = None))) ∧
  (∃ evs, trace (Demo.run [Runs.ticketX1; Runs.ticketX2]).1 = trace Demo.state0 ++ evs ∧
     length (creates evs) = length [Runs.ticketX1; Runs.ticketX2]).
Proof.
  assert (H1 : Params Runs.ticketX2 = Some 2%positive) by reflexivity.
  assert (H2 : resolvedProject Demo.tracker initialLocals Runs.ticketX2
                 (world Demo.state0) = Some (Some Demo.projectX))
    by (vm_compute; reflexivity).
  assert (H3 : jira.Project.IssueTypes Demo.projectX = [Demo.story; Demo.bug])
    by reflexivity.
  assert (H4 : (Demo.summaryTmpl (contextOf (heap Demo.state0) Demo.epic1 Runs.ticketX2)).2
               = None) by reflexivity.
  assert (H5 : (Demo.descriptionTmpl
                  (contextOf (heap Demo.state0) Demo.epic1 Runs.ticketX2)).2 = None)
    by (vm_compute; reflexivity).
  assert (H6 : (Demo.run [Runs.ticketX1; Runs.ticketX2]).2 = Next tt)
    by (vm_compute; reflexivity).
  destruct (one_epic_link Demo.tracker Demo.summaryTmpl Demo.descriptionTmpl
              Demo.epic1 [Runs.ticketX1; Runs.ticketX2] Demo.state0)
    as [(evs & Htr & _ & Hnil) Hit].
  split.
  - exact (Hit Runs.ticketX2 initialLocals Demo.state0 2%positive Demo.projectX
             Demo.story [Demo.bug] H1 H2 H3 H4 H5).
  - exists evs. split; [exact Htr | exact (Hnil H6)].
Defined.
